(** * trading-server: venue adapter, order router, strategy model and
      timeframe scheduler, embedded from the Python sources

    Sources covered:
    - [misc testing/model_test.py]: [required_timeframes];
    - [model.py]: [EMACrossTestingOnly.run];
    - [bitmex.py]: [get_position], [get_executions], [get_orders],
      [place_single_order], [place_bulk_orders], [cancel_orders],
      [format_orders].

    Python values coming from the venue are JSON values; dictionaries are
    finite maps keyed by strings.  Exceptions are explicit: every function
    that can raise returns a [result].  Functions that talk to the venue
    run in a state-and-exception monad whose state records the requests
    sent, so that "performs no venue request" is a statement about that
    record.  Calls to [print] and the [logger.info] call of [run] have no
    part in any result and are left out. *)

From Stdlib Require Import ZArith QArith Qround String Ascii List Lia DecimalString.
From Stdlib Require Import DecimalN.
From stdpp Require Import base option list gmap strings.
Import ListNotations.

Open Scope string_scope.
Open Scope list_scope.
Open Scope Z_scope.

Set Warnings "-register-all".

(** ** Python values and exceptions *)

(** A decoded JSON document ([requests.Response.json()]).  Numbers are
    rationals: every JSON integer and every finite double is one. *)
Inductive json : Type :=
| JNull
| JBool (b : bool)
| JNum (q : Q)
| JStr (s : string)
| JList (l : list json)
| JDict (d : gmap string json).

(** The exceptions the embedded code can raise.  [Exception args] is
    Python's [raise Exception(a, b, ...)]; [SystemExit] is [sys.exit]. *)
Inductive exn : Type :=
| Exception (args : list json)
| KeyError (key : string)
| IndexError
| TypeError
| AttributeError
| ValueError
| JSONDecodeError
| ZeroDivisionError
| SystemExit (code : Z).

Inductive result (A : Type) : Type :=
| Return (a : A)
| Raise (e : exn).
Arguments Return {A} a.
Arguments Raise {A} e.

Definition result_bind {A B} (f : A → result B) (m : result A) : result B :=
  match m with
  | Return a => f a
  | Raise e => Raise e
  end.

Definition result_map {A B} (f : A → B) (m : result A) : result B :=
  match m with
  | Return a => Return (f a)
  | Raise e => Raise e
  end.

#[global] Instance result_fmap : FMap result := @result_map.
#[global] Instance result_mret : MRet result := @Return.
#[global] Instance result_mbind : MBind result := @result_bind.

(** [try: body except KeyError: handler] *)
Definition except_KeyError {A} (body : result A) (handler : result A) : result A :=
  match body with
  | Raise (KeyError _) => handler
  | other => other
  end.

(** A [for] loop threading an accumulator, stopping at the first raise. *)
Fixpoint foldM {A B} (f : B → A → result B) (acc : B) (l : list A) : result B :=
  match l with
  | [] => Return acc
  | x :: rest => acc' ← f acc x; foldM f acc' rest
  end.

Definition str_in (s : string) (l : list string) : bool :=
  existsb (String.eqb s) l.

(** ** Timeframe scheduler ([misc testing/model_test.py]) *)

Module Timeframes.

(** [str.isdigit] and the class [[a-zA-Z]] on ASCII text, one byte per
    character: there [str.isdigit] holds of the ten decimal digits alone and
    [int] reads them in base ten.  Python's [str.isdigit] and [int] also
    know the digits of other scripts; timeframes with characters beyond
    ASCII are outside what this module describes. *)
Definition isdigit (c : ascii) : bool :=
  let n := N_of_ascii c in ((48 <=? n) && (n <=? 57))%N.

Definition isalpha (c : ascii) : bool :=
  let n := N_of_ascii c in
  (((65 <=? n) && (n <=? 90)) || ((97 <=? n) && (n <=? 122)))%N.

(** [''.join(filter(str.isdigit, timeframe))] *)
Definition digits_of (s : string) : list ascii :=
  List.filter isdigit (list_ascii_of_string s).

(** [int(ds)]: [ValueError] on the empty string. *)
Definition int_of_digits (ds : list ascii) : result N :=
  match ds with
  | [] => Raise ValueError
  | _ => Return (fold_left (λ acc c, 10 * acc + (N_of_ascii c - 48))%N ds 0%N)
  end.

(** [str(n)] *)
Definition str_of_int (n : N) : string :=
  NilZero.string_of_uint (N.to_uint n).

(** [re.findall("[a-zA-Z]+", s)]: the maximal runs of letters, left to
    right; [cur] is the run being read. *)
Fixpoint letter_runs (cur : string) (s : string) : list string :=
  match s with
  | EmptyString => if String.eqb cur "" then [] else [cur]
  | String c rest =>
      if isalpha c then letter_runs (cur +:+ String c "") rest
      else (if String.eqb cur "" then [] else [cur]) ++ letter_runs "" rest
  end.

Definition findall_alpha (s : string) : list string := letter_runs "" s.

(** [if t not in timeframes and t not in to_add: to_add.append(t)] *)
Definition append_unless_present (timeframes to_add : list string) (t : string)
  : list string :=
  if negb (str_in t timeframes) && negb (str_in t to_add)
  then to_add ++ [t] else to_add.

(** One iteration of the loop over [timeframes] (lines 16-42). *)
Definition derive_one (timeframes to_add : list string) (timeframe : string)
  : result (list string) :=
  if String.eqb timeframe "1Min" then
    Return (append_unless_present timeframes to_add "3Min")
  else if String.eqb timeframe "3Min" then
    Return (append_unless_present timeframes to_add "5Min")
  else if String.eqb timeframe "5Min" then
    Return (append_unless_present timeframes to_add "15Min")
  else if str_in timeframe ["12H"; "16H"] then
    Return (append_unless_present timeframes to_add "1D")
  else if String.eqb timeframe "30Min" then
    Return (append_unless_present timeframes to_add "1H")
  else
    num ← int_of_digits (digits_of timeframe);
    match findall_alpha timeframe with
    | [] => Raise IndexError
    | code0 :: _ => Return (to_add ++ [str_of_int (num * 2) +:+ code0])
    end.

Definition derived (timeframes : list string) : result (list string) :=
  foldM (derive_one timeframes) [] timeframes.

(** [required_timeframes(timeframes)] mutates its argument; the result
    here is the content of the list when the call returns. *)
Definition required_timeframes (timeframes : list string) : result (list string) :=
  to_add ← derived timeframes;
  Return (timeframes ++ to_add).

End Timeframes.

(** ** Strategy model ([model.py]) *)

(** [l[i]] with Python's negative indices. *)
Definition py_index {A} (l : list A) (i : Z) : result A :=
  let n := Z.of_nat (length l) in
  let j := if i <? 0 then i + n else i in
  if (0 <=? j) && (j <? n) then
    match l !! Z.to_nat j with
    | Some x => Return x
    | None => Raise IndexError
    end
  else Raise IndexError.

(** [try: body except IndexError: ...; sys.exit(0)] *)
Definition except_IndexError_exit {A} (body : result A) : result A :=
  match body with
  | Raise IndexError => Raise (SystemExit 0)
  | other => other
  end.

Module Model.

Section EMACrossTestingOnly.

(** What the model does not own: the type of the bar index entries with its
    [==] and [int(ts.timestamp())], the type of prices and indicator values
    with its [<] ([a > b] is [b < a]), and the exchange object handed
    through to the signal. *)
Context {time num exchange : Type}.
Variable time_eqb : time → time → bool.
Variable timestamp : time → Z.
Variable ltb : num → num → bool.

(** One row of [op_data[timeframe]]; an indicator cell may hold [None]. *)
Record bar : Type := {
  index : time;
  open : num;
  EMA10 : option num;
  EMA20 : option num }.

(** The dicts [longs] and [shorts]: [{'price': [], 'time': []}]. *)
Record entries : Type := {
  price : list num;
  time_ : list time }.

(** [SignalEvent(symbol, entry_ts, direction, timeframe, name, exchange,
    entry_price, "Market", None, None, None, False, None, dataset)]; the five
    constant arguments are left out. *)
Record SignalEvent : Type := {
  symbol : string;
  entry_ts : Z;
  direction : string;
  timeframe : string;
  strategy : string;
  venue : exchange;
  entry_price : num;
  entry_type : string;
  dataset : list bar }.

Definition name : string := "EMA Cross - Testing only".

Definition operating_timeframes : list string := ["1Min"].

(** [a < b] on cells: a [None] operand is a [TypeError]. *)
Definition cell_lt (a b : option num) : result bool :=
  match a, b with
  | Some x, Some y => Return (ltb x y)
  | _, _ => Raise TypeError
  end.

(** [a and b] on comparisons: [b] is evaluated only when [a] holds. *)
Definition and_then (a b : result bool) : result bool :=
  x ← a; if (x : bool) then b else Return false.

Definition append_entry (e : entries) (row : bar) : entries :=
  {| price := price e ++ [open row]; time_ := time_ e ++ [index row] |}.

(** Body of the loop [for i in range(len(op_data[timeframe].index))]
    (lines 173-192); the accumulator is [(longs, shorts)]. *)
Definition check_cross (features : list bar) (acc : entries * entries) (i : nat)
  : result (entries * entries) :=
  let '(longs, shorts) := acc in
  row ← py_index features (Z.of_nat i);
  match EMA10 row, EMA20 row with
  | Some fast, Some slow =>
      row1 ← py_index features (Z.of_nat i - 1);
      row2 ← py_index features (Z.of_nat i - 2);
      let fast_minus_1 := EMA10 row1 in
      let slow_minus_1 := EMA20 row1 in
      let fast_minus_2 := EMA10 row2 in
      let slow_minus_2 := EMA20 row2 in
      if ltb fast slow then
        c ← and_then (cell_lt slow_minus_1 fast_minus_1)
                     (cell_lt slow_minus_2 fast_minus_2);
        Return (if (c : bool) then (longs, append_entry shorts row) else acc)
      else if ltb slow fast then
        c ← and_then (cell_lt fast_minus_1 slow_minus_1)
                     (cell_lt fast_minus_2 slow_minus_2);
        Return (if (c : bool) then (append_entry longs row, shorts) else acc)
      else Return acc
  | _, _ => Return acc
  end.

Definition no_entries : entries := {| price := []; time_ := [] |}.

Definition find_crosses (features : list bar) : result (entries * entries) :=
  foldM (check_cross features) (no_entries, no_entries) (seq 0 (length features)).

(** Lines 198-234. *)
Definition emit (features : list bar) (longs shorts : entries)
    (timeframe symbol : string) (exch : exchange) : result (option SignalEvent) :=
  let signal dir entry_price entry_ts :=
    {| symbol := symbol; entry_ts := timestamp entry_ts; direction := dir;
       timeframe := timeframe; strategy := name; venue := exch;
       entry_price := entry_price; entry_type := "Market";
       dataset := features |} in
  if (0 <? Z.of_nat (length (time_ longs))) || (0 <? Z.of_nat (length (time_ shorts)))
  then
    except_IndexError_exit (
      last ← py_index features (-1);
      long_ts ← py_index (time_ longs) (-1);
      if time_eqb (index last) long_ts then
        p ← py_index (price longs) (-1);
        Return (Some (signal "LONG" p long_ts))
      else
        short_ts ← py_index (time_ shorts) (-1);
        if time_eqb (index last) short_ts then
          p ← py_index (price shorts) (-1);
          Return (Some (signal "SHORT" p short_ts))
        else Return None)
  else Return None.

(** [run(op_data, req_data, timeframe, symbol, exchange)]; [req_data] is not
    read and the logger call is left out. *)
Definition run (op_data : gmap string (list bar)) (timeframe symbol : string)
    (exch : exchange) : result (option SignalEvent) :=
  if str_in timeframe operating_timeframes then
    match op_data !! timeframe with
    | None => Raise (KeyError timeframe)
    | Some features =>
        '(longs, shorts) ← find_crosses features;
        emit features longs shorts timeframe symbol exch
    end
  else Return None.

End EMACrossTestingOnly.

End Model.

(** ** BitMEX venue adapter and order router ([bitmex.py]) *)

(** *** Operations on decoded JSON *)

(** [v[k]] for a string key [k]. *)
Definition getitem (v : json) (k : string) : result json :=
  match v with
  | JDict d =>
      match d !! k with
      | Some x => Return x
      | None => Raise (KeyError k)
      end
  | _ => Raise TypeError
  end.

(** [v == s] for a string [s]. *)
Definition eq_str (v : json) (s : string) : bool :=
  match v with
  | JStr t => String.eqb t s
  | _ => false
  end.

(** Truth value of [v] in a condition. *)
Definition truthy (v : json) : bool :=
  match v with
  | JNull => false
  | JBool b => b
  | JNum q => negb (Qeq_bool q 0)
  | JStr s => negb (String.eqb s "")
  | JList l => match l with [] => false | _ => true end
  | JDict d => match map_to_list d with [] => false | _ => true end
  end.

(** [v > 0] *)
Definition gt_zero (v : json) : result bool :=
  match v with
  | JNum q => Return (negb (Qle_bool q 0))
  | JBool b => Return b
  | _ => Raise TypeError
  end.

(** The items visited by [for x in v]. *)
Definition iter_json (v : json) : result (list json) :=
  match v with
  | JList l => Return l
  | JDict d => Return (JStr <$> (map_to_list d).*1)
  | JStr s => Return ((λ c, JStr (String c "")) <$> list_ascii_of_string s)
  | _ => Raise TypeError
  end.

Definition newline : ascii := "010"%char.

(** [s.split("\n")] *)
Fixpoint split_lines (s : string) : list string :=
  match s with
  | EmptyString => [""]
  | String c rest =>
      if Ascii.eqb c newline then "" :: split_lines rest
      else match split_lines rest with
           | line :: lines => String c line :: lines
           | [] => [String c ""]
           end
  end.

(** ["\n" in v] *)
Definition contains_newline (v : json) : result bool :=
  match v with
  | JStr s => Return (existsb (Ascii.eqb newline) (list_ascii_of_string s))
  | JList l => Return (existsb (λ x, eq_str x (String newline "")) l)
  | JDict d => Return (bool_decide (is_Some (d !! String newline "")))
  | _ => Raise TypeError
  end.

(** Keys a Python dict accepts; [1], [1.0] and [True] are one key. *)
Inductive hashable : Type :=
| HNone
| HNum (num : Z) (den : positive)
| HStr (s : string).

#[global] Instance hashable_eq_dec : EqDecision hashable.
Proof. solve_decision. Defined.

#[global] Instance hashable_countable : Countable hashable.
Proof.
  refine (inj_countable'
    (λ h, match h with
          | HNone => inl ()
          | HNum n d => inr (inl (n, d))
          | HStr s => inr (inr s)
          end)
    (λ x, match x with
          | inl _ => HNone
          | inr (inl (n, d)) => HNum n d
          | inr (inr s) => HStr s
          end) _).
  by intros [].
Defined.

(** [hash(v)]: lists and dicts are unhashable. *)
Definition hash_key (v : json) : result hashable :=
  match v with
  | JNull => Return HNone
  | JBool b => Return (HNum (if b then 1 else 0) 1)
  | JNum q => let r := Qred q in Return (HNum (Qnum r) (Qden r))
  | JStr s => Return (HStr s)
  | JList _ | JDict _ => Raise TypeError
  end.

(** *** Records *)

(** An order as the order router receives it (a dict with these keys). *)
Module Intent.
Record t : Type := {
  trade_id : Z;
  order_id : string;
  venue : string;
  symbol : string;
  order_type : string;
  metatype : option string;
  void_price : option Q;
  direction : string;
  reduce_only : bool;
  post_only : bool;
  batch_size : Z;
  size : Q;
  trail : bool;
  price : option Q }.

Definition opt_eqb {A} (eqb : A → A → bool) (a b : option A) : bool :=
  match a, b with
  | Some x, Some y => eqb x y
  | None, None => true
  | _, _ => false
  end.

(** [a == b] on two such dicts. *)
Definition eqb (a b : t) : bool :=
  (trade_id a =? trade_id b) && String.eqb (order_id a) (order_id b)
  && String.eqb (venue a) (venue b) && String.eqb (symbol a) (symbol b)
  && String.eqb (order_type a) (order_type b)
  && opt_eqb String.eqb (metatype a) (metatype b)
  && opt_eqb Qeq_bool (void_price a) (void_price b)
  && String.eqb (direction a) (direction b)
  && Bool.eqb (reduce_only a) (reduce_only b)
  && Bool.eqb (post_only a) (post_only b)
  && (batch_size a =? batch_size b) && Qeq_bool (size a) (size b)
  && Bool.eqb (trail a) (trail b)
  && opt_eqb Qeq_bool (price a) (price b).
End Intent.

(** An entry of the list [format_orders] returns. *)
Module Payload.
Record t : Type := {
  symbol : string;
  side : string;
  orderQty : option Q;
  price : option Q;
  stopPx : option Q;
  clOrdID : string;
  ordType : string;
  timeInForce : option string;
  execInst : option string;
  text : option string }.
End Payload.

(** An entry of the list [place_bulk_orders] returns. *)
Module OrderRecord.
Record t : Type := {
  trade_id : Z;
  order_id : string;
  venue : string;
  symbol : string;
  order_type : string;
  metatype : option string;
  void_price : option Q;
  direction : string;
  reduce_only : bool;
  post_only : bool;
  batch_size : Z;
  size : Q;
  trail : bool;
  timestamp : Z;
  avg_fill_price : json;
  currency : json;
  venue_id : json;
  price : json;
  status : string }.
End OrderRecord.

(** An entry of the list [get_orders] returns. *)
Module Order.
Record t : Type := {
  order_id : json;
  venue_id : json;
  timestamp : Z;
  price : json;
  avg_fill_price : json;
  currency : json;
  venue : string;
  symbol : json;
  direction : string;
  size : json;
  order_type : string;
  metatype : json;
  void_price : json;
  status : string }.
End Order.

(** An entry of the list [get_executions] returns. *)
Module Execution.
Record t : Type := {
  order_id : json;
  venue_id : json;
  timestamp : Z;
  avg_exc_price : json;
  currency : json;
  symbol : json;
  direction : string;
  size : json;
  order_type : string;
  fee_type : string;
  fee_amt : json;
  total_fee : json;
  status : string }.
End Execution.

(** The dict [get_position] returns. *)
Module Position.
Record t : Type := {
  size : json;
  avg_entry_price : json;
  symbol : string;
  direction : string;
  currency : json;
  opening_timestamp : json;
  opening_size : json;
  status : string }.
End Position.

(** A value of the dict [cancel_orders] returns. *)
Module CancelConf.
Record t : Type := {
  venue_id : json;
  order_id : json;
  status : string;
  order_type : json;
  price : json }.
End CancelConf.

(** *** The venue and the other collaborators *)

(** What [session.send] returns: the status code and the decoded body
    ([None] when [.json()] cannot decode it). *)
Record response : Type := {
  status_code : Z;
  body : option json }.

(** The requests the adapter prepares.  Signing
    ([generate_request_headers]) adds headers only and is left out.
    [startTime] and [endTime] carry the epoch the source renders as text. *)
Inductive request : Type :=
| GET_position
| GET_tradeHistory (symbol : string) (count : Z) (startTime endTime : option Z)
| GET_order (symbol : option string) (count : Z) (startTime : option Z)
| POST_order (payload : Payload.t)
| POST_order_bulk (orders : list Payload.t)
| DELETE_order (orderID : list (option string)).

(** The two [logger.info] calls of [place_bulk_orders]. *)
Inductive log_entry : Type :=
| LogOverload (code : Z) (message : string)
| LogOther (code : Z) (payload : json).

(** Code this file depends on and does not contain: the venue behind
    [session.send]; [Exchange.round_increment] of the base class
    ([exchange.py]); [int(dateutil.parser.parse(x).timestamp())]; and [/] on
    two decoded numbers (floating point). *)
Class External : Type := {
  venue_state : Type;
  session_send : venue_state → request → response * venue_state;
  round_increment : option Q → string → result (option Q);
  parse_timestamp : json → result Z;
  truediv : json → json → result json }.

Module Bitmex.

Section Adapter.

Context `{External}.

(** The state a call runs in: the venue, the requests sent so far and the
    lines logged so far. *)
Record world : Type := {
  venue : venue_state;
  sent : list request;
  logged : list log_entry }.

Definition M (A : Type) : Type := world → result A * world.

Definition M_ret {A} (a : A) : M A := λ w, (Return a, w).

Definition M_bind {A B} (f : A → M B) (m : M A) : M B :=
  λ w, match m w with
       | (Return a, w') => f a w'
       | (Raise e, w') => (Raise e, w')
       end.

#[global] Instance M_mret : MRet M := @M_ret.
#[global] Instance M_mbind : MBind M := @M_bind.

Definition lift {A} (r : result A) : M A := λ w, (r, w).

Definition raise {A} (e : exn) : M A := lift (Raise e).

(** [self.session.send(request)] *)
Definition send (r : request) : M response :=
  λ w, let '(resp, v) := session_send (venue w) r in
       (Return resp, {| venue := v; sent := sent w ++ [r]; logged := logged w |}).

(** [self.logger.info(...)] *)
Definition info (e : log_entry) : M () :=
  λ w, (Return (), {| venue := venue w; sent := sent w; logged := logged w ++ [e] |}).

(** [r.json()] *)
Definition json_of (r : response) : result json :=
  match body r with
  | Some j => Return j
  | None => Raise JSONDecodeError
  end.

Fixpoint for_each {A B} (f : B → A → M B) (acc : B) (l : list A) : M B :=
  match l with
  | [] => mret acc
  | x :: rest => acc' ← f acc x; for_each f acc' rest
  end.

(** *** Status and type normalisation (lines 319-339, 424-444, 552-561) *)

Definition ord_status_fill (ordStatus : json) : result string :=
  if eq_str ordStatus "Filled" then Return "FILLED"
  else if eq_str ordStatus "Canceled" then Return "CANCELLED"
  else if eq_str ordStatus "New" then Return "NEW"
  else if eq_str ordStatus "PartiallyFilled" then Return "PARTIAL"
  else Raise (Exception [ordStatus]).

Definition ord_type_name (ordType : json) : result string :=
  if eq_str ordType "Limit" then Return "LIMIT"
  else if eq_str ordType "Market" then Return "MARKET"
  else if eq_str ordType "StopLimit" then Return "STOP_LIMIT"
  else if eq_str ordType "Stop" then Return "STOP"
  else Raise (Exception [ordType]).

(** *** [get_position] (lines 262-285) *)

Definition position_of (symbol : string) (pos : json) : result Position.t :=
  isOpen ← getitem pos "isOpen";
  let status := match isOpen with JBool true => "OPEN" | _ => "CLOSED" end in
  currentQty ← getitem pos "currentQty";
  positive ← gt_zero currentQty;
  let direction := if (positive : bool) then "LONG" else "SHORT" in
  avgEntryPrice ← getitem pos "avgEntryPrice";
  quoteCurrency ← getitem pos "quoteCurrency";
  openingTimestamp ← getitem pos "openingTimestamp";
  openingQty ← getitem pos "openingQty";
  Return {| Position.size := currentQty;
            Position.avg_entry_price := avgEntryPrice;
            Position.symbol := symbol;
            Position.direction := direction;
            Position.currency := quoteCurrency;
            Position.opening_timestamp := openingTimestamp;
            Position.opening_size := openingQty;
            Position.status := status |}.

(** The loop [for pos in response]: the first entry whose symbol matches is
    returned; falling off the end returns [None]. *)
Fixpoint first_position (symbol : string) (response : list json)
  : result (option Position.t) :=
  match response with
  | [] => Return None
  | pos :: rest =>
      s ← getitem pos "symbol";
      if eq_str s symbol then p ← position_of symbol pos; Return (Some p)
      else first_position symbol rest
  end.

Definition get_position (symbol : string) : M (option Position.t) :=
  r ← send GET_position;
  response ← lift (json_of r);
  entries ← lift (iter_json response);
  lift (first_position symbol entries).

(** *** [get_executions] (lines 287-356) *)

(** [t if t else None] on an optional epoch. *)
Definition if_truthy (t : option Z) : option Z :=
  match t with
  | Some 0 | None => None
  | Some t => Some t
  end.

Definition execution_of (res : json) : result Execution.t :=
  liq ← getitem res "lastLiquidityInd";
  let fee_type := if eq_str liq "RemovedLiquidity" then "TAKER" else "MAKER" in
  side ← getitem res "side";
  let direction := if eq_str side "Buy" then "LONG" else "SHORT" in
  ordStatus ← getitem res "ordStatus";
  fill ← ord_status_fill ordStatus;
  ordType ← getitem res "ordType";
  order_type ← ord_type_name ordType;
  clOrdID ← getitem res "clOrdID";
  orderID ← getitem res "orderID";
  ts ← getitem res "timestamp";
  timestamp ← parse_timestamp ts;
  avgPx ← getitem res "avgPx";
  currency ← getitem res "currency";
  symbol ← getitem res "symbol";
  lastQty ← getitem res "lastQty";
  commission ← getitem res "commission";
  execComm ← getitem res "execComm";
  avgPx' ← getitem res "avgPx";
  total_fee ← truediv execComm avgPx';
  Return {| Execution.order_id := clOrdID;
            Execution.venue_id := orderID;
            Execution.timestamp := timestamp;
            Execution.avg_exc_price := avgPx;
            Execution.currency := currency;
            Execution.symbol := symbol;
            Execution.direction := direction;
            Execution.size := lastQty;
            Execution.order_type := order_type;
            Execution.fee_type := fee_type;
            Execution.fee_amt := commission;
            Execution.total_fee := total_fee;
            Execution.status := fill |}.

Definition executions_of (response : list json) : result (list Execution.t) :=
  foldM (λ executions res, e ← execution_of res; Return (executions ++ [e]))
        [] response.

Definition get_executions (symbol : string) (start_timestamp end_timestamp : option Z)
    (count : Z) : M (list Execution.t) :=
  r ← send (GET_tradeHistory symbol count (if_truthy start_timestamp)
                             (if_truthy end_timestamp));
  response ← lift (json_of r);
  entries ← lift (iter_json response);
  lift (executions_of entries).

(** *** [get_orders] (lines 398-477) *)

Definition metatype_labels : list string :=
  ["ENTRY"; "STOP"; "TAKE_PROFIT"; "FINAL_TAKE_PROFIT"].

(** Lines 446-459, on the value of [res['text']]. *)
Definition metatype_of (text : json) : result json :=
  has_newline ← contains_newline text;
  if (has_newline : bool) then
    match text with
    | JStr s =>
        match split_lines s !! 1%nat with
        | Some line => Return (JStr line)
        | None => Raise IndexError
        end
    | _ => Raise AttributeError
    end
  else if existsb (eq_str text) metatype_labels then Return text
  else Return JNull.

(** Body of the loop [for res in response]: [None] when [res['clOrdID']] is
    falsy and the entry is skipped. *)
Definition order_of (res : json) : result (option Order.t) :=
  clOrdID ← getitem res "clOrdID";
  if truthy clOrdID then
    side ← getitem res "side";
    let direction := if eq_str side "Buy" then "LONG" else "SHORT" in
    ordStatus ← getitem res "ordStatus";
    fill ← ord_status_fill ordStatus;
    ordType ← getitem res "ordType";
    order_type ← ord_type_name ordType;
    text ← getitem res "text";
    metatype ← metatype_of text;
    orderID ← getitem res "orderID";
    ts ← getitem res "timestamp";
    timestamp ← parse_timestamp ts;
    price ← getitem res "price";
    avgPx ← getitem res "avgPx";
    currency ← getitem res "currency";
    symbol ← getitem res "symbol";
    orderQty ← getitem res "orderQty";
    stopPx ← getitem res "stopPx";
    Return (Some {| Order.order_id := clOrdID;
                    Order.venue_id := orderID;
                    Order.timestamp := timestamp;
                    Order.price := price;
                    Order.avg_fill_price := avgPx;
                    Order.currency := currency;
                    Order.venue := "BitMEX";
                    Order.symbol := symbol;
                    Order.direction := direction;
                    Order.size := orderQty;
                    Order.order_type := order_type;
                    Order.metatype := metatype;
                    Order.void_price := stopPx;
                    Order.status := fill |})
  else Return None.

Definition orders_of (response : list json) : result (list Order.t) :=
  foldM (λ orders res,
           o ← order_of res;
           Return (match o with Some o => orders ++ [o] | None => orders end))
        [] response.

Definition get_orders (symbol : option string) (start_timestamp : option Z)
    (count : Z) : M (list Order.t) :=
  r ← send (GET_order symbol count (if_truthy start_timestamp));
  response ← lift (json_of r);
  entries ← lift (iter_json response);
  lift (orders_of entries).

(** *** [format_orders] (lines 662-713) *)

Definition format_order (order : Intent.t) : result Payload.t :=
  price ← round_increment (Intent.price order) (Intent.symbol order);
  let symbol := Intent.symbol order in
  let side := if String.eqb (Intent.direction order) "LONG" then "Buy" else "Sell" in
  orderQty ← round_increment (Some (Intent.size order)) (Intent.symbol order);
  let payload ordType price stopPx timeInForce :=
    {| Payload.symbol := symbol;
       Payload.side := side;
       Payload.orderQty := orderQty;
       Payload.price := price;
       Payload.stopPx := stopPx;
       Payload.clOrdID := Intent.order_id order;
       Payload.ordType := ordType;
       Payload.timeInForce := Some timeInForce;
       Payload.execInst := None;
       Payload.text := Intent.metatype order |} in
  if String.eqb (Intent.order_type order) "LIMIT" then
    Return (payload "Limit" price None "GoodTillCancel")
  else if String.eqb (Intent.order_type order) "MARKET" then
    Return (payload "Market" None None "ImmediateOrCancel")
  else if String.eqb (Intent.order_type order) "STOP_LIMIT" then
    Return (payload "StopLimit" price None "GoodTillCancel")
  else if String.eqb (Intent.order_type order) "STOP" then
    Return (payload "Stop" None price "ImmediateOrCancel")
  else Raise (Exception [JStr "Incorrect order type specified."]).

Definition format_orders (orders : list Intent.t) : result (list Payload.t) :=
  foldM (λ formatted order, p ← format_order order; Return (formatted ++ [p]))
        [] orders.

(** *** [place_single_order] and [place_bulk_orders] (lines 479-588) *)

Definition place_single_order (order : Intent.t) : M response :=
  formatted ← lift (format_orders [order]);
  payload ← lift (py_index formatted 0);
  send (POST_order payload).

Definition is_market (o : Intent.t) : bool :=
  String.eqb (Intent.order_type o) "MARKET".

(** [m_o] and [nm_o] (lines 499-500); [o not in m_o] compares dicts. *)
Definition market_orders (orders : list Intent.t) : list Intent.t :=
  List.filter is_market orders.

Definition non_market_orders (orders : list Intent.t) : list Intent.t :=
  List.filter (λ o, negb (existsb (Intent.eqb o) (market_orders orders))) orders.

Definition nonempty {A} (l : list A) : bool :=
  match l with [] => false | _ => true end.

(** Lines 503-521: the responses the classification loop will visit,
    [responses + [response]]; the batch response is [None] when no batch was
    sent. *)
Definition submit (orders : list Intent.t) : M (list (option response)) :=
  let m_o := market_orders orders in
  let nm_o := non_market_orders orders in
  responses ← for_each (λ responses o,
                          r ← place_single_order o; mret (responses ++ [r]))
                       [] (List.filter (λ _, nonempty m_o) m_o);
  response ← (if nonempty nm_o then
                payload ← lift (format_orders nm_o);
                r ← send (POST_order_bulk payload);
                mret (Some r)
              else mret None);
  mret ((Some <$> responses) ++ [response]).

(** Body of the loop [for r in responses + [response]] (lines 525-543). *)
Definition classify (order_confirmations : list json) (r : option response)
  : M (list json) :=
  match r with
  | None => raise AttributeError
  | Some r =>
      let code := status_code r in
      if code =? 200 then
        res ← lift (json_of r);
        match res with
        | JList l => mret (order_confirmations ++ l)
        | JDict _ => mret (order_confirmations ++ [res])
        | _ => mret order_confirmations
        end
      else if (401 <=? code) && (code <=? 404) then
        res ← lift (json_of r);
        err ← lift (getitem res "error");
        message ← lift (getitem err "message");
        raise (Exception [JNum (inject_Z code); message])
      else if code =? 503 then
        res ← lift (json_of r);
        err ← lift (getitem res "error");
        message ← lift (getitem err "message");
        match message with
        | JStr m => info (LogOverload code m);; mret order_confirmations
        | _ => raise TypeError
        end
      else
        res ← lift (json_of r);
        info (LogOther code res);; mret order_confirmations
  end.

(** The dict [new] (lines 552-584) for a confirmation and the order it
    matched. *)
Definition updated_order (order : Intent.t) (res : json) : result OrderRecord.t :=
  ordStatus ← getitem res "ordStatus";
  fill ← ord_status_fill ordStatus;
  stopPx ← getitem res "stopPx";
  price ← (if truthy stopPx then getitem res "stopPx" else getitem res "price");
  ts ← getitem res "timestamp";
  timestamp ← parse_timestamp ts;
  avgPx ← getitem res "avgPx";
  currency ← getitem res "currency";
  orderID ← getitem res "orderID";
  Return {| OrderRecord.trade_id := Intent.trade_id order;
            OrderRecord.order_id := Intent.order_id order;
            OrderRecord.venue := Intent.venue order;
            OrderRecord.symbol := Intent.symbol order;
            OrderRecord.order_type := Intent.order_type order;
            OrderRecord.metatype := Intent.metatype order;
            OrderRecord.void_price := Intent.void_price order;
            OrderRecord.direction := Intent.direction order;
            OrderRecord.reduce_only := Intent.reduce_only order;
            OrderRecord.post_only := Intent.post_only order;
            OrderRecord.batch_size := Intent.batch_size order;
            OrderRecord.size := Intent.size order;
            OrderRecord.trail := Intent.trail order;
            OrderRecord.timestamp := timestamp;
            OrderRecord.avg_fill_price := avgPx;
            OrderRecord.currency := currency;
            OrderRecord.venue_id := orderID;
            OrderRecord.price := price;
            OrderRecord.status := fill |}.

(** The inner loop [for order in orders] for one confirmation [res]. *)
Definition match_confirmation (orders : list Intent.t)
    (updated_orders : list OrderRecord.t) (res : json) : result (list OrderRecord.t) :=
  foldM (λ updated_orders order,
           clOrdID ← getitem res "clOrdID";
           if eq_str clOrdID (Intent.order_id order) then
             new ← updated_order order res;
             Return (updated_orders ++ [new])
           else Return updated_orders)
        updated_orders orders.

(** Lines 545-588. *)
Definition match_confirmations (orders : list Intent.t) (order_confirmations : list json)
  : result (list OrderRecord.t) :=
  foldM (match_confirmation orders) [] order_confirmations.

Definition place_bulk_orders (orders : list Intent.t) : M (list OrderRecord.t) :=
  rs ← submit orders;
  order_confirmations ← for_each classify [] rs;
  lift (match_confirmations orders order_confirmations).

(** *** [cancel_orders] (lines 590-660) *)

Definition already_filled : string :=
  "Unable to cancel order due to existing state: Filled".

Definition already_canceled : string :=
  "Unable to cancel order due to existing state: Canceled".

Definition unhandled_case (v : json) : exn :=
  Exception [JStr "Unhandled cancellation message case: "; v].

(** Lines 615-619. *)
Definition cancel_price (i : json) : result json :=
  match (ordType ← getitem i "ordType";
         if eq_str ordType "Stop" then getitem i "stopPx" else getitem i "price")
  with
  | Raise (KeyError _) => Raise (Exception [JStr "Unexpected response format: "; i])
  | other => other
  end.

(** [cancel_confs[i['orderID']] = {...}]: the dict display is evaluated
    before the subscript. *)
Definition store_conf (cancel_confs : gmap hashable CancelConf.t) (i : json)
    (status : string) (price : json) : result (gmap hashable CancelConf.t) :=
  orderID ← getitem i "orderID";
  clOrdID ← getitem i "clOrdID";
  ordType ← getitem i "ordType";
  orderID' ← getitem i "orderID";
  key ← hash_key orderID';
  Return (<[key := {| CancelConf.venue_id := orderID;
                      CancelConf.order_id := clOrdID;
                      CancelConf.status := status;
                      CancelConf.order_type := ordType;
                      CancelConf.price := price |}]> cancel_confs).

(** Body of the loop [for i in response] (lines 613-658). *)
Definition cancel_entry (cancel_confs : gmap hashable CancelConf.t) (i : json)
  : result (gmap hashable CancelConf.t) :=
  price ← cancel_price i;
  except_KeyError
    (error ← getitem i "error";
     match error with
     | JNull => Return cancel_confs
     | _ =>
         if eq_str error already_filled then
           store_conf cancel_confs i "FILLED" price
         else if eq_str error already_canceled then
           store_conf cancel_confs i "CANCELLED" price
         else Raise (unhandled_case error)
     end)
    (ordStatus ← getitem i "ordStatus";
     if eq_str ordStatus "Canceled" then
       store_conf cancel_confs i "CANCELLED" price
     else Raise (unhandled_case ordStatus)).

(** [order_ids] is [None] for a null argument; an id may itself be [None]. *)
Definition cancel_orders (order_ids : option (list (option string)))
  : M (option (gmap hashable CancelConf.t)) :=
  match order_ids with
  | None => raise TypeError
  | Some [] => raise IndexError
  | Some (None :: _) => mret None
  | Some ids =>
      r ← send (DELETE_order ids);
      response ← lift (json_of r);
      let entries := match response with JList l => l | _ => [response] end in
      cancel_confs ← lift (foldM cancel_entry ∅ entries);
      mret (Some cancel_confs)
  end.

End Adapter.

End Bitmex.

(** ** Closing a position ([bitmex.py], lines 358-396) *)

(** [-v] *)
Definition py_neg (v : json) : result json :=
  match v with
  | JNum q => Return (JNum (- q))
  | JBool b => Return (JNum (- (if b then 1 else 0)))
  | _ => Raise TypeError
  end.

(** [v != 0] *)
Definition ne_zero (v : json) : bool :=
  match v with
  | JNum q => negb (Qeq_bool q 0)
  | JBool b => b
  | _ => true
  end.

(** [position[k]] on what [get_position] returned: the dict of lines
    277-285, or [None]. *)
Definition position_getitem (position : option Position.t) (k : string) : result json :=
  match position with
  | None => Raise TypeError
  | Some p =>
      if String.eqb k "size" then Return (Position.size p)
      else if String.eqb k "avg_entry_price" then Return (Position.avg_entry_price p)
      else if String.eqb k "symbol" then Return (JStr (Position.symbol p))
      else if String.eqb k "direction" then Return (JStr (Position.direction p))
      else if String.eqb k "currency" then Return (Position.currency p)
      else if String.eqb k "opening_timestamp" then Return (Position.opening_timestamp p)
      else if String.eqb k "opening_size" then Return (Position.opening_size p)
      else if String.eqb k "status" then Return (JStr (Position.status p))
      else Raise (KeyError k)
  end.

(** The request [close_position] prepares: a POST to the orders endpoint
    with [{'symbol': symbol, 'orderQty': orderQty, 'ordType': "Market"}]. *)
Inductive close_request : Type :=
| POST_close (symbol : string) (orderQty : json).

(** The venue's answer to such a request. *)
Class Closer `{External} : Type := {
  send_close : venue_state → close_request → response * venue_state }.

Module BitmexClose.

Section ClosePosition.

Context `{Closer}.

(** The state of a call: the session state of the adapter and the closing
    orders posted so far. *)
Record closing : Type := {
  session : Bitmex.world;
  closes : list close_request }.

(** Lines 361-380, after [get_position] returned [position]: the quantity
    to post, or [None] for the [return False] of line 396. *)
Definition closing_quantity (position : option Position.t) (qty direction : json)
  : result (option json) :=
  amt ← (if eq_str direction "LONG" then py_neg qty
         else if eq_str direction "SHORT" then Return qty
         else Raise (Exception [direction]));
  orderQty ← (if truthy qty && truthy direction then Return amt
              else currentQty ← position_getitem position "currentQty";
                   py_neg currentQty);
  if ne_zero orderQty then
    currentQty ← position_getitem position "currentQty";
    Return (if ne_zero currentQty then Some orderQty else None)
  else Return None.

(** [close_position(symbol, qty=None, direction=None)]; [None] arguments
    are [JNull]. *)
Definition close_position (symbol : string) (qty direction : json) (c : closing)
  : result bool * closing :=
  let '(r, w) := Bitmex.get_position symbol (session c) in
  let c1 := {| session := w; closes := closes c |} in
  match r with
  | Raise e => (Raise e, c1)
  | Return position =>
      match closing_quantity position qty direction with
      | Raise e => (Raise e, c1)
      | Return None => (Return false, c1)
      | Return (Some orderQty) =>
          let request := POST_close symbol orderQty in
          let '(resp, v) := send_close (Bitmex.venue w) request in
          let c2 := {| session := {| Bitmex.venue := v; Bitmex.sent := Bitmex.sent w;
                                     Bitmex.logged := Bitmex.logged w |};
                       closes := closes c ++ [request] |} in
          (response ← Bitmex.json_of resp;
           ordStatus ← getitem response "ordStatus";
           Return (eq_str ordStatus "Filled"), c2)
      end
  end.

End ClosePosition.

End BitmexClose.

(** ** Market data over the public API ([bitmex.py], lines 144-260) *)

(** [str(n)] for an integer. *)
Definition str_of_Z (n : Z) : string := NilZero.string_of_int (Z.to_int n).

(** [v[n]] for an integer index [n]. *)
Definition getitem_int (v : json) (n : Z) : result json :=
  match v with
  | JList l => py_index l n
  | JStr s => py_index ((λ c, JStr (String c "")) <$> list_ascii_of_string s) n
  | JDict _ => Raise (KeyError (str_of_Z n))
  | _ => Raise TypeError
  end.

(** What the public calls depend on and this file does not contain: the
    site behind [requests.get] (its state carries the clock); the method
    [previous_minute] of the base class; [time.sleep];
    [datetime.utcfromtimestamp(t).isoformat()]; and
    [dateutil.parser.parse(x).minute]. *)
Class Web : Type := {
  web_state : Type;
  requests_get : web_state → string → response * web_state;
  previous_minute : web_state → Z * web_state;
  time_sleep : Z → web_state → web_state;
  isoformat : Z → result string;
  parse_minute : json → result Z }.

(** An entry of the list [get_bars_in_period] returns. *)
Module Bar.
Record t : Type := {
  symbol : string;
  timestamp : Z;
  open : json;
  high : json;
  low : json;
  close : json;
  volume : json }.
End Bar.

(** An entry of the list [get_recent_bars] returns. *)
Module RecentBar.
Record t : Type := {
  symbol : string;
  timestamp : json;
  open : json;
  high : json;
  low : json;
  close : json;
  volume : json }.
End RecentBar.

Module BitmexData.

Definition MAX_BARS_PER_REQUEST : Z := 750.
Definition BASE_URL : string := "https://www.bitmex.com/api/v1".
Definition BARS_URL : string := "/trade/bucketed?binSize=".
Definition TICKS_URL : string := "/trade?symbol=".

(** [self.origin_tss] as [__init__] sets it. *)
Definition origin_tss : gmap string (option Z) :=
  list_to_map [("XBTUSD", Some 1483228800); ("ETHUSD", Some 1533200520);
               ("XRPUSD", Some 1580875200); ("BCHUSD", Some 1592280000);
               ("LTCUSD", Some 1596081600); ("LINKUSDT", Some 1602820800)].

Section PublicAPI.

Context `{External} `{Web}.

(** The state of a public call: the site and the URLs fetched so far. *)
Record web : Type := {
  site : web_state;
  fetched : list string }.

Definition G (A : Type) : Type := web → result A * web.

Definition G_ret {A} (a : A) : G A := λ g, (Return a, g).

Definition G_bind {A B} (f : A → G B) (m : G A) : G B :=
  λ g, match m g with
       | (Return a, g') => f a g'
       | (Raise e, g') => (Raise e, g')
       end.

#[global] Instance G_mret : MRet G := @G_ret.
#[global] Instance G_mbind : MBind G := @G_bind.

Definition glift {A} (r : result A) : G A := λ g, (r, g).

(** [requests.get(url).json()] *)
Definition get_json (url : string) : G json :=
  λ g, let '(r, s) := requests_get (site g) url in
       (Bitmex.json_of r, {| site := s; fetched := fetched g ++ [url] |}).

(** [self.previous_minute()] *)
Definition call_previous_minute : G Z :=
  λ g, let '(t, s) := previous_minute (site g) in
       (Return t, {| site := s; fetched := fetched g |}).

(** [time.sleep(seconds)] *)
Definition sleep (seconds : Z) : G () :=
  λ g, (Return (), {| site := time_sleep seconds (site g); fetched := fetched g |}).

(** *** [get_bars_in_period] (lines 144-173) *)

Definition bar_of (symbol : string) (bar : json) : result Bar.t :=
  ts ← getitem bar "timestamp";
  timestamp ← parse_timestamp ts;
  open ← getitem bar "open";
  high ← getitem bar "high";
  low ← getitem bar "low";
  close ← getitem bar "close";
  volume ← getitem bar "volume";
  Return {| Bar.symbol := symbol; Bar.timestamp := timestamp; Bar.open := open;
            Bar.high := high; Bar.low := low; Bar.close := close;
            Bar.volume := volume |}.

Definition bars_in_period_url (symbol start : string) (total : Z) : string :=
  BASE_URL +:+ BARS_URL +:+ "1m" +:+ "&" +:+ "symbol=" +:+ symbol
  +:+ "&filter=&count=" +:+ str_of_Z total +:+ "&" +:+ "startTime=" +:+ start
  +:+ "&reverse=false".

Definition get_bars_in_period (symbol : string) (start_time total : Z)
  : G (list Bar.t) :=
  let total := if MAX_BARS_PER_REQUEST <=? total then MAX_BARS_PER_REQUEST else total in
  start ← glift (isoformat start_time);
  bars_to_parse ← get_json (bars_in_period_url symbol start total);
  entries ← glift (iter_json bars_to_parse);
  glift (foldM (λ bars bar, b ← bar_of symbol bar; Return (bars ++ [b])) [] entries).

(** *** [get_origin_timestamp] (lines 175-188); the logger call is left
    out. *)

Definition origin_url (symbol : string) : string :=
  BASE_URL +:+ BARS_URL +:+ "1m&symbol=" +:+ symbol +:+ "&filter=&"
  +:+ "count=1&startTime=&reverse=false".

Definition get_origin_timestamp (symbol : string) : G Z :=
  match origin_tss !! symbol with
  | None => glift (Raise (KeyError symbol))
  | Some (Some origin) => mret origin
  | Some None =>
      body ← get_json (origin_url symbol);
      first ← glift (getitem_int body 0);
      response ← glift (getitem first "timestamp");
      glift (parse_timestamp response)
  end.

(** *** [get_recent_bars] (lines 190-210) *)

Definition recent_bar_of (symbol : string) (i : json) : result RecentBar.t :=
  timestamp ← getitem i "timestamp";
  open ← getitem i "open";
  high ← getitem i "high";
  low ← getitem i "low";
  close ← getitem i "close";
  volume ← getitem i "volume";
  Return {| RecentBar.symbol := symbol; RecentBar.timestamp := timestamp;
            RecentBar.open := open; RecentBar.high := high; RecentBar.low := low;
            RecentBar.close := close; RecentBar.volume := volume |}.

Definition recent_bars_url (timeframe symbol : string) (n : Z) : string :=
  BASE_URL +:+ BARS_URL +:+ timeframe +:+ "&partial=false&symbol=" +:+ symbol
  +:+ "&count=" +:+ str_of_Z n +:+ "&reverse=true".

Definition get_recent_bars (timeframe symbol : string) (n : Z) : G (list RecentBar.t) :=
  result ← get_json (recent_bars_url timeframe symbol n);
  entries ← glift (iter_json result);
  glift (foldM (λ bars i, b ← recent_bar_of symbol i; Return (bars ++ [b])) [] entries).

(** *** [get_recent_ticks] (lines 212-260) *)

Definition ticks_url (symbol start_iso end_iso : string) : string :=
  BASE_URL +:+ TICKS_URL +:+ symbol +:+ "&count="
  +:+ "1000&reverse=false&startTime=" +:+ start_iso +:+ "&endTime" +:+ end_iso.

Definition more_ticks_prefix (symbol : string) : string :=
  BASE_URL +:+ TICKS_URL +:+ symbol +:+ "&count="
  +:+ "1000&reverse=false&startTime=".

(** [s + v] for a string [s]. *)
Definition str_add (s : string) (v : json) : result string :=
  match v with
  | JStr t => Return (s +:+ t)
  | _ => Raise TypeError
  end.

(** The loop [while maxed_out] (lines 238-248); [None] when [fuel] rounds
    did not end it. *)
Fixpoint poll_more (fuel : nat) (symbol : string) (ticks : list json) (g : web)
  : option (result (list json) * web) :=
  match fuel with
  | O => None
  | S fuel' =>
      match (last ← py_index ticks (-1);
             ts ← getitem last "timestamp";
             str_add (more_ticks_prefix symbol) ts) with
      | Raise e => Some (Raise e, g)
      | Return payload =>
          match get_json payload g with
          | (Raise e, g') => Some (Raise e, g')
          | (Return interim_result, g') =>
              match iter_json interim_result with
              | Raise e => Some (Raise e, g')
              | Return items =>
                  let ticks' := ticks ++ items in
                  if Z.of_nat (length items) =? 1000
                  then poll_more fuel' symbol ticks' g'
                  else Some (Return ticks', g')
              end
          end
      end
  end.

Definition timestamp_mismatch : exn :=
  Exception [JStr "Tick data timestamp error: timestamp mismatch."].

(** Lines 250-260. *)
Definition ticks_of_minute (ticks : list json) (start_iso : string)
  : result (list json) :=
  median ← py_index ticks (Z.of_nat (length ticks) / 2);
  median_ts ← getitem median "timestamp";
  median_minute ← parse_minute median_ts;
  match_minute ← parse_minute (JStr start_iso);
  if negb (median_minute =? match_minute) then Raise timestamp_mismatch
  else foldM (λ kept i,
                ts ← getitem i "timestamp";
                minute ← parse_minute ts;
                Return (if minute =? match_minute then kept ++ [i] else kept))
             [] ticks.

Definition get_recent_ticks (fuel : nat) (symbol : string) (n : Z) (g : web)
  : option (result (list json) * web) :=
  let delta := n * 60 in
  let run : G (string * list json * bool) :=
    t1 ← call_previous_minute;
    let start_epoch := t1 + 60 - delta in
    start_iso ← glift (isoformat start_epoch);
    t2 ← call_previous_minute;
    let end_epoch := t2 + 60 in
    end_iso ← glift (isoformat end_epoch);
    sleep 1;;
    initial_result ← get_json (ticks_url symbol start_iso end_iso);
    ticks ← glift (iter_json initial_result);
    mret (start_iso, ticks, Z.of_nat (length ticks) =? 1000) in
  match run g with
  | (Raise e, g') => Some (Raise e, g')
  | (Return (start_iso, ticks, maxed_out), g') =>
      match (if maxed_out : bool then poll_more fuel symbol ticks g'
             else Some (Return ticks, g')) with
      | None => None
      | Some (Raise e, g'') => Some (Raise e, g'')
      | Some (Return ticks', g'') => Some (ticks_of_minute ticks' start_iso, g'')
      end
  end.

End PublicAPI.

End BitmexData.

(** ** Ticks of the previous minute ([bitmex.py], lines 99-142) *)

(** What [parse_ticks] depends on and this file does not contain:
    [datetime] objects with their [minute], [dateutil.parser.parse], and
    [build_OHLCV] of the base class, here on the ticks' payloads. *)
Class Feed : Type := {
  datetime : Type;
  minute : datetime → Z;
  parse_datetime : json → result datetime;
  ohlcv : Type }.

Module BitmexTicks.

Section ParseTicks.

Context `{Feed}.

(** The value under ['timestamp']: what the stream delivered, or the
    [datetime] an earlier call put in its place. *)
Inductive stamp : Type :=
| Raw (v : json)
| Datetime (dt : datetime).

(** A tick of the stream: its symbol, its timestamp and its other fields. *)
Record tick : Type := {
  symbol : string;
  timestamp : stamp;
  trade : json }.

Variable build_OHLCV : list tick → string → result ohlcv.

Definition symbols : list string := ["XBTUSD"].

(** Lines 111-116: the local [ts] after the [try]; a failed parse is
    logged and leaves the raw value. *)
Definition resolve (ts : stamp) : stamp :=
  match ts with
  | Datetime dt => Datetime dt
  | Raw v =>
      match parse_datetime v with
      | Return dt => Datetime dt
      | Raise _ => Raw v
      end
  end.

(** [ts.minute] *)
Definition stamp_minute (ts : stamp) : result Z :=
  match ts with
  | Datetime dt => Return (minute dt)
  | Raw _ => Raise AttributeError
  end.

(** [i['timestamp'] = ts] *)
Definition with_timestamp (i : tick) (ts : stamp) : tick :=
  {| symbol := symbol i; timestamp := ts; trade := trade i |}.

(** The loop [for i in reversed(all_ticks)] (lines 110-129), on the ticks
    newest first; [ticks_target_minute] is the accumulator. *)
Fixpoint select (target_minute : Z) (newest_first : list tick)
    (ticks_target_minute : list tick) : result (list tick) :=
  match newest_first with
  | [] => Return ticks_target_minute
  | i :: older =>
      let ts := resolve (timestamp i) in
      m ← stamp_minute ts;
      let selected :=
        if m =? target_minute then ticks_target_minute ++ [with_timestamp i ts]
        else ticks_target_minute in
      m' ← stamp_minute ts;
      if m' =? target_minute - 1 then Return (selected ++ [with_timestamp i ts])
      else select target_minute older selected
  end.

(** [{i: [] for i in self.symbols}] *)
Definition empty_lists {A} : gmap string (list A) :=
  list_to_map ((λ s, (s, [])) <$> symbols).

(** The attributes [self.ticks] and [self.bars]. *)
Record store : Type := {
  ticks : gmap string (list tick);
  bars : gmap string (list ohlcv) }.

(** Lines 135-136, on [self.ticks]: a tick of a symbol without a list is a
    [KeyError] and leaves the ticks grouped before it. *)
Fixpoint group_ticks (ticks_target_minute : list tick) (ticks : gmap string (list tick))
  : result () * gmap string (list tick) :=
  match ticks_target_minute with
  | [] => (Return (), ticks)
  | t :: rest =>
      match ticks !! symbol t with
      | Some l => group_ticks rest (<[symbol t := l ++ [t]]> ticks)
      | None => (Raise (KeyError (symbol t)), ticks)
      end
  end.

(** Lines 140-142, on [self.bars]. *)
Fixpoint build_bars (syms : list string) (ticks : gmap string (list tick))
    (bars : gmap string (list ohlcv)) : result () * gmap string (list ohlcv) :=
  match syms with
  | [] => (Return (), bars)
  | s :: rest =>
      match ticks !! s with
      | None => (Raise (KeyError s), bars)
      | Some l =>
          match build_OHLCV l s with
          | Raise e => (Raise e, bars)
          | Return bar =>
              match bars !! s with
              | Some bs => build_bars rest ticks (<[s := bs ++ [bar]]> bars)
              | None => (Raise (KeyError s), bars)
              end
          end
      end
  end.

(** [parse_ticks()], given whether the socket is up, the ticks it holds
    and [datetime.now().minute]; the logger calls are left out.  The
    assignment of the parsed timestamp is also visible in the list the
    socket holds, which is not part of the state here. *)
Definition parse_ticks (connected : bool) (all_ticks : list tick) (now_minute : Z)
    (st : store) : result () * store :=
  if negb connected then (Return (), st)
  else
    let target_minute := now_minute - 1 in
    match select target_minute (rev all_ticks) [] with
    | Raise e => (Raise e, st)
    | Return selected =>
        let ticks_target_minute := rev selected in
        match group_ticks ticks_target_minute empty_lists with
        | (Raise e, grouped) => (Raise e, {| ticks := grouped; bars := bars st |})
        | (Return _, grouped) =>
            match build_bars symbols grouped empty_lists with
            | (r, bs) => (r, {| ticks := grouped; bars := bs |})
            end
        end
    end.

End ParseTicks.

End BitmexTicks.

(** ** Sample collaborators and data *)

(** A venue that answers from a script: each request consumes the next
    canned response; an exhausted script answers 500 with no body. *)
Definition scripted_send (script : list response) (r : request)
  : response * list response :=
  match script with
  | [] => ({| status_code := 500; body := None |}, [])
  | resp :: rest => (resp, rest)
  end.

(** A stand-in for [dateutil]: one known instant. *)
Definition sample_parse_timestamp (v : json) : result Z :=
  match v with
  | JStr s =>
      if String.eqb s "2020-01-01T00:00:00.000Z" then Return 1577836800
      else Raise ValueError
  | _ => Raise TypeError
  end.

(** Exact division, for samples only. *)
Definition sample_truediv (a b : json) : result json :=
  match a, b with
  | JNum x, JNum y =>
      if Qeq_bool y 0 then Raise ZeroDivisionError else Return (JNum (x / y))
  | _, _ => Raise TypeError
  end.

(** A stand-in for [Exchange.round_increment], for the sample runs only: it
    leaves every number as it is.  The theorems hold for every
    [round_increment]. *)
Definition keep_number (number : option Q) (symbol : string) : result (option Q) :=
  Return number.

Definition scripted_venue : External := {|
  venue_state := list response;
  session_send := scripted_send;
  round_increment := keep_number;
  parse_timestamp := sample_parse_timestamp;
  truediv := sample_truediv |}.

Definition world_with (script : list response) : @Bitmex.world scripted_venue :=
  @Bitmex.Build_world scripted_venue script [] [].

Definition ok (v : json) : response := {| status_code := 200; body := Some v |}.

Definition obj (fields : list (string * json)) : json := JDict (list_to_map fields).

(** Cancel-response entries. *)
Definition canceled_entry_null_error : json :=
  obj [("orderID", JStr "v-1"); ("clOrdID", JStr "c-1"); ("ordType", JStr "Limit");
       ("price", JNum 100); ("stopPx", JNull); ("ordStatus", JStr "Canceled");
       ("error", JNull)].

Definition new_entry_null_error : json :=
  obj [("orderID", JStr "v-2"); ("clOrdID", JStr "c-2"); ("ordType", JStr "Limit");
       ("price", JNum 100); ("stopPx", JNull); ("ordStatus", JStr "New");
       ("error", JNull)].

Definition canceled_entry : json :=
  obj [("orderID", JStr "v-3"); ("clOrdID", JStr "c-3"); ("ordType", JStr "Stop");
       ("price", JNull); ("stopPx", JNum 95); ("ordStatus", JStr "Canceled")].

Definition filled_race_entry : json :=
  obj [("orderID", JStr "v-4"); ("clOrdID", JStr "c-4"); ("ordType", JStr "Limit");
       ("price", JNum 100); ("stopPx", JNull); ("ordStatus", JStr "Filled");
       ("error", JStr Bitmex.already_filled)].

(** Order intents. *)
Definition intent (order_id order_type direction : string) (price : option Q)
  : Intent.t :=
  {| Intent.trade_id := 1; Intent.order_id := order_id; Intent.venue := "BitMEX";
     Intent.symbol := "XBTUSD"; Intent.order_type := order_type;
     Intent.metatype := Some "ENTRY"; Intent.void_price := None;
     Intent.direction := direction; Intent.reduce_only := false;
     Intent.post_only := false; Intent.batch_size := 1; Intent.size := 10;
     Intent.trail := false; Intent.price := price |}.

Definition stop_order : Intent.t := intent "c-10" "STOP" "SHORT" (Some 95%Q).

Definition market_order : Intent.t := intent "c-12" "MARKET" "LONG" None.

Definition limit_order : Intent.t := intent "c-13" "LIMIT" "LONG" (Some 90%Q).

(** Bar windows: epochs for the index, integers for prices and
    indicators. *)
Definition sample_bar (t o fast slow : Z) : @Model.bar Z Z :=
  {| Model.index := t; Model.open := o;
     Model.EMA10 := Some fast; Model.EMA20 := Some slow |}.

(** The fast average falls below the slow one at the last bar. *)
Definition short_cross_window : list (@Model.bar Z Z) :=
  [sample_bar 60 100 2 1; sample_bar 120 101 2 1; sample_bar 180 102 1 2].

(** A short cross at the third bar, a long cross at the last. *)
Definition both_crosses_window : list (@Model.bar Z Z) :=
  [sample_bar 60 100 2 1; sample_bar 120 101 2 1; sample_bar 180 102 1 2;
   sample_bar 240 103 1 2; sample_bar 300 104 2 1].

(** A long cross at the third bar and nothing after it. *)
Definition stale_long_window : list (@Model.bar Z Z) :=
  [sample_bar 60 100 1 2; sample_bar 120 101 1 2; sample_bar 180 102 2 1;
   sample_bar 240 103 2 1; sample_bar 300 104 1 1].

Definition sample_run (window : list (@Model.bar Z Z))
  : result (option (@Model.SignalEvent Z Z string)) :=
  Model.run Z.eqb id Z.ltb (<["1Min" := window]> ∅) "1Min" "XBTUSD" "BitMEX".

(** A venue confirmation for an order id. *)
Definition confirmation (clOrdID ordStatus : string) (stopPx : json) : json :=
  obj [("clOrdID", JStr clOrdID); ("orderID", JStr ("v-" +:+ clOrdID));
       ("ordStatus", JStr ordStatus);
       ("timestamp", JStr "2020-01-01T00:00:00.000Z"); ("price", JNum 90);
       ("stopPx", stopPx); ("avgPx", JNum 90); ("currency", JStr "USD")].

(** One MARKET order between a LIMIT and a STOP order, with the venue's
    answers: one response for the MARKET order, one for the batch. *)
Definition mixed_orders : list Intent.t := [limit_order; market_order; stop_order].

Definition mixed_script : list response :=
  [ok (confirmation "c-12" "Filled" JNull);
   ok (JList [confirmation "c-13" "New" JNull;
              confirmation "c-10" "New" (JNum 95)])].

(** Two MARKET orders and no other. *)
Definition market_only_orders : list Intent.t :=
  [market_order; intent "c-14" "MARKET" "SHORT" None].

Definition market_only_script : list response :=
  [ok (confirmation "c-12" "Filled" JNull); ok (confirmation "c-14" "Filled" JNull)].

Definition payload_of (order : Intent.t) (ordType timeInForce : string)
    (price stopPx : option Q) : Payload.t :=
  {| Payload.symbol := Intent.symbol order;
     Payload.side := if String.eqb (Intent.direction order) "LONG" then "Buy" else "Sell";
     Payload.orderQty := Some (Intent.size order);
     Payload.price := price; Payload.stopPx := stopPx;
     Payload.clOrdID := Intent.order_id order; Payload.ordType := ordType;
     Payload.timeInForce := Some timeInForce; Payload.execInst := None;
     Payload.text := Intent.metatype order |}.

Definition mixed_singles : list Payload.t :=
  [payload_of market_order "Market" "ImmediateOrCancel" None None].

Definition mixed_batch : list Payload.t :=
  [payload_of limit_order "Limit" "GoodTillCancel" (Some 90%Q) None;
   payload_of stop_order "Stop" "ImmediateOrCancel" None (Some 95%Q)].

Definition market_only_singles : list Payload.t :=
  [payload_of market_order "Market" "ImmediateOrCancel" None None;
   payload_of (intent "c-14" "MARKET" "SHORT" None) "Market" "ImmediateOrCancel"
              None None].

(** ** Sample sites, feeds and data *)

(** A site that answers from a script, whatever the URL. *)
Definition scripted_get (script : list response) (url : string)
  : response * list response :=
  match script with
  | [] => ({| status_code := 500; body := None |}, [])
  | resp :: rest => (resp, rest)
  end.

(** Stand-ins for the date functions: an instant is written as its epoch
    in seconds, in decimal. *)
Definition epoch_of (s : string) : option Z :=
  (λ u, Z.of_N (N.of_uint u)) <$> NilEmpty.uint_of_string s.

Definition minute_of_epoch (t : Z) : Z := (t / 60) mod 60.

Definition sample_parse_epoch (v : json) : result Z :=
  match v with
  | JStr s =>
      match epoch_of s with
      | Some t => Return t
      | None => Raise ValueError
      end
  | _ => Raise TypeError
  end.

Definition sample_parse_minute (v : json) : result Z :=
  result_map minute_of_epoch (sample_parse_epoch v).

(** The clock stands at 2020-01-01 00:00:00. *)
Definition scripted_web : Web := {|
  web_state := list response;
  requests_get := scripted_get;
  previous_minute := λ s, (1577836800, s);
  time_sleep := λ _ s, s;
  isoformat := λ t, Return (str_of_Z t);
  parse_minute := sample_parse_minute |}.

Definition site_with (script : list response) : @BitmexData.web scripted_web :=
  @BitmexData.Build_web scripted_web script [].

Definition bar_entry (open close : Q) : json :=
  obj [("timestamp", JStr "2020-01-01T00:00:00.000Z"); ("open", JNum open);
       ("high", JNum 9510); ("low", JNum 9490); ("close", JNum close);
       ("volume", JNum 1200)].

Definition trade_tick (timestamp : string) (price : Q) : json :=
  obj [("timestamp", JStr timestamp); ("symbol", JStr "XBTUSD");
       ("price", JNum price)].

(** Two trades of minute 0 and one of minute 1. *)
Definition minute_page : list json :=
  [trade_tick "1577836805" 9500; trade_tick "1577836830" 9501;
   trade_tick "1577836861" 9502].

(** A feed whose datetimes are epochs and whose bars are the trades they
    were built from. *)
Definition epoch_feed : Feed := {|
  datetime := Z;
  minute := minute_of_epoch;
  parse_datetime := sample_parse_epoch;
  ohlcv := list json |}.

Definition trades_only (ticks : list (@BitmexTicks.tick epoch_feed)) (symbol : string)
  : result (list json) :=
  Return (BitmexTicks.trade <$> ticks).

Definition raw_tick (symbol timestamp : string) (price : Q) : @BitmexTicks.tick epoch_feed :=
  @BitmexTicks.Build_tick epoch_feed symbol
    (@BitmexTicks.Raw epoch_feed (JStr timestamp)) (JNum price).

Definition parsed_tick (symbol : string) (timestamp : Z) (price : Q)
  : @BitmexTicks.tick epoch_feed :=
  @BitmexTicks.Build_tick epoch_feed symbol
    (@BitmexTicks.Datetime epoch_feed timestamp) (JNum price).

(** Ticks of minutes 3, 4, 5, 5 and 6, oldest first. *)
Definition tick_stream : list (@BitmexTicks.tick epoch_feed) :=
  [raw_tick "XBTUSD" "1577836980" 9498; raw_tick "XBTUSD" "1577837090" 9499;
   raw_tick "XBTUSD" "1577837100" 9500; raw_tick "XBTUSD" "1577837130" 9501;
   raw_tick "XBTUSD" "1577837160" 9502].

(** The same minutes with a tick of another symbol in minute 5. *)
Definition mixed_stream : list (@BitmexTicks.tick epoch_feed) :=
  [raw_tick "XBTUSD" "1577837090" 9499; raw_tick "XBTUSD" "1577837100" 9500;
   raw_tick "ETHUSD" "1577837130" 130; raw_tick "XBTUSD" "1577837140" 9501].

Definition empty_store : @BitmexTicks.store epoch_feed :=
  @BitmexTicks.Build_store epoch_feed ∅ {["XBTUSD" := [[JNum 9400]]]}.

(** An order whose type the adapter does not know. *)
Definition trailing_order : Intent.t := intent "c-14" "TRAILING_STOP" "LONG" (Some 90%Q).

Definition error_fields (message : string) : gmap string json :=
  list_to_map [("error", obj [("message", JStr message); ("name", JStr "HTTPError")])].

(** An error object of the venue. *)
Definition error_object (message : string) : response :=
  {| status_code := 401;
     body := Some (JDict (error_fields message)) |}.

Definition overloaded : response :=
  {| status_code := 503;
     body := Some (obj [("error",
                         obj [("message",
                               JStr "The system is currently overloaded.")])]) |}.

Definition two_bars : list json := [bar_entry 9500 9505; bar_entry 9505 9495].

(** What the selection keeps of [tick_stream] for target minute 5, newest
    first. *)
Definition selected_ticks : list (@BitmexTicks.tick epoch_feed) :=
  [parsed_tick "XBTUSD" 1577837130 9501; parsed_tick "XBTUSD" 1577837100 9500;
   parsed_tick "XBTUSD" 1577837090 9499].

Definition mixed_payloads : list Payload.t :=
  [payload_of limit_order "Limit" "GoodTillCancel" (Some 90%Q) None;
   payload_of market_order "Market" "ImmediateOrCancel" None None;
   payload_of stop_order "Stop" "ImmediateOrCancel" None (Some 95%Q)].

Definition stop_limit_order : Intent.t := intent "c-15" "STOP_LIMIT" "SHORT" (Some 95%Q).

(** An entry the venue lists without a client id. *)
Definition anonymous_entry : json :=
  obj [("clOrdID", JStr ""); ("orderID", JStr "v-manual"); ("ordType", JStr "Pegged")].

(** The order [get_orders] builds from [typed_entry]. *)
Definition typed_order (clOrdID order_type : string) : Order.t :=
  {| Order.order_id := JStr clOrdID; Order.venue_id := JStr ("v-" +:+ clOrdID);
     Order.timestamp := 1577836800; Order.price := JNum 90;
     Order.avg_fill_price := JNum 90; Order.currency := JStr "USD";
     Order.venue := "BitMEX"; Order.symbol := JStr "XBTUSD";
     Order.direction := "LONG"; Order.size := JNum 10;
     Order.order_type := order_type; Order.metatype := JStr "ENTRY";
     Order.void_price := JNull; Order.status := "NEW" |}.

(** A full page of a thousand trades of minute 0, and the short page that
    follows it. *)
Definition full_page_front : list json := replicate 999 (trade_tick "1577836805" 9500).

Definition full_page_final : json := trade_tick "1577836859" 9501.

Definition short_page : list json :=
  [trade_tick "1577836859" 9501; trade_tick "1577836861" 9502].

(** ** Vocabulary of the statements *)

(** A derived list free of repetitions and apart from the input list. *)
Definition fresh_for (timeframes to_add : list string) : Prop :=
  NoDup to_add ∧ ∀ t, t ∈ to_add → t ∉ timeframes.

(** The inputs with a row of their own in the rule table of
    [required_timeframes]. *)
Definition table_inputs : list string :=
  ["1Min"; "3Min"; "5Min"; "12H"; "16H"; "30Min"].

(** A cancel-response entry with the fields every branch of the loop
    reads: order type, both prices, both ids, the venue id hashable. *)
Record cancel_entry_fields (i : json) (orderID clOrdID ordType price : json)
    (key : hashable) : Prop := {
  cef_orderID : getitem i "orderID" = Return orderID;
  cef_clOrdID : getitem i "clOrdID" = Return clOrdID;
  cef_ordType : getitem i "ordType" = Return ordType;
  cef_price : Bitmex.cancel_price i = Return price;
  cef_key : hash_key orderID = Return key }.

Definition cancel_conf (status : string) (orderID clOrdID ordType price : json)
  : CancelConf.t :=
  {| CancelConf.venue_id := orderID; CancelConf.order_id := clOrdID;
     CancelConf.status := status; CancelConf.order_type := ordType;
     CancelConf.price := price |}.

(** The words of the metatype rule: whether an annotation has a line
    break, and its second line. *)
Definition has_line_break (s : string) : bool :=
  existsb (Ascii.eqb newline) (list_ascii_of_string s).

(** The text before the first line break. *)
Fixpoint first_line (s : string) : string :=
  match s with
  | EmptyString => ""
  | String c rest => if Ascii.eqb c newline then "" else String c (first_line rest)
  end.

(** The text after the first line break, when there is one. *)
Fixpoint after_line_break (s : string) : option string :=
  match s with
  | EmptyString => None
  | String c rest => if Ascii.eqb c newline then Some rest else after_line_break rest
  end.

Definition second_line (s : string) : option string :=
  first_line <$> after_line_break s.

Definition annotated_stop : string :=
  "Submitted via API." +:+ String newline "STOP" +:+ String newline "trail".

(** A position entry for another symbol, and one for the symbol asked. *)
Definition other_symbol (symbol : string) (pos : json) : Prop :=
  ∃ s, getitem pos "symbol" = Return s ∧ eq_str s symbol = false.

Definition has_symbol (symbol : string) (pos : json) : Prop :=
  ∃ s, getitem pos "symbol" = Return s ∧ eq_str s symbol = true.

(** A position entry with the fields [get_position] reads, its quantity
    a number. *)
Record position_fields (pos : json) (currentQty : Q)
    (isOpen avgEntryPrice quoteCurrency openingTimestamp openingQty : json)
  : Prop := {
  pf_isOpen : getitem pos "isOpen" = Return isOpen;
  pf_currentQty : getitem pos "currentQty" = Return (JNum currentQty);
  pf_avgEntryPrice : getitem pos "avgEntryPrice" = Return avgEntryPrice;
  pf_quoteCurrency : getitem pos "quoteCurrency" = Return quoteCurrency;
  pf_openingTimestamp : getitem pos "openingTimestamp" = Return openingTimestamp;
  pf_openingQty : getitem pos "openingQty" = Return openingQty }.

Definition position_entry (symbol : string) (currentQty : Q) (isOpen : bool) : json :=
  obj [("symbol", JStr symbol); ("isOpen", JBool isOpen);
       ("currentQty", JNum currentQty); ("avgEntryPrice", JNum 9500);
       ("quoteCurrency", JStr "USD");
       ("openingTimestamp", JStr "2020-01-01T00:00:00.000Z");
       ("openingQty", JNum 0)].

Definition positions_flat_xbt : list json :=
  [position_entry "ETHUSD" 5 true; position_entry "XBTUSD" 0 false].

(** The venue's order statuses and their canonical names. *)
Definition status_table : list (string * string) :=
  [("Filled", "FILLED"); ("Canceled", "CANCELLED"); ("New", "NEW");
   ("PartiallyFilled", "PARTIAL")].

Definition known_status (ordStatus : json) : Prop :=
  ∃ venue canonical, ordStatus = JStr venue ∧ (venue, canonical) ∈ status_table.

(** A venue order entry, as [get_orders] and [place_bulk_orders] read it. *)
Definition order_entry (clOrdID ordStatus text : string) : json :=
  obj [("clOrdID", JStr clOrdID); ("orderID", JStr ("v-" +:+ clOrdID));
       ("side", JStr "Buy"); ("ordStatus", JStr ordStatus);
       ("ordType", JStr "Limit"); ("text", JStr text);
       ("timestamp", JStr "2020-01-01T00:00:00.000Z"); ("price", JNum 90);
       ("avgPx", JNum 90); ("currency", JStr "USD"); ("symbol", JStr "XBTUSD");
       ("orderQty", JNum 10); ("stopPx", JNull)].

(** A venue execution entry. *)
Definition execution_entry (clOrdID ordStatus : string) : json :=
  obj [("clOrdID", JStr clOrdID); ("orderID", JStr ("v-" +:+ clOrdID));
       ("lastLiquidityInd", JStr "RemovedLiquidity");
       ("side", JStr "Sell"); ("ordStatus", JStr ordStatus);
       ("ordType", JStr "Market");
       ("timestamp", JStr "2020-01-01T00:00:00.000Z");
       ("avgPx", JNum 9500); ("currency", JStr "USD"); ("symbol", JStr "XBTUSD");
       ("lastQty", JNum 10); ("commission", JNum (75 # 100000));
       ("execComm", JNum 78)].

(** The order id a confirmation carries, when it is a string. *)
Definition conf_id (res : json) : option string :=
  match getitem res "clOrdID" with
  | Return (JStr s) => Some s
  | _ => None
  end.

Definition conf_ids (order_confirmations : list json) : list string :=
  omap conf_id order_confirmations.

(** The input orders a confirmation is matched to: those whose
    [order_id] equals its [clOrdID]. *)
Definition matches (orders : list Intent.t) (res : json) : list Intent.t :=
  List.filter (λ o, match conf_id res with
                    | Some s => String.eqb s (Intent.order_id o)
                    | None => false
                    end) orders.

(** The pairs the two loops of lines 547-550 visit with a match, in
    order. *)
Definition matched_pairs (orders : list Intent.t) (order_confirmations : list json)
  : list (json * Intent.t) :=
  res ← order_confirmations; (λ o, (res, o)) <$> matches orders res.

Definition formatted_as `{External} (orders : list Intent.t) (payloads : list Payload.t)
  : Prop :=
  Forall2 (λ o p, Bitmex.format_order o = Return p) orders payloads.

(** ** Vocabulary of the further statements *)

Definition chars (s : string) : list ascii := list_ascii_of_string s.

(** A string of letters only. *)
Definition letters_only (s : string) : bool := forallb Timeframes.isalpha (chars s).

Definition has_digit (s : string) : bool := existsb Timeframes.isdigit (chars s).

Definition has_letter (s : string) : bool := existsb Timeframes.isalpha (chars s).

(** ASCII text: every character is below 128.  On such text a character
    is one byte, [str.isdigit] holds of the ten decimal digits alone and
    [int] reads them in base ten. *)
Definition ascii_text (s : string) : Prop :=
  Forall (λ c, (N_of_ascii c < 128)%N) (chars s).

Definition decimal_digits : list ascii := chars "0123456789".

Definition latin_letters : list ascii :=
  chars "abcdefghijklmnopqrstuvwxyzABCDEFGHIJKLMNOPQRSTUVWXYZ".

(** A string with a character of [cs]. *)
Definition contains (cs : list ascii) (s : string) : Prop :=
  ∃ c, c ∈ chars s ∧ c ∈ cs.

(** A timeframe the scheduler can derive a trigger for: one with a table
    row, or one with a decimal digit and a letter. *)
Definition derivable (t : string) : Prop :=
  t ∈ table_inputs ∨ (contains decimal_digits t ∧ contains latin_letters t).

(** The step of reading a decimal numeral, as in
    [Timeframes.int_of_digits]. *)
Definition digit_step (acc : N) (c : ascii) : N := (10 * acc + (N_of_ascii c - 48))%N.

(** A bar with both indicator cells present. *)
Definition complete {time num} (b : @Model.bar time num) : Prop :=
  is_Some (Model.EMA10 b) ∧ is_Some (Model.EMA20 b).

(** A bar whose fast and slow averages stand in the relation [rel]. *)
Definition averages {time num} (rel : num → num → bool) (b : @Model.bar time num)
  : Prop :=
  ∃ fast slow, Model.EMA10 b = Some fast ∧ Model.EMA20 b = Some slow
               ∧ rel fast slow = true.

(** Entries recorded from bars of the window, in window order: prices are
    the bars' opens, times their index entries, and every bar satisfies
    [P]. *)
Definition entries_of {time num} (features : list (@Model.bar time num))
    (P : @Model.bar time num → Prop) (e : @Model.entries time num) : Prop :=
  ∃ recorded, recorded `sublist_of` features
              ∧ Model.price e = Model.open <$> recorded
              ∧ Model.time_ e = Model.index <$> recorded
              ∧ Forall P recorded.

(** Bars the cross search may record as a long cross (fast average above
    the slow one) and as a short cross (below). *)
Definition long_bar {time num} (ltb : num → num → bool) : @Model.bar time num → Prop :=
  averages (λ fast slow, ltb slow fast).

Definition short_bar {time num} (ltb : num → num → bool) : @Model.bar time num → Prop :=
  averages (λ fast slow, ltb fast slow).

(** A tick whose timestamp parses to minute [m]. *)
Definition tick_minute `{Web} (m : Z) (i : json) : Prop :=
  ∃ ts, getitem i "timestamp" = Return ts ∧ parse_minute ts = Return m.

(** A tick carrying a parsed timestamp of minute [m]. *)
Definition has_minute `{Feed} (m : Z) (t : BitmexTicks.tick) : Prop :=
  ∃ dt, BitmexTicks.timestamp t = BitmexTicks.Datetime dt ∧ minute dt = m.

(** What a tick says apart from its timestamp. *)
Definition payload_of_tick `{Feed} (t : BitmexTicks.tick) : string * json :=
  (BitmexTicks.symbol t, BitmexTicks.trade t).

(** The order types [format_orders] knows. *)
Definition known_order_types : list string := ["LIMIT"; "MARKET"; "STOP_LIMIT"; "STOP"].

Definition incorrect_order_type : exn :=
  Exception [JStr "Incorrect order type specified."].

(** The rounding of price and size returns for an order. *)
Definition rounds `{External} (order : Intent.t) : Prop :=
  (∃ p, round_increment (Intent.price order) (Intent.symbol order) = Return p)
  ∧ (∃ q, round_increment (Some (Intent.size order)) (Intent.symbol order) = Return q).

(** The order types of the venue and the names [get_orders] and
    [get_executions] give them. *)
Definition type_table : list (string * string) :=
  [("Limit", "LIMIT"); ("Market", "MARKET"); ("StopLimit", "STOP_LIMIT");
   ("Stop", "STOP")].

Definition known_type (ordType : json) : Prop :=
  ∃ venue canonical, ordType = JStr venue ∧ (venue, canonical) ∈ type_table.

(** A venue order entry of a given order type. *)
Definition typed_entry (clOrdID ordType : string) : json :=
  obj [("clOrdID", JStr clOrdID); ("orderID", JStr ("v-" +:+ clOrdID));
       ("lastLiquidityInd", JStr "AddedLiquidity");
       ("side", JStr "Buy"); ("ordStatus", JStr "New");
       ("ordType", JStr ordType); ("text", JStr "ENTRY");
       ("timestamp", JStr "2020-01-01T00:00:00.000Z"); ("price", JNum 90);
       ("avgPx", JNum 90); ("currency", JStr "USD"); ("symbol", JStr "XBTUSD");
       ("orderQty", JNum 10); ("stopPx", JNull)].

(** The entries [get_orders] keeps: those whose clOrdID is truthy. *)
Definition has_client_id (res : json) : bool :=
  match getitem res "clOrdID" with
  | Return c => truthy c
  | Raise _ => false
  end.

(** What a stored cancel confirmation says of the response entries: it is
    keyed by its venue id, its status is FILLED or CANCELLED, and some entry
    of the response carries its ids, its order type as the venue names it,
    and its price; a FILLED one answers the already-filled message. *)
Definition confirms (entries : list json) (key : hashable) (conf : CancelConf.t) : Prop :=
  CancelConf.status conf ∈ ["FILLED"; "CANCELLED"]
  ∧ hash_key (CancelConf.venue_id conf) = Return key
  ∧ ∃ i, i ∈ entries
       ∧ getitem i "orderID" = Return (CancelConf.venue_id conf)
       ∧ getitem i "clOrdID" = Return (CancelConf.order_id conf)
       ∧ getitem i "ordType" = Return (CancelConf.order_type conf)
       ∧ Bitmex.cancel_price i = Return (CancelConf.price conf)
       ∧ (CancelConf.status conf = "FILLED" →
          getitem i "error" = Return (JStr Bitmex.already_filled)).

(** The entries the loop of [cancel_orders] visits for a decoded response. *)
Definition cancel_entries (response : json) : list json :=
  match response with JList l => l | _ => [response] end.

(** What the classification loop of [place_bulk_orders] takes from one
    response: the confirmations of a 200 answer, and a log line for any
    other answer it gets past. *)
Definition confirmations_of (r : response) : list json :=
  if status_code r =? 200 then
    match body r with
    | Some (JList l) => l
    | Some (JDict d) => [JDict d]
    | _ => []
    end
  else [].

Definition error_message (res : json) : result json :=
  err ← getitem res "error"; getitem err "message".

Definition log_of (r : response) : list log_entry :=
  if status_code r =? 200 then []
  else if status_code r =? 503 then
    match body r with
    | Some res =>
        match error_message res with
        | Return (JStr m) => [LogOverload 503 m]
        | _ => []
        end
    | None => []
    end
  else
    match body r with
    | Some res => [LogOther (status_code r) res]
    | None => []
    end.

(** Status codes 401 to 404. *)
Definition rejected (r : response) : bool :=
  (401 <=? status_code r) && (status_code r <=? 404).

(** A response the loop gets past: a JSON body, not rejected, and for a 503
    an error message that is a string. *)
Definition readable (r : response) : Prop :=
  is_Some (body r) ∧ rejected r = false
  ∧ (status_code r = 503 →
     ∃ res m, body r = Some res ∧ error_message res = Return (JStr m)).

(** A bar entry of the venue with the six fields the bar readers copy. *)
Definition bar_fields (i : json) : Prop :=
  Forall (λ k, ∃ v, getitem i k = Return v)
         ["timestamp"; "open"; "high"; "low"; "close"; "volume"].

(** The confirmations of a cancellation that lost one race to a fill. *)
Definition race_confirmations : gmap hashable CancelConf.t :=
  <[HStr "v-4" := cancel_conf "FILLED" (JStr "v-4") (JStr "c-4") (JStr "Limit") (JNum 100)]>
    (<[HStr "v-3" := cancel_conf "CANCELLED" (JStr "v-3") (JStr "c-3") (JStr "Stop")
                                 (JNum 95)]> ∅).

(** The venue's answers to a sequence of requests, in order, and the state
    it is left in. *)
Fixpoint answers `{External} (v : venue_state) (requests : list request)
  : list response * venue_state :=
  match requests with
  | [] => ([], v)
  | q :: rest =>
      let first := session_send v q in
      let others := answers first.2 rest in
      (first.1 :: others.1, others.2)
  end.

(** The MARKET intents of a list and the others, each in the list's
    order. *)
Definition market_intents (orders : list Intent.t) : list Intent.t :=
  filter (λ o, Intent.order_type o = "MARKET") orders.

Definition other_intents (orders : list Intent.t) : list Intent.t :=
  filter (λ o, Intent.order_type o ≠ "MARKET") orders.

(** A batch answer that confirms the order c-13 twice, and one that
    confirms an order nobody placed. *)
Definition repeated_script : list response :=
  [ok (confirmation "c-12" "Filled" JNull);
   ok (JList [confirmation "c-13" "New" JNull; confirmation "c-13" "New" JNull;
              confirmation "c-10" "New" (JNum 95)])].

Definition stray_script : list response :=
  [ok (confirmation "c-12" "Filled" JNull);
   ok (JList [confirmation "c-13" "New" JNull; confirmation "c-99" "New" JNull;
              confirmation "c-10" "New" (JNum 95)])].

(** Orders that reuse the id c-13, and the venue's answers to them. *)
Definition twin_orders : list Intent.t :=
  [limit_order; market_order; intent "c-13" "STOP" "SHORT" (Some 95%Q)].

Definition twin_script : list response :=
  [ok (confirmation "c-12" "Filled" JNull); ok (JList [confirmation "c-13" "New" JNull])].

(** * Properties *)

(** ** Shared lemmas *)

Lemma str_in_elem_of (s : string) (l : list string) :
  str_in s l = true ↔ s ∈ l.
Proof.
  unfold str_in. rewrite existsb_exists. split.
  - intros (x & Hx & Heq). apply String.eqb_eq in Heq. subst x.
    by apply list_elem_of_In.
  - intros Hin. exists s. split; [by apply list_elem_of_In | apply String.eqb_refl].
Qed.

Lemma str_in_false (s : string) (l : list string) :
  str_in s l = false ↔ s ∉ l.
Proof.
  rewrite <- str_in_elem_of. destruct (str_in s l); split; congruence.
Qed.

Lemma foldM_app {A B} (f : B → A → result B) (acc : B) (l1 l2 : list A) :
  foldM f acc (l1 ++ l2) = acc' ← foldM f acc l1; foldM f acc' l2.
Proof.
  revert acc. induction l1 as [|x l1 IH]; intros acc; simpl; [done|].
  destruct (f acc x) as [acc'|e]; simpl; [apply IH | done].
Qed.

(** ** Timeframe scheduler *)

Example required_1Min :
  Timeframes.required_timeframes ["1Min"] = Return ["1Min"; "3Min"].
Proof. reflexivity. Qed.

Example required_12H_16H :
  Timeframes.required_timeframes ["12H"; "16H"] = Return ["12H"; "16H"; "1D"].
Proof. reflexivity. Qed.

Example required_4H :
  Timeframes.required_timeframes ["4H"] = Return ["4H"; "8H"].
Proof. reflexivity. Qed.

Example required_1Min_3Min :
  Timeframes.required_timeframes ["1Min"; "3Min"] = Return ["1Min"; "3Min"; "5Min"].
Proof. reflexivity. Qed.

Example required_no_digit :
  Timeframes.required_timeframes ["H"] = Raise ValueError.
Proof. reflexivity. Qed.

Example required_no_letter :
  Timeframes.required_timeframes ["15"] = Raise IndexError.
Proof. reflexivity. Qed.

(** The guarded append keeps [fresh_for]. *)

Lemma append_unless_present_fresh (timeframes to_add : list string) (t : string) :
  fresh_for timeframes to_add →
  fresh_for timeframes (Timeframes.append_unless_present timeframes to_add t).
Proof.
  intros [Hnd Hout]. unfold Timeframes.append_unless_present.
  destruct (str_in t timeframes) eqn:Hin; simpl; [by split|].
  destruct (str_in t to_add) eqn:Hadd; simpl; [by split|].
  apply str_in_false in Hin, Hadd. split.
  - apply NoDup_app. split_and!; [done| |apply NoDup_singleton].
    intros x Hx Hx'. apply list_elem_of_singleton in Hx'. by subst x.
  - intros x Hx. apply elem_of_app in Hx as [Hx|Hx]; [by apply Hout|].
    apply list_elem_of_singleton in Hx. by subst x.
Qed.


Lemma derive_one_table_fresh (timeframes to_add : list string) (t : string) :
  t ∈ table_inputs → fresh_for timeframes to_add →
  ∃ to_add', Timeframes.derive_one timeframes to_add t = Return to_add'
             ∧ fresh_for timeframes to_add'.
Proof.
  intros Ht Hfresh. unfold table_inputs in Ht.
  repeat (apply elem_of_cons in Ht as [->|Ht]);
    [eexists; split; [reflexivity | by apply append_unless_present_fresh] ..|].
  by apply elem_of_nil in Ht.
Qed.

Lemma foldM_table_fresh (timeframes to_add l : list string) :
  Forall (λ t, t ∈ table_inputs) l → fresh_for timeframes to_add →
  ∃ to_add', foldM (Timeframes.derive_one timeframes) to_add l = Return to_add'
             ∧ fresh_for timeframes to_add'.
Proof.
  intros Hl. revert to_add. induction Hl as [|t l Ht _ IH]; intros to_add Hfresh.
  - by exists to_add.
  - destruct (derive_one_table_fresh timeframes to_add t Ht Hfresh) as (a & Ha & Hfa).
    simpl. rewrite Ha. simpl. by apply IH.
Qed.

(** On inputs that all have a table row the triggers are deduplicated:
    each is appended once and none repeats an input. *)
Lemma derived_table_inputs_deduplicated (timeframes : list string) :
  Forall (λ t, t ∈ table_inputs) timeframes →
  ∃ to_add, Timeframes.required_timeframes timeframes = Return (timeframes ++ to_add)
            ∧ NoDup to_add ∧ ∀ t, t ∈ to_add → t ∉ timeframes.
Proof.
  intros Hl.
  destruct (foldM_table_fresh timeframes [] timeframes Hl) as (a & Ha & Hnd & Hout).
  { split; [apply NoDup_nil_2 | intros t Ht; by apply elem_of_nil in Ht]. }
  exists a. unfold Timeframes.required_timeframes, Timeframes.derived.
  rewrite Ha. by split_and!.
Qed.

(** C1 (code defect).  The claim: no trigger is added twice, also for the
    generic doubling rule.  The doubling branch appends without the
    membership test its sibling branches make: on ["2H"; "4H"] the trigger
    "4H" of "2H" is appended although "4H" is an input, and on a repeated
    input the same trigger is appended twice. *)
Theorem required_timeframes_doubling_repeats :
  Timeframes.required_timeframes ["2H"; "4H"] = Return ["2H"; "4H"; "4H"; "8H"]
  ∧ Timeframes.required_timeframes ["2H"; "2H"] = Return ["2H"; "2H"; "4H"; "4H"]
  ∧ Timeframes.derived ["2H"; "2H"] = Return ["4H"; "4H"]
  ∧ ¬ NoDup ["4H"; "4H"].
Proof.
  split_and!; [reflexivity..|].
  intros Hnd. apply NoDup_cons in Hnd as [Hnot _]. apply Hnot. left.
Qed.

(** ** Cancelling orders *)

Section Cancel.

Context `{External}.

Lemma cancel_orders_first_id_null (ids : list (option string)) (w : Bitmex.world) :
  Bitmex.cancel_orders (Some (None :: ids)) w = (Return None, w).
Proof. reflexivity. Qed.

Lemma cancel_orders_empty_list (w : Bitmex.world) :
  Bitmex.cancel_orders (Some []) w = (Raise IndexError, w).
Proof. reflexivity. Qed.

Lemma cancel_orders_null_argument (w : Bitmex.world) :
  Bitmex.cancel_orders None w = (Raise TypeError, w).
Proof. reflexivity. Qed.

(** C2 (amended).  A call whose list starts with a null id is a no-op: it
    returns None, raises nothing and leaves the venue, the requests sent and
    the log as they were.  A call with an empty list or with a null argument
    sends no request either, but raises (IndexError, TypeError) instead of
    returning. *)
Theorem cancel_orders_without_ids (ids : list (option string)) (w : Bitmex.world) :
  Bitmex.cancel_orders (Some (None :: ids)) w = (Return None, w)
  ∧ Bitmex.cancel_orders (Some []) w = (Raise IndexError, w)
  ∧ Bitmex.cancel_orders None w = (Raise TypeError, w).
Proof. by split_and!. Qed.

End Cancel.

(** C2, as stated, fails: the call with an empty list of ids raises
    IndexError. *)
Lemma cancel_orders_empty_list_raises :
  (Bitmex.cancel_orders (Some []) (world_with [])).1 = Raise IndexError
  ∧ ¬ ∃ v, (Bitmex.cancel_orders (Some []) (world_with [])).1 = Return v.
Proof.
  split; [reflexivity|]. intros [v Hv]. discriminate Hv.
Qed.

Section CancelEntry.

Variables (i orderID clOrdID ordType price : json) (key : hashable).
Hypothesis fields : cancel_entry_fields i orderID clOrdID ordType price key.
Variable cancel_confs : gmap hashable CancelConf.t.

Lemma store_conf_fields (status : string) :
  Bitmex.store_conf cancel_confs i status price
  = Return (<[key := cancel_conf status orderID clOrdID ordType price]> cancel_confs).
Proof.
  destruct fields as [H1 H2 H3 _ H5]. unfold Bitmex.store_conf.
  rewrite H1, H2, H3. simpl. by rewrite H5.
Qed.

(** An entry without an error field: confirmed when its status is
    Canceled, an unhandled case otherwise. *)
Lemma cancel_entry_without_error (ordStatus : json) :
  getitem i "error" = Raise (KeyError "error") →
  getitem i "ordStatus" = Return ordStatus →
  Bitmex.cancel_entry cancel_confs i
  = if eq_str ordStatus "Canceled"
    then Return (<[key := cancel_conf "CANCELLED" orderID clOrdID ordType price]>
                   cancel_confs)
    else Raise (Bitmex.unhandled_case ordStatus).
Proof.
  intros Herr Hst. unfold Bitmex.cancel_entry.
  rewrite (cef_price _ _ _ _ _ _ fields). simpl. rewrite Herr. simpl. rewrite Hst. simpl.
  destruct (eq_str ordStatus "Canceled"); [apply store_conf_fields | done].
Qed.

(** An entry with a non-null error: confirmed as FILLED or CANCELLED for
    the two race messages, an unhandled case for anything else. *)
Lemma cancel_entry_with_error (error : json) :
  getitem i "error" = Return error → error ≠ JNull →
  Bitmex.cancel_entry cancel_confs i
  = if eq_str error Bitmex.already_filled
    then Return (<[key := cancel_conf "FILLED" orderID clOrdID ordType price]>
                   cancel_confs)
    else if eq_str error Bitmex.already_canceled
    then Return (<[key := cancel_conf "CANCELLED" orderID clOrdID ordType price]>
                   cancel_confs)
    else Raise (Bitmex.unhandled_case error).
Proof.
  intros Herr Hnn. unfold Bitmex.cancel_entry.
  rewrite (cef_price _ _ _ _ _ _ fields). simpl. rewrite Herr. simpl.
  assert (Hstore := store_conf_fields).
  destruct error as [|b|q|s|l|d]; [done|..]; simpl;
    try reflexivity.
  destruct (String.eqb s Bitmex.already_filled); [by rewrite Hstore|].
  destruct (String.eqb s Bitmex.already_canceled); [by rewrite Hstore|done].
Qed.

(** An entry whose error field is null is skipped: nothing is stored and
    nothing is raised, whatever its status. *)
Lemma cancel_entry_null_error :
  getitem i "error" = Return JNull →
  Bitmex.cancel_entry cancel_confs i = Return cancel_confs.
Proof.
  intros Herr. unfold Bitmex.cancel_entry.
  rewrite (cef_price _ _ _ _ _ _ fields). simpl. by rewrite Herr.
Qed.

End CancelEntry.

(** C3 (code defect).  The claim: an entry reporting status Canceled is
    confirmed, and no unhandled entry is swallowed.  An entry whose error
    field is null falls through the test on the error and is neither
    confirmed nor reported: for status Canceled no confirmation is stored,
    for status New nothing is raised, and the call returns an empty
    mapping. *)
Theorem cancel_orders_null_error_swallowed :
  Bitmex.cancel_entry ∅ canceled_entry_null_error = Return ∅
  ∧ Bitmex.cancel_entry ∅ new_entry_null_error = Return ∅
  ∧ (Bitmex.cancel_orders (Some [Some "v-1"; Some "v-2"])
       (world_with [ok (JList [canceled_entry_null_error; new_entry_null_error])])).1
    = Return (Some ∅)
  ∧ getitem canceled_entry_null_error "ordStatus" = Return (JStr "Canceled")
  ∧ getitem canceled_entry_null_error "error" = Return JNull.
Proof. split_and!; reflexivity. Qed.

Example cancel_orders_race_and_plain :
  ∃ confs,
    (Bitmex.cancel_orders (Some [Some "v-3"; Some "v-4"])
       (world_with [ok (JList [canceled_entry; filled_race_entry])])).1
    = Return (Some confs)
    ∧ confs !! HStr "v-3"
      = Some (cancel_conf "CANCELLED" (JStr "v-3") (JStr "c-3") (JStr "Stop") (JNum 95))
    ∧ confs !! HStr "v-4"
      = Some (cancel_conf "FILLED" (JStr "v-4") (JStr "c-4") (JStr "Limit") (JNum 100)).
Proof. eexists. split_and!; reflexivity. Qed.

(** ** Formatting orders for the venue *)

Section Format.

Context `{External}.

Lemma format_orders_single (order : Intent.t) (payload : Payload.t) :
  Bitmex.format_order order = Return payload →
  Bitmex.format_orders [order] = Return [payload].
Proof. intros Hf. unfold Bitmex.format_orders. simpl. by rewrite Hf. Qed.

Lemma format_order_stop (order : Intent.t) (price orderQty : option Q) :
  Intent.order_type order = "STOP" →
  round_increment (Intent.price order) (Intent.symbol order) = Return price →
  round_increment (Some (Intent.size order)) (Intent.symbol order) = Return orderQty →
  ∃ payload, Bitmex.format_order order = Return payload
    ∧ Payload.stopPx payload = price ∧ Payload.price payload = None
    ∧ Payload.timeInForce payload = Some "ImmediateOrCancel"
    ∧ Payload.ordType payload = "Stop".
Proof.
  intros Hty Hp Hq. unfold Bitmex.format_order.
  rewrite Hp, Hq, Hty. simpl. eexists. by split_and!.
Qed.

Lemma format_order_market (order : Intent.t) (price orderQty : option Q) :
  Intent.order_type order = "MARKET" →
  round_increment (Intent.price order) (Intent.symbol order) = Return price →
  round_increment (Some (Intent.size order)) (Intent.symbol order) = Return orderQty →
  ∃ payload, Bitmex.format_order order = Return payload
    ∧ Payload.stopPx payload = None ∧ Payload.price payload = None
    ∧ Payload.timeInForce payload = Some "ImmediateOrCancel"
    ∧ Payload.ordType payload = "Market".
Proof.
  intros Hty Hp Hq. unfold Bitmex.format_order.
  rewrite Hp, Hq, Hty. simpl. eexists. by split_and!.
Qed.

(** X30.  For a STOP intent with price P on which the rounding of price
    and size returns, the payload's stopPx is round_increment(P, symbol),
    its price is null and its time-in-force is ImmediateOrCancel; for a
    MARKET intent the payload's price is null and its time-in-force is
    ImmediateOrCancel.  Whether stopPx is P itself rests on
    [round_increment], which this file takes as a parameter. *)
Theorem format_orders_stop_and_market (stop market : Intent.t)
    (stop_price stop_qty market_price market_qty : option Q) :
  Intent.order_type stop = "STOP" →
  round_increment (Intent.price stop) (Intent.symbol stop) = Return stop_price →
  round_increment (Some (Intent.size stop)) (Intent.symbol stop) = Return stop_qty →
  Intent.order_type market = "MARKET" →
  round_increment (Intent.price market) (Intent.symbol market) = Return market_price →
  round_increment (Some (Intent.size market)) (Intent.symbol market) = Return market_qty →
  (∃ payload, Bitmex.format_orders [stop] = Return [payload]
     ∧ Payload.stopPx payload = stop_price ∧ Payload.price payload = None
     ∧ Payload.timeInForce payload = Some "ImmediateOrCancel")
  ∧ (∃ payload, Bitmex.format_orders [market] = Return [payload]
     ∧ Payload.price payload = None
     ∧ Payload.timeInForce payload = Some "ImmediateOrCancel").
Proof.
  intros Hs Hsp Hsq Hm Hmp Hmq. split.
  - destruct (format_order_stop _ _ _ Hs Hsp Hsq) as (p & Hp & ? & ? & ? & _).
    exists p. split_and!; [by apply format_orders_single|done..].
  - destruct (format_order_market _ _ _ Hm Hmp Hmq) as (p & Hp & _ & ? & ? & _).
    exists p. split_and!; [by apply format_orders_single|done..].
Qed.

End Format.

Lemma format_orders_stop_and_market_witness :
  Intent.order_type stop_order = "STOP"
  ∧ Intent.order_type market_order = "MARKET"
  ∧ (∃ payload, @Bitmex.format_orders scripted_venue [stop_order] = Return [payload]
       ∧ Payload.stopPx payload = Some 95%Q ∧ Payload.price payload = None
       ∧ Payload.timeInForce payload = Some "ImmediateOrCancel")
  ∧ (∃ payload, @Bitmex.format_orders scripted_venue [market_order] = Return [payload]
       ∧ Payload.price payload = None
       ∧ Payload.timeInForce payload = Some "ImmediateOrCancel").
Proof.
  split; [reflexivity|]. split; [reflexivity|].
  apply (@format_orders_stop_and_market scripted_venue stop_order market_order
           (Some 95%Q) (Some 10%Q) None (Some 10%Q));
    reflexivity.
Defined.

(** ** Normalising venue orders *)

(** Case analysis on the next bound computation in a hypothesis. *)
Ltac bind_case H :=
  cbv [mbind result_mbind] in H;
  match type of H with
  | context [result_bind _ ?m] =>
      let E := fresh "E" in
      destruct m eqn:E; cbn [result_bind] in H; [|discriminate H]
  end.

Lemma split_lines_unfold (s : string) :
  split_lines s
  = first_line s :: match after_line_break s with
                    | Some rest => split_lines rest
                    | None => []
                    end.
Proof.
  induction s as [|c s IH]; [done|]. simpl.
  destruct (Ascii.eqb c newline); [done|]. by rewrite IH.
Qed.

(** [split("\n")[1]] is the second line. *)
Lemma split_lines_second (s : string) :
  split_lines s !! 1%nat = second_line s.
Proof.
  rewrite split_lines_unfold. unfold second_line. simpl.
  destruct (after_line_break s) as [rest|]; [|done].
  by rewrite split_lines_unfold.
Qed.

Lemma has_line_break_after (s : string) :
  has_line_break s = true ↔ is_Some (after_line_break s).
Proof.
  unfold has_line_break.
  induction s as [|c s IH]; cbn [list_ascii_of_string existsb after_line_break].
  - split; [done | by intros [? ?]].
  - rewrite (Ascii.eqb_sym newline c).
    destruct (Ascii.eqb c newline); cbn [orb]; [|done].
    split; [by eexists | done].
Qed.

Lemma metatype_of_string (s : string) :
  Bitmex.metatype_of (JStr s)
  = if has_line_break s then
      match split_lines s !! 1%nat with
      | Some line => Return (JStr line)
      | None => Raise IndexError
      end
    else if str_in s Bitmex.metatype_labels then Return (JStr s)
    else Return JNull.
Proof. reflexivity. Qed.

Section Metatype.

Context `{External}.

Lemma order_of_metatype (res text : json) (o : Order.t) :
  getitem res "text" = Return text →
  Bitmex.order_of res = Return (Some o) →
  Bitmex.metatype_of text = Return (Order.metatype o).
Proof.
  intros Htext Ho. unfold Bitmex.order_of in Ho.
  rewrite Htext in Ho.
  bind_case Ho. destruct (truthy a); [|discriminate Ho].
  repeat bind_case Ho. by injection Ho as <-.
Qed.

(** C9.  The metatype of an annotation: its second line when it has a line
    break; otherwise the annotation itself when it is ENTRY, STOP,
    TAKE_PROFIT or FINAL_TAKE_PROFIT; otherwise null.  No annotation string
    makes the derivation raise, and this is the metatype of the record
    get_orders builds. *)
Theorem metatype_of_annotation (s : string) :
  (has_line_break s = true →
     ∃ line, second_line s = Some line
             ∧ Bitmex.metatype_of (JStr s) = Return (JStr line))
  ∧ (has_line_break s = false →
     s = "ENTRY" ∨ s = "STOP" ∨ s = "TAKE_PROFIT" ∨ s = "FINAL_TAKE_PROFIT" →
     Bitmex.metatype_of (JStr s) = Return (JStr s))
  ∧ (has_line_break s = false →
     s ≠ "ENTRY" → s ≠ "STOP" → s ≠ "TAKE_PROFIT" → s ≠ "FINAL_TAKE_PROFIT" →
     Bitmex.metatype_of (JStr s) = Return JNull)
  ∧ (∃ v, Bitmex.metatype_of (JStr s) = Return v)
  ∧ (∀ res o, getitem res "text" = Return (JStr s) →
       Bitmex.order_of res = Return (Some o) →
       Bitmex.metatype_of (JStr s) = Return (Order.metatype o)).
Proof.
  assert (Hbreak : has_line_break s = true →
            ∃ line, second_line s = Some line
                    ∧ Bitmex.metatype_of (JStr s) = Return (JStr line)).
  { intros Hb. rewrite metatype_of_string, Hb, split_lines_second.
    apply has_line_break_after in Hb as [rest Hrest].
    unfold second_line. rewrite Hrest. simpl. by eexists. }
  assert (Hlabel : has_line_break s = false →
            s = "ENTRY" ∨ s = "STOP" ∨ s = "TAKE_PROFIT" ∨ s = "FINAL_TAKE_PROFIT" →
            Bitmex.metatype_of (JStr s) = Return (JStr s)).
  { intros Hb Hin. rewrite metatype_of_string, Hb.
    by destruct Hin as [->|[->|[->| ->]]]. }
  assert (Hother : has_line_break s = false →
            s ≠ "ENTRY" → s ≠ "STOP" → s ≠ "TAKE_PROFIT" → s ≠ "FINAL_TAKE_PROFIT" →
            Bitmex.metatype_of (JStr s) = Return JNull).
  { intros Hb H1 H2 H3 H4. rewrite metatype_of_string, Hb.
    assert (Hno : str_in s Bitmex.metatype_labels = false); [|by rewrite Hno].
    apply str_in_false. unfold Bitmex.metatype_labels. intros Hin.
    repeat (apply elem_of_cons in Hin as [->|Hin]; [done|]).
    by apply elem_of_nil in Hin. }
  split_and!; [done..| |].
  - destruct (has_line_break s) eqn:Hb.
    + destruct (Hbreak eq_refl) as (line & _ & Hm). by eexists.
    + destruct (decide (s = "ENTRY")) as [->|H1]; [by eexists|].
      destruct (decide (s = "STOP")) as [->|H2]; [by eexists|].
      destruct (decide (s = "TAKE_PROFIT")) as [->|H3]; [by eexists|].
      destruct (decide (s = "FINAL_TAKE_PROFIT")) as [->|H4]; [by eexists|].
      eexists. by apply Hother.
  - intros res o. apply order_of_metatype.
Qed.

End Metatype.

(** The three cases at sample annotations: a line break, a label, and
    neither. *)
Lemma metatype_of_annotation_witness :
  (has_line_break annotated_stop = true
   ∧ second_line annotated_stop = Some "STOP"
   ∧ Bitmex.metatype_of (JStr annotated_stop) = Return (JStr "STOP"))
  ∧ (has_line_break "TAKE_PROFIT" = false
     ∧ Bitmex.metatype_of (JStr "TAKE_PROFIT") = Return (JStr "TAKE_PROFIT"))
  ∧ (has_line_break "Submitted via API." = false
     ∧ Bitmex.metatype_of (JStr "Submitted via API.") = Return JNull).
Proof.
  split; [|split].
  - split; [reflexivity|].
    destruct (proj1 (@metatype_of_annotation scripted_venue annotated_stop) eq_refl)
      as (line & Hline & Hm).
    injection Hline as <-. split; [reflexivity | exact Hm].
  - split; [reflexivity|].
    apply (proj1 (proj2 (@metatype_of_annotation scripted_venue "TAKE_PROFIT")));
      [reflexivity|]. right. right. by left.
  - split; [reflexivity|].
    apply (proj1 (proj2 (proj2 (@metatype_of_annotation scripted_venue
                                   "Submitted via API."))));
      [reflexivity | discriminate..].
Defined.

Example metatype_examples :
  Bitmex.metatype_of (JStr annotated_stop) = Return (JStr "STOP")
  ∧ Bitmex.metatype_of (JStr "TAKE_PROFIT") = Return (JStr "TAKE_PROFIT")
  ∧ Bitmex.metatype_of (JStr "Submitted via API.") = Return JNull
  ∧ Bitmex.metatype_of (JStr (String newline "")) = Return (JStr "").
Proof. split_and!; reflexivity. Qed.

(** ** Positions *)

Section Positions.

Context `{External}.

Lemma first_position_other (symbol : string) (pre rest : list json) :
  Forall (other_symbol symbol) pre →
  Bitmex.first_position symbol (pre ++ rest) = Bitmex.first_position symbol rest.
Proof.
  induction 1 as [|pos pre (s & Hs & Hne) _ IH]; [done|].
  simpl. rewrite Hs. simpl. by rewrite Hne.
Qed.

Lemma first_position_none (symbol : string) (response : list json) :
  Forall (other_symbol symbol) response →
  Bitmex.first_position symbol response = Return None.
Proof.
  intros Hall. rewrite <- (app_nil_r response). by rewrite first_position_other.
Qed.

Lemma position_of_fields (symbol : string) (pos : json) (q : Q)
    (isOpen avg cur ots oq : json) :
  position_fields pos q isOpen avg cur ots oq →
  Bitmex.position_of symbol pos
  = Return {| Position.size := JNum q;
              Position.avg_entry_price := avg;
              Position.symbol := symbol;
              Position.direction := if Qle_bool q 0 then "SHORT" else "LONG";
              Position.currency := cur;
              Position.opening_timestamp := ots;
              Position.opening_size := oq;
              Position.status :=
                match isOpen with JBool true => "OPEN" | _ => "CLOSED" end |}.
Proof.
  intros [H1 H2 H3 H4 H5 H6]. unfold Bitmex.position_of.
  rewrite H1, H2, H3, H4, H5, H6. simpl. by destruct (Qle_bool q 0).
Qed.

Lemma direction_long_iff (q : Q) :
  (if Qle_bool q 0 then "SHORT" else "LONG") = "LONG" ↔ (0 < q)%Q.
Proof.
  destruct (Qle_bool q 0) eqn:Hle.
  - apply Qle_bool_iff in Hle. split; [done|].
    intros Hlt. by apply Qlt_not_le in Hlt.
  - split; [|done]. intros _. apply Qnot_le_lt. intros Hle'.
    apply Qle_bool_iff in Hle'. congruence.
Qed.

Lemma get_position_run (symbol : string) (w : Bitmex.world) (r : response)
    (v : venue_state) (response : list json) :
  session_send (Bitmex.venue w) GET_position = (r, v) →
  body r = Some (JList response) →
  Bitmex.get_position symbol w
  = (Bitmex.first_position symbol response,
     {| Bitmex.venue := v; Bitmex.sent := Bitmex.sent w ++ [GET_position];
        Bitmex.logged := Bitmex.logged w |}).
Proof.
  intros Hsend Hbody. unfold Bitmex.get_position.
  cbv [mbind Bitmex.M_mbind Bitmex.M_bind Bitmex.send Bitmex.lift Bitmex.json_of].
  rewrite Hsend, Hbody. simpl.
  by destruct (Bitmex.first_position symbol response).
Qed.

(** C10.  On a venue answer that is a list of position entries:
    get_position returns None, raising nothing, when every entry is for
    another symbol; and for the first entry of the symbol asked, with a
    numeric quantity, the record's direction is LONG exactly when the
    quantity is strictly positive, so a quantity of zero gives SHORT. *)
Theorem get_position_none_or_direction (symbol : string) (w : Bitmex.world)
    (r : response) (v : venue_state) (response : list json) :
  session_send (Bitmex.venue w) GET_position = (r, v) →
  body r = Some (JList response) →
  let w' := {| Bitmex.venue := v; Bitmex.sent := Bitmex.sent w ++ [GET_position];
               Bitmex.logged := Bitmex.logged w |} in
  (Forall (other_symbol symbol) response →
     Bitmex.get_position symbol w = (Return None, w'))
  ∧ (∀ pre pos post q isOpen avg cur ots oq,
       response = pre ++ pos :: post →
       Forall (other_symbol symbol) pre →
       has_symbol symbol pos →
       position_fields pos q isOpen avg cur ots oq →
       ∃ p, Bitmex.get_position symbol w = (Return (Some p), w')
            ∧ Position.size p = JNum q
            ∧ (Position.direction p = "LONG" ↔ (0 < q)%Q)
            ∧ ((q == 0)%Q → Position.direction p = "SHORT")).
Proof.
  intros Hsend Hbody w'. split.
  - intros Hall. rewrite (get_position_run _ _ _ _ _ Hsend Hbody).
    by rewrite first_position_none.
  - intros pre pos post q isOpen avg cur ots oq -> Hpre (s & Hs & Heq) Hf.
    rewrite (get_position_run _ _ _ _ _ Hsend Hbody).
    rewrite first_position_other by done. simpl. rewrite Hs. simpl. rewrite Heq.
    rewrite (position_of_fields _ _ _ _ _ _ _ _ Hf). simpl.
    eexists. split_and!; [reflexivity | reflexivity | apply direction_long_iff |].
    intros Hz. simpl. assert (Hle : Qle_bool q 0 = true).
    { apply Qle_bool_iff. rewrite Hz. apply Qle_refl. }
    by rewrite Hle.
Qed.

End Positions.

Lemma get_position_none_or_direction_witness :
  Forall (other_symbol "XBTUSD") [position_entry "ETHUSD" 5 true]
  ∧ has_symbol "XBTUSD" (position_entry "XBTUSD" 0 false)
  ∧ ∃ p, Bitmex.get_position "XBTUSD" (world_with [ok (JList positions_flat_xbt)])
         = (Return (Some p),
            @Bitmex.Build_world scripted_venue [] [GET_position] [])
         ∧ Position.size p = JNum 0
         ∧ (Position.direction p = "LONG" ↔ (0 < 0)%Q)
         ∧ ((0 == 0)%Q → Position.direction p = "SHORT").
Proof.
  assert (Hpre : Forall (other_symbol "XBTUSD") [position_entry "ETHUSD" 5 true]).
  { constructor; [|constructor]. exists (JStr "ETHUSD"). by split. }
  assert (Hpos : has_symbol "XBTUSD" (position_entry "XBTUSD" 0 false)).
  { exists (JStr "XBTUSD"). by split. }
  split; [exact Hpre|]. split; [exact Hpos|].
  refine (proj2 (@get_position_none_or_direction scripted_venue "XBTUSD"
            (world_with [ok (JList positions_flat_xbt)])
            (ok (JList positions_flat_xbt)) [] positions_flat_xbt eq_refl eq_refl)
          [position_entry "ETHUSD" 5 true] (position_entry "XBTUSD" 0 false) []
          0%Q (JBool false) (JNum 9500) (JStr "USD")
          (JStr "2020-01-01T00:00:00.000Z") (JNum 0) eq_refl Hpre Hpos _).
  by constructor.
Defined.

Example get_position_flat_is_short :
  (Bitmex.get_position "XBTUSD" (world_with [ok (JList positions_flat_xbt)])).1
  = Return (Some {| Position.size := JNum 0; Position.avg_entry_price := JNum 9500;
                    Position.symbol := "XBTUSD"; Position.direction := "SHORT";
                    Position.currency := JStr "USD";
                    Position.opening_timestamp := JStr "2020-01-01T00:00:00.000Z";
                    Position.opening_size := JNum 0; Position.status := "CLOSED" |}).
Proof. reflexivity. Qed.

Example get_position_absent_symbol :
  (Bitmex.get_position "LTCUSD" (world_with [ok (JList positions_flat_xbt)])).1
  = Return None.
Proof. reflexivity. Qed.

(** ** Status normalisation *)

Lemma ord_status_fill_table (venue canonical : string) :
  (venue, canonical) ∈ status_table →
  Bitmex.ord_status_fill (JStr venue) = Return canonical.
Proof.
  unfold status_table. intros Hin.
  repeat (apply elem_of_cons in Hin as [[= -> ->]|Hin]; [reflexivity|]).
  by apply elem_of_nil in Hin.
Qed.

Lemma ord_status_fill_known (ordStatus : json) (canonical : string) :
  Bitmex.ord_status_fill ordStatus = Return canonical →
  ∃ venue, ordStatus = JStr venue ∧ (venue, canonical) ∈ status_table.
Proof.
  unfold Bitmex.ord_status_fill, status_table.
  destruct ordStatus as [|b|q|s|l|d]; cbn [eq_str]; try discriminate.
  repeat match goal with
         | |- context [String.eqb s ?t] =>
             destruct (String.eqb_spec s t) as [->|_];
             [intros [= <-]; eexists; split; [reflexivity | set_solver]|]
         end.
  discriminate.
Qed.

Lemma ord_status_fill_unknown (ordStatus : json) :
  ¬ known_status ordStatus →
  Bitmex.ord_status_fill ordStatus = Raise (Exception [ordStatus]).
Proof.
  intros Hun. destruct (Bitmex.ord_status_fill ordStatus) as [c|e] eqn:Hf.
  - destruct (ord_status_fill_known _ _ Hf) as (venue & -> & Hin).
    destruct Hun. by exists venue, c.
  - revert Hf. unfold Bitmex.ord_status_fill.
    repeat (destruct (eq_str ordStatus _); [discriminate|]). congruence.
Qed.

Section Status.

Context `{External}.

Lemma order_of_status (res : json) (o : Order.t) :
  Bitmex.order_of res = Return (Some o) →
  ∃ ordStatus, getitem res "ordStatus" = Return ordStatus
               ∧ Bitmex.ord_status_fill ordStatus = Return (Order.status o).
Proof.
  intros Ho. unfold Bitmex.order_of in Ho.
  bind_case Ho. destruct (truthy a); [|discriminate Ho].
  repeat bind_case Ho. injection Ho as <-. by eexists.
Qed.

Lemma execution_of_status (res : json) (e : Execution.t) :
  Bitmex.execution_of res = Return e →
  ∃ ordStatus, getitem res "ordStatus" = Return ordStatus
               ∧ Bitmex.ord_status_fill ordStatus = Return (Execution.status e).
Proof.
  intros He. unfold Bitmex.execution_of in He.
  repeat bind_case He. injection He as <-. by eexists.
Qed.

Lemma updated_order_status (order : Intent.t) (res : json) (new : OrderRecord.t) :
  Bitmex.updated_order order res = Return new →
  ∃ ordStatus, getitem res "ordStatus" = Return ordStatus
               ∧ Bitmex.ord_status_fill ordStatus = Return (OrderRecord.status new).
Proof.
  intros Hn. unfold Bitmex.updated_order in Hn.
  repeat bind_case Hn. injection Hn as <-. by eexists.
Qed.

(** C6.  The status normalisation shared by get_orders, get_executions and
    place_bulk_orders maps Filled, Canceled, New and PartiallyFilled to
    FILLED, CANCELLED, NEW and PARTIAL, and returns for nothing else: any
    other value raises an Exception carrying that value, in each of the
    three functions, and the status of every record they build comes from
    the table. *)
Theorem ord_status_normalisation (ordStatus : json) :
  (∀ venue canonical, (venue, canonical) ∈ status_table →
     Bitmex.ord_status_fill (JStr venue) = Return canonical)
  ∧ (∀ canonical, Bitmex.ord_status_fill ordStatus = Return canonical →
       ∃ venue, ordStatus = JStr venue ∧ (venue, canonical) ∈ status_table)
  ∧ (∀ res o, getitem res "ordStatus" = Return ordStatus →
       Bitmex.order_of res = Return (Some o) →
       Bitmex.ord_status_fill ordStatus = Return (Order.status o))
  ∧ (∀ res e, getitem res "ordStatus" = Return ordStatus →
       Bitmex.execution_of res = Return e →
       Bitmex.ord_status_fill ordStatus = Return (Execution.status e))
  ∧ (∀ res order new, getitem res "ordStatus" = Return ordStatus →
       Bitmex.updated_order order res = Return new →
       Bitmex.ord_status_fill ordStatus = Return (OrderRecord.status new))
  ∧ (¬ known_status ordStatus →
     Bitmex.ord_status_fill ordStatus = Raise (Exception [ordStatus])
     ∧ (∀ res clOrdID side,
          getitem res "ordStatus" = Return ordStatus →
          getitem res "clOrdID" = Return clOrdID → truthy clOrdID = true →
          getitem res "side" = Return side →
          Bitmex.order_of res = Raise (Exception [ordStatus]))
     ∧ (∀ res lastLiquidityInd side,
          getitem res "ordStatus" = Return ordStatus →
          getitem res "lastLiquidityInd" = Return lastLiquidityInd →
          getitem res "side" = Return side →
          Bitmex.execution_of res = Raise (Exception [ordStatus]))
     ∧ (∀ res order,
          getitem res "ordStatus" = Return ordStatus →
          Bitmex.updated_order order res = Raise (Exception [ordStatus]))).
Proof.
  split_and!.
  - apply ord_status_fill_table.
  - apply ord_status_fill_known.
  - intros res o Hst Ho. destruct (order_of_status _ _ Ho) as (st & Hst' & Hf).
    congruence.
  - intros res e Hst He. destruct (execution_of_status _ _ He) as (st & Hst' & Hf).
    congruence.
  - intros res order new Hst Hn.
    destruct (updated_order_status _ _ _ Hn) as (st & Hst' & Hf). congruence.
  - intros Hun. pose proof (ord_status_fill_unknown _ Hun) as Hraise.
    split_and!; [done|..].
    + intros res c side Hst Hc Htr Hside. unfold Bitmex.order_of.
      rewrite Hc. simpl. rewrite Htr, Hside. simpl. rewrite Hst. simpl.
      by rewrite Hraise.
    + intros res liq side Hst Hliq Hside. unfold Bitmex.execution_of.
      rewrite Hliq. simpl. rewrite Hside. simpl. rewrite Hst. simpl.
      by rewrite Hraise.
    + intros res order Hst. unfold Bitmex.updated_order.
      rewrite Hst. simpl. by rewrite Hraise.
Qed.

End Status.

Lemma expired_unknown : ¬ known_status (JStr "Expired").
Proof.
  intros (venue & canonical & [= <-] & Hin). unfold status_table in Hin.
  repeat (apply elem_of_cons in Hin as [[=]|Hin]). by apply elem_of_nil in Hin.
Defined.

Lemma ord_status_normalisation_witness :
  ¬ known_status (JStr "Expired")
  ∧ Bitmex.ord_status_fill (JStr "Expired") = Raise (Exception [JStr "Expired"])
  ∧ @Bitmex.order_of scripted_venue (order_entry "c-20" "Expired" "ENTRY")
    = Raise (Exception [JStr "Expired"])
  ∧ @Bitmex.execution_of scripted_venue (execution_entry "c-20" "Expired")
    = Raise (Exception [JStr "Expired"])
  ∧ @Bitmex.updated_order scripted_venue limit_order (order_entry "c-13" "Expired" "ENTRY")
    = Raise (Exception [JStr "Expired"]).
Proof.
  split; [exact expired_unknown|].
  destruct (@ord_status_normalisation scripted_venue (JStr "Expired"))
    as (_ & _ & _ & _ & _ & Hraise).
  destruct (Hraise expired_unknown) as (Hfill & Horder & Hexec & Hupd).
  split_and!.
  - exact Hfill.
  - by apply (Horder _ (JStr "c-20") (JStr "Buy")).
  - by apply (Hexec _ (JStr "RemovedLiquidity") (JStr "Sell")).
  - by apply Hupd.
Defined.

Example get_orders_expired :
  (Bitmex.get_orders (Some "XBTUSD") None 500
     (world_with [ok (JList [order_entry "c-21" "New" "ENTRY";
                             order_entry "c-20" "Expired" "ENTRY"])])).1
  = Raise (Exception [JStr "Expired"]).
Proof. reflexivity. Qed.

Example get_executions_expired :
  (Bitmex.get_executions "XBTUSD" None None 500
     (world_with [ok (JList [execution_entry "c-20" "Expired"])])).1
  = Raise (Exception [JStr "Expired"]).
Proof. reflexivity. Qed.

Example get_orders_statuses :
  result_map (map Order.status) (Bitmex.get_orders (Some "XBTUSD") None 500
     (world_with [ok (JList [order_entry "c-21" "New" "ENTRY";
                             order_entry "c-22" "PartiallyFilled" "ENTRY";
                             order_entry "c-23" "Filled" "STOP";
                             order_entry "c-24" "Canceled" "STOP"])])).1
  = Return ["NEW"; "PARTIAL"; "FILLED"; "CANCELLED"].
Proof. reflexivity. Qed.

(** ** Strategy model *)

Section Emit.

Context {time num exchange : Type}.
Variable time_eqb : time → time → bool.
Variable timestamp : time → Z.

Lemma py_index_raises {A} (l : list A) (i : Z) (e : exn) :
  py_index l i = Raise e → e = IndexError.
Proof.
  unfold py_index. destruct (_ && _); [|congruence].
  destruct (l !! _); congruence.
Qed.

Lemma py_index_empty {A} (i : Z) : py_index (@nil A) i = Raise IndexError.
Proof.
  unfold py_index. cbv zeta. destruct (_ && _); [|done]. by rewrite lookup_nil.
Qed.

(** With short crosses and no long cross in the window, the lookup of the
    last long cross fails and the handler leaves through [sys.exit(0)]. *)
Lemma emit_only_shorts (features : list (@Model.bar time num))
    (longs shorts : @Model.entries time num) (timeframe symbol : string)
    (exch : exchange) :
  Model.time_ longs = [] → Model.time_ shorts ≠ [] →
  Model.emit time_eqb timestamp features longs shorts timeframe symbol exch
  = Raise (SystemExit 0).
Proof.
  intros Hl Hs. unfold Model.emit. rewrite Hl.
  destruct (Model.time_ shorts) as [|t ts]; [done|].
  assert (Hpos : (0 <? Z.of_nat (length (t :: ts))) = true).
  { apply Z.ltb_lt. cbn [length]. lia. }
  rewrite Hpos, orb_true_r, py_index_empty.
  destruct (py_index features (-1)) as [last|e] eqn:Hlast; cbn.
  - done.
  - by rewrite (py_index_raises _ _ _ Hlast).
Qed.

Lemma py_index_last {A} (l : list A) (x : A) : py_index (l ++ [x]) (-1) = Return x.
Proof.
  unfold py_index. cbv zeta. rewrite length_app. cbn [length].
  change (-1 <? 0) with true. cbv iota.
  replace (-1 + Z.of_nat (length l + 1)) with (Z.of_nat (length l)) by lia.
  destruct (Z.leb_spec 0 (Z.of_nat (length l))); [|lia].
  destruct (Z.ltb_spec (Z.of_nat (length l)) (Z.of_nat (length l + 1))); [|lia].
  cbn [andb]. rewrite Nat2Z.id. by rewrite list_lookup_middle.
Qed.

(** With a long and a short cross in the window, the call returns: the
    LONG signal when the last bar is the last long cross, else the SHORT
    signal when it is the last short cross, else nothing. *)
Lemma emit_both_crosses (features : list (@Model.bar time num)) (last : Model.bar)
    (long_prices short_prices : list num) (long_price short_price : num)
    (long_times short_times : list time) (long_ts short_ts : time)
    (timeframe symbol : string) (exch : exchange) :
  let all := features ++ [last] in
  let signal dir p ts :=
    {| Model.symbol := symbol; Model.entry_ts := timestamp ts;
       Model.direction := dir; Model.timeframe := timeframe;
       Model.strategy := Model.name; Model.venue := exch;
       Model.entry_price := p; Model.entry_type := "Market";
       Model.dataset := all |} in
  Model.emit time_eqb timestamp all
    {| Model.price := long_prices ++ [long_price];
       Model.time_ := long_times ++ [long_ts] |}
    {| Model.price := short_prices ++ [short_price];
       Model.time_ := short_times ++ [short_ts] |}
    timeframe symbol exch
  = Return (if time_eqb (Model.index last) long_ts
            then Some (signal "LONG" long_price long_ts)
            else if time_eqb (Model.index last) short_ts
            then Some (signal "SHORT" short_price short_ts)
            else None).
Proof.
  intros all signal. unfold Model.emit. cbn [Model.time_ Model.price].
  assert (Hpos : (0 <? Z.of_nat (length (long_times ++ [long_ts]))) = true).
  { apply Z.ltb_lt. rewrite length_app. cbn [length]. lia. }
  rewrite Hpos. cbn [orb]. unfold all. rewrite !py_index_last.
  cbn [mbind result_mbind result_bind except_IndexError_exit].
  destruct (time_eqb (Model.index last) long_ts); [done|].
  by destruct (time_eqb (Model.index last) short_ts).
Qed.

End Emit.

(** C8 (code defect).  The claim: run returns normally, a Signal or null,
    also when the window holds short crosses and no long cross.  On a window
    whose only cross is a short cross at the last bar, the test against the
    last long cross indexes an empty list, and run ends in SystemExit
    instead of returning the SHORT signal; the same happens when the only
    cross is a long cross before the last bar. *)
Theorem run_only_short_crosses_exits :
  Model.find_crosses Z.ltb short_cross_window
  = Return (Model.no_entries,
            {| Model.price := [102]; Model.time_ := [180] |})
  ∧ sample_run short_cross_window = Raise (SystemExit 0)
  ∧ Model.find_crosses Z.ltb stale_long_window
    = Return ({| Model.price := [102]; Model.time_ := [180] |}, Model.no_entries)
  ∧ sample_run stale_long_window = Raise (SystemExit 0).
Proof. split_and!; reflexivity. Qed.

Example run_both_crosses :
  sample_run both_crosses_window
  = Return (Some {| Model.symbol := "XBTUSD"; Model.entry_ts := 300;
                    Model.direction := "LONG"; Model.timeframe := "1Min";
                    Model.strategy := "EMA Cross - Testing only";
                    Model.venue := "BitMEX"; Model.entry_price := 104;
                    Model.entry_type := "Market";
                    Model.dataset := both_crosses_window |}).
Proof. reflexivity. Qed.

Example run_other_timeframe :
  Model.run Z.eqb id Z.ltb (<["1Min" := short_cross_window]> ∅) "5Min" "XBTUSD" "BitMEX"
  = Return None.
Proof. reflexivity. Qed.

(** ** Submitting orders *)

Lemma intent_eqb_refl (o : Intent.t) : Intent.eqb o o = true.
Proof.
  unfold Intent.eqb.
  assert (Hq : ∀ q, Qeq_bool q q = true) by (intros q; apply Qeq_bool_iff, Qeq_refl).
  assert (Hoq : ∀ q, Intent.opt_eqb Qeq_bool q q = true) by (by intros [q|]; simpl).
  assert (Hos : ∀ s, Intent.opt_eqb String.eqb s s = true).
  { intros [s|]; simpl; [apply String.eqb_refl | done]. }
  rewrite !Z.eqb_refl, !String.eqb_refl, !Hq, !Hoq, !Hos.
  by destruct (Intent.reduce_only o), (Intent.post_only o), (Intent.trail o).
Qed.

Lemma intent_eqb_order_type (a b : Intent.t) :
  Intent.eqb a b = true → Intent.order_type a = Intent.order_type b.
Proof.
  unfold Intent.eqb. rewrite !andb_true_iff.
  intros Hall. destruct_and!. by apply String.eqb_eq.
Qed.

(** [o not in m_o] selects the orders that are not MARKET. *)
Lemma non_market_orders_filter (orders : list Intent.t) :
  Bitmex.non_market_orders orders
  = List.filter (λ o, negb (Bitmex.is_market o)) orders.
Proof.
  unfold Bitmex.non_market_orders. apply filter_ext_in. intros o Ho. f_equal.
  destruct (Bitmex.is_market o) eqn:Hm.
  - apply existsb_exists. exists o. split; [|apply intent_eqb_refl].
    apply filter_In. by split.
  - apply not_true_is_false. intros Hex.
    apply existsb_exists in Hex as (m & Hm' & Heq).
    apply filter_In in Hm' as [_ Hm']. apply intent_eqb_order_type in Heq.
    unfold Bitmex.is_market in *. congruence.
Qed.

Lemma filter_nonempty_self {A} (l : list A) :
  List.filter (λ _, Bitmex.nonempty l) l = l.
Proof.
  destruct l as [|x l]; [done|].
  apply forallb_filter_id. by apply forallb_forall.
Qed.

Lemma foldM_collect {A B} (f : A → result B) (acc : list B) (l : list A) (out : list B) :
  foldM (λ acc x, y ← f x; Return (acc ++ [y])) acc l = Return out
  ↔ ∃ ys, Forall2 (λ x y, f x = Return y) l ys ∧ out = acc ++ ys.
Proof.
  revert acc. induction l as [|x l IH]; intros acc; simpl.
  - split.
    + intros [= <-]. exists []. split; [constructor | by rewrite app_nil_r].
    + intros (ys & Hys & ->). inversion Hys. by rewrite app_nil_r.
  - destruct (f x) as [y|e] eqn:Hfx; simpl.
    + rewrite IH. split.
      * intros (ys & Hys & ->). exists (y :: ys). split; [by constructor|].
        by rewrite <- app_assoc.
      * intros (ys & Hys & ->). inversion Hys as [|? y' ? ys' Hy Hys']; subst.
        assert (y' = y) as -> by congruence.
        exists ys'. split; [done|]. by rewrite <- app_assoc.
    + split; [done|]. intros (ys & Hys & _).
      inversion Hys as [|? y' ? ys' Hy Hys']; subst. congruence.
Qed.

Section Submit.

Context `{External}.

Lemma format_orders_formatted (orders : list Intent.t) (payloads : list Payload.t) :
  formatted_as orders payloads ↔ Bitmex.format_orders orders = Return payloads.
Proof.
  unfold formatted_as, Bitmex.format_orders. rewrite foldM_collect. split.
  - intros Hf. by exists payloads.
  - by intros (ys & Hys & ->).
Qed.

Lemma M_bind_run {A B} (m : Bitmex.M A) (f : A → Bitmex.M B) (w : Bitmex.world) :
  (x ← m; f x) w
  = match m w with
    | (Return a, w') => f a w'
    | (Raise e, w') => (Raise e, w')
    end.
Proof. reflexivity. Qed.

Lemma for_each_app {A B} (f : B → A → Bitmex.M B) (acc : B) (l1 l2 : list A)
    (w : Bitmex.world) :
  Bitmex.for_each f acc (l1 ++ l2) w
  = match Bitmex.for_each f acc l1 w with
    | (Return acc', w') => Bitmex.for_each f acc' l2 w'
    | (Raise e, w') => (Raise e, w')
    end.
Proof.
  revert acc w. induction l1 as [|x l1 IH]; intros acc w; [done|].
  cbn [app Bitmex.for_each]. rewrite !M_bind_run.
  destruct (f acc x w) as [[acc'|e] w']; [apply IH | done].
Qed.

Lemma place_single_order_run (o : Intent.t) (p : Payload.t) (w : Bitmex.world) :
  Bitmex.format_order o = Return p →
  Bitmex.place_single_order o w = Bitmex.send (POST_order p) w.
Proof.
  intros Hf. unfold Bitmex.place_single_order, Bitmex.format_orders.
  rewrite !M_bind_run. unfold Bitmex.lift. simpl. rewrite Hf. reflexivity.
Qed.

(** The market orders go out one request each, in order. *)
Lemma single_orders_run (m_o : list Intent.t) (singles : list Payload.t)
    (acc : list response) (w : Bitmex.world) :
  formatted_as m_o singles →
  ∃ responses w',
    Bitmex.for_each (λ responses o,
                       r ← Bitmex.place_single_order o; mret (responses ++ [r]))
                    acc m_o w
    = (Return (acc ++ responses), w')
    ∧ length responses = length m_o
    ∧ Bitmex.sent w' = Bitmex.sent w ++ (POST_order <$> singles)
    ∧ Bitmex.logged w' = Bitmex.logged w.
Proof.
  intros Hf. revert acc w.
  induction Hf as [|o p m_o singles Hp _ IH]; intros acc w.
  - exists [], w. by rewrite !app_nil_r.
  - cbn [Bitmex.for_each]. rewrite !M_bind_run, (place_single_order_run _ _ _ Hp).
    unfold Bitmex.send at 1.
    destruct (session_send (Bitmex.venue w) (POST_order p)) as [r v] eqn:Hsend.
    cbn [mret Bitmex.M_mret Bitmex.M_ret].
    destruct (IH (acc ++ [r])
                 {| Bitmex.venue := v; Bitmex.sent := Bitmex.sent w ++ [POST_order p];
                    Bitmex.logged := Bitmex.logged w |})
      as (responses & w' & Hrun & Hlen & Hsent & Hlog).
    exists (r :: responses), w'. rewrite Hrun. split_and!.
    + by rewrite <- app_assoc.
    + simpl. by rewrite Hlen.
    + rewrite Hsent. simpl. by rewrite <- app_assoc.
    + done.
Qed.

End Submit.

Section SubmitRuns.

Context `{External}.

Lemma submit_with_batch (orders : list Intent.t) (singles batch : list Payload.t)
    (w : Bitmex.world) :
  formatted_as (List.filter Bitmex.is_market orders) singles →
  formatted_as (List.filter (λ o, negb (Bitmex.is_market o)) orders) batch →
  List.filter (λ o, negb (Bitmex.is_market o)) orders ≠ [] →
  ∃ responses response w',
    Bitmex.submit orders w = (Return ((Some <$> responses) ++ [Some response]), w')
    ∧ length responses = length (List.filter Bitmex.is_market orders)
    ∧ Bitmex.sent w'
      = Bitmex.sent w ++ (POST_order <$> singles) ++ [POST_order_bulk batch]
    ∧ Bitmex.logged w' = Bitmex.logged w.
Proof.
  intros Hs Hb Hne. unfold Bitmex.submit.
  rewrite non_market_orders_filter, filter_nonempty_self. unfold Bitmex.market_orders.
  destruct (single_orders_run _ _ [] w Hs) as (responses & w1 & Hrun & Hlen & Hsent & Hlog).
  rewrite M_bind_run, Hrun. cbn [app].
  destruct (List.filter (λ o, negb (Bitmex.is_market o)) orders) as [|o nm_o] eqn:Hnm;
    [done|].
  cbn [Bitmex.nonempty]. apply format_orders_formatted in Hb.
  rewrite !M_bind_run. unfold Bitmex.lift at 1. rewrite Hb.
  unfold Bitmex.send. rewrite !M_bind_run. cbv beta.
  destruct (session_send (Bitmex.venue w1) (POST_order_bulk batch)) as [r v] eqn:Hsend.
  cbn [mret Bitmex.M_mret Bitmex.M_ret].
  eexists responses, r, _. split_and!; [reflexivity | done | | done].
  cbn [Bitmex.sent]. rewrite Hsent. by rewrite <- app_assoc.
Qed.

Lemma submit_without_batch (orders : list Intent.t) (singles : list Payload.t)
    (w : Bitmex.world) :
  Forall (λ o, Bitmex.is_market o = true) orders →
  formatted_as orders singles →
  ∃ responses w',
    Bitmex.submit orders w = (Return ((Some <$> responses) ++ [None]), w')
    ∧ length responses = length orders
    ∧ Bitmex.sent w' = Bitmex.sent w ++ (POST_order <$> singles)
    ∧ Bitmex.logged w' = Bitmex.logged w.
Proof.
  intros Hall Hs. unfold Bitmex.submit.
  rewrite non_market_orders_filter, filter_nonempty_self. unfold Bitmex.market_orders.
  assert (Hm : List.filter Bitmex.is_market orders = orders).
  { apply forallb_filter_id, forallb_forall. intros o Ho.
    rewrite Forall_forall in Hall. by apply Hall, list_elem_of_In. }
  assert (Hnm : List.filter (λ o, negb (Bitmex.is_market o)) orders = []).
  { clear Hs Hm. induction Hall as [|o l Ho _ IH]; [done|]. simpl. by rewrite Ho. }
  rewrite Hm, Hnm.
  destruct (single_orders_run _ _ [] w Hs) as (responses & w1 & Hrun & Hlen & Hsent & Hlog).
  rewrite M_bind_run, Hrun. cbn [app].
  by exists responses, w1.
Qed.

(** The classification loop sends nothing. *)
Lemma classify_sent (acc : list json) (r : option response) (w : Bitmex.world) :
  Bitmex.sent (Bitmex.classify acc r w).2 = Bitmex.sent w
  ∧ Bitmex.venue (Bitmex.classify acc r w).2 = Bitmex.venue w.
Proof.
  destruct r as [r|]; [|done]. unfold Bitmex.classify.
  destruct (status_code r =? 200).
  { rewrite M_bind_run. unfold Bitmex.lift.
    destruct (Bitmex.json_of r) as [[]|]; done. }
  destruct ((401 <=? status_code r) && (status_code r <=? 404)).
  { rewrite !M_bind_run. unfold Bitmex.lift.
    destruct (Bitmex.json_of r) as [res|]; [|done].
    rewrite !M_bind_run. destruct (getitem res "error") as [err|]; [|done].
    rewrite !M_bind_run. destruct (getitem err "message"); done. }
  destruct (status_code r =? 503).
  { rewrite !M_bind_run. unfold Bitmex.lift.
    destruct (Bitmex.json_of r) as [res|]; [|done].
    rewrite !M_bind_run. destruct (getitem res "error") as [err|]; [|done].
    rewrite !M_bind_run. destruct (getitem err "message") as [[]|]; done. }
  rewrite !M_bind_run. unfold Bitmex.lift.
  destruct (Bitmex.json_of r) as [res|]; done.
Qed.

Lemma for_each_classify_sent (rs : list (option response)) (acc : list json)
    (w : Bitmex.world) :
  Bitmex.sent (Bitmex.for_each Bitmex.classify acc rs w).2 = Bitmex.sent w
  ∧ Bitmex.venue (Bitmex.for_each Bitmex.classify acc rs w).2 = Bitmex.venue w.
Proof.
  revert acc w. induction rs as [|r rs IH]; intros acc w; [done|].
  cbn [Bitmex.for_each]. rewrite M_bind_run.
  destruct (classify_sent acc r w) as [Hs Hv].
  destruct (Bitmex.classify acc r w) as [[acc'|e] w']; simpl in Hs, Hv.
  - destruct (IH acc' w') as [Hs' Hv']. split; congruence.
  - done.
Qed.

(** The loop never gets past an absent response. *)
Lemma for_each_classify_absent (rs : list (option response)) (acc : list json)
    (w : Bitmex.world) :
  ∃ e w', Bitmex.for_each Bitmex.classify acc (rs ++ [None]) w = (Raise e, w')
          ∧ ∀ acc' w1, Bitmex.for_each Bitmex.classify acc rs w = (Return acc', w1) →
                       e = AttributeError ∧ w' = w1.
Proof.
  rewrite for_each_app.
  destruct (Bitmex.for_each Bitmex.classify acc rs w) as [[acc'|e] w1].
  - exists AttributeError, w1. split; [done|]. by intros ? ? [= _ <-].
  - exists e, w1. split; [done|]. intros ? ? [=].
Qed.

End SubmitRuns.

(** ** Matching confirmations to orders *)

Lemma filter_never {A} (l : list A) : List.filter (λ _, false) l = [].
Proof. by induction l. Qed.

Lemma filter_id_NoDup {A} (f : A → string) (s : string) (l : list A) :
  NoDup (f <$> l) →
  f <$> List.filter (λ x, String.eqb s (f x)) l
  = if str_in s (f <$> l) then [s] else [].
Proof.
  induction l as [|x l IH]; [done|]. rewrite fmap_cons, NoDup_cons.
  intros [Hx Hnd]. cbn [List.filter str_in existsb]. fold (str_in s (f <$> l)).
  destruct (String.eqb_spec s (f x)) as [->|Hne]; cbn [orb].
  - rewrite fmap_cons, (IH Hnd).
    apply str_in_false in Hx. by rewrite Hx.
  - by apply IH.
Qed.

Lemma matches_ids (orders : list Intent.t) (res : json) :
  NoDup (Intent.order_id <$> orders) →
  Intent.order_id <$> matches orders res
  = List.filter (λ id, str_in id (Intent.order_id <$> orders))
                (option_list (conf_id res)).
Proof.
  intros Hnd. unfold matches. destruct (conf_id res) as [s|]; simpl.
  - rewrite (filter_id_NoDup Intent.order_id s orders Hnd).
    by destruct (str_in s (Intent.order_id <$> orders)).
  - by rewrite filter_never.
Qed.

Lemma matches_at_most_one (orders : list Intent.t) (res : json) :
  NoDup (Intent.order_id <$> orders) → (length (matches orders res) ≤ 1)%nat.
Proof.
  intros Hnd. rewrite <- (length_fmap Intent.order_id), (matches_ids _ _ Hnd).
  destruct (conf_id res) as [s|]; simpl; [|lia].
  destruct (str_in s _); simpl; lia.
Qed.

Lemma matches_exactly_one (orders : list Intent.t) (res : json) (id : string) :
  NoDup (Intent.order_id <$> orders) →
  conf_id res = Some id → id ∈ Intent.order_id <$> orders →
  ∃ order, matches orders res = [order] ∧ Intent.order_id order = id.
Proof.
  intros Hnd Hid Hin. pose proof (matches_ids orders res Hnd) as Hids.
  rewrite Hid in Hids. change (option_list (Some id)) with [id] in Hids.
  cbn [List.filter] in Hids. apply str_in_elem_of in Hin. rewrite Hin in Hids.
  destruct (matches orders res) as [|order [|order' rest]]; [done| |done].
  exists order. by injection Hids as ->.
Qed.

Section Matching.

Context `{External}.

Lemma updated_order_id (order : Intent.t) (res : json) (new : OrderRecord.t) :
  Bitmex.updated_order order res = Return new →
  OrderRecord.order_id new = Intent.order_id order.
Proof.
  intros Hn. unfold Bitmex.updated_order in Hn.
  repeat bind_case Hn. by injection Hn as <-.
Qed.

Lemma conf_id_test (res c : json) (id : string) :
  getitem res "clOrdID" = Return c →
  match conf_id res with
  | Some s => String.eqb s id
  | None => false
  end = eq_str c id.
Proof. intros Hc. unfold conf_id. rewrite Hc. by destruct c. Qed.

Lemma match_confirmation_matches (orders : list Intent.t) (res : json)
    (acc out : list OrderRecord.t) :
  Bitmex.match_confirmation orders acc res = Return out →
  ∃ news, out = acc ++ news
          ∧ Forall2 (λ order new, Bitmex.updated_order order res = Return new)
                    (matches orders res) news.
Proof.
  unfold Bitmex.match_confirmation, matches.
  revert acc. induction orders as [|o orders IH]; intros acc; cbn [foldM List.filter].
  - intros [= <-]. exists []. split; [by rewrite app_nil_r | constructor].
  - intros Hrun. bind_case Hrun. rename E into Hstep, a into acc'.
    destruct (getitem res "clOrdID") as [c|e] eqn:Hc; [|discriminate Hstep].
    rewrite (conf_id_test _ _ (Intent.order_id o) Hc).
    cbn [mbind result_mbind result_bind] in Hstep.
    destruct (eq_str c (Intent.order_id o)).
    + bind_case Hstep. injection Hstep as <-.
      destruct (IH _ Hrun) as (news & -> & Hnews).
      exists (a :: news). split; [by rewrite <- app_assoc | by constructor].
    + injection Hstep as <-. by apply IH.
Qed.

Lemma match_confirmations_pairs (orders : list Intent.t) (confs : list json)
    (acc out : list OrderRecord.t) :
  foldM (Bitmex.match_confirmation orders) acc confs = Return out →
  ∃ news, out = acc ++ news
          ∧ Forall2 (λ '(res, order) new, Bitmex.updated_order order res = Return new)
                    (matched_pairs orders confs) news.
Proof.
  revert acc. induction confs as [|res confs IH]; intros acc; cbn [foldM].
  - intros [= <-]. exists []. split; [by rewrite app_nil_r | constructor].
  - intros Hrun. bind_case Hrun.
    destruct (match_confirmation_matches _ _ _ _ E) as (news1 & -> & H1).
    destruct (IH _ Hrun) as (news2 & -> & H2).
    exists (news1 ++ news2). split; [by rewrite <- app_assoc|].
    unfold matched_pairs. rewrite bind_cons. apply Forall2_app; [|done].
    by apply Forall2_fmap_l.
Qed.

Lemma updated_ids (pairs : list (json * Intent.t)) (updated : list OrderRecord.t) :
  Forall2 (λ '(res, order) new, Bitmex.updated_order order res = Return new)
          pairs updated →
  OrderRecord.order_id <$> updated = (Intent.order_id ∘ snd) <$> pairs.
Proof.
  induction 1 as [|[res o] new pairs updated Hn _ IH]; [done|].
  rewrite !fmap_cons, IH. simpl. by rewrite (updated_order_id _ _ _ Hn).
Qed.

Lemma matched_pairs_ids (orders : list Intent.t) (confs : list json) :
  NoDup (Intent.order_id <$> orders) →
  (Intent.order_id ∘ snd) <$> matched_pairs orders confs
  = List.filter (λ id, str_in id (Intent.order_id <$> orders)) (conf_ids confs).
Proof.
  intros Hnd. unfold matched_pairs, conf_ids.
  induction confs as [|res confs IH]; [done|].
  rewrite bind_cons, fmap_app, IH, <- list_fmap_compose.
  change ((Intent.order_id ∘ snd) ∘ (λ o, (res, o))) with Intent.order_id.
  rewrite (matches_ids _ _ Hnd). cbn [omap list_omap].
  destruct (conf_id res) as [s|]; [|done].
  change (option_list (Some s)) with [s]. cbn [List.filter].
  by destruct (str_in s _).
Qed.

Lemma matched_pairs_conf_id (orders : list Intent.t) (confs : list json) :
  Forall (λ '(res, order), conf_id res = Some (Intent.order_id order))
         (matched_pairs orders confs).
Proof.
  apply Forall_forall. intros [res order] Hin. unfold matched_pairs in Hin.
  apply list_elem_of_bind in Hin as (res' & Hin & _).
  apply list_elem_of_fmap in Hin as (o' & Heq & Hin). inversion Heq; subst res' o'.
  unfold matches in Hin. apply list_elem_of_In, filter_In in Hin as [_ Hin].
  destruct (conf_id res) as [s|]; [|done]. by apply String.eqb_eq in Hin as ->.
Qed.

Lemma Forall2_with_left {A B} (P : A → Prop) (R : A → B → Prop)
    (l : list A) (k : list B) :
  Forall P l → Forall2 R l k → Forall2 (λ x y, R x y ∧ P x) l k.
Proof.
  intros HP HR. induction HR as [|x y l k Hxy _ IH]; [constructor|].
  apply Forall_cons in HP as [Hx HP]. constructor; [done | by apply IH].
Qed.

Lemma NoDup_list_filter {A} (p : A → bool) (l : list A) :
  NoDup l → NoDup (List.filter p l).
Proof.
  induction 1 as [|x l Hx _ IH]; [constructor|]. simpl.
  destruct (p x); [|done]. constructor; [|done].
  intros Hin. apply Hx. apply list_elem_of_In, filter_In in Hin as [Hin _].
  by apply list_elem_of_In.
Qed.

End Matching.

(** ** The venue's answers and the confirmations read from them *)

Lemma answers_app `{External} (v : venue_state) (l1 l2 : list request) :
  answers v (l1 ++ l2)
  = ((answers v l1).1 ++ (answers (answers v l1).2 l2).1,
     (answers (answers v l1).2 l2).2).
Proof.
  revert v. induction l1 as [|q l1 IH]; intros v; cbn [app answers fst snd].
  - by destruct (answers v l2).
  - by rewrite IH.
Qed.

Lemma length_answers `{External} (v : venue_state) (requests : list request) :
  length (answers v requests).1 = length requests.
Proof.
  revert v. induction requests as [|q rest IH]; intros v; [done|].
  cbn [answers fst length]. by rewrite IH.
Qed.

Lemma market_intents_filter (orders : list Intent.t) :
  List.filter Bitmex.is_market orders = market_intents orders.
Proof.
  unfold market_intents, Bitmex.is_market.
  induction orders as [|o orders IH]; [done|]. cbn [List.filter].
  rewrite filter_cons, IH.
  destruct (String.eqb_spec (Intent.order_type o) "MARKET");
    by destruct (decide (Intent.order_type o = "MARKET")).
Qed.

Lemma other_intents_filter (orders : list Intent.t) :
  List.filter (λ o, negb (Bitmex.is_market o)) orders = other_intents orders.
Proof.
  unfold other_intents, Bitmex.is_market.
  induction orders as [|o orders IH]; [done|]. cbn [List.filter].
  rewrite filter_cons, IH.
  destruct (String.eqb_spec (Intent.order_type o) "MARKET");
    by destruct (decide (Intent.order_type o ≠ "MARKET")).
Qed.

Section Answers.

Context `{External}.

(** The MARKET orders go out one request each, in order, and the loop
    collects the venue's answers to them. *)
Lemma single_orders_answers (m_o : list Intent.t) (singles : list Payload.t)
    (acc : list response) (w : Bitmex.world) :
  formatted_as m_o singles →
  Bitmex.for_each (λ responses o,
                     r ← Bitmex.place_single_order o; mret (responses ++ [r]))
                  acc m_o w
  = (Return (acc ++ (answers (Bitmex.venue w) (POST_order <$> singles)).1),
     {| Bitmex.venue := (answers (Bitmex.venue w) (POST_order <$> singles)).2;
        Bitmex.sent := Bitmex.sent w ++ (POST_order <$> singles);
        Bitmex.logged := Bitmex.logged w |}).
Proof.
  intros Hf. revert acc w.
  induction Hf as [|o p m_o singles Hp _ IH]; intros acc w.
  - destruct w. cbn. by rewrite !app_nil_r.
  - cbn [Bitmex.for_each]. rewrite !M_bind_run, (place_single_order_run _ _ _ Hp).
    unfold Bitmex.send at 1.
    destruct (session_send (Bitmex.venue w) (POST_order p)) as [r v] eqn:Hsend.
    cbn [mret Bitmex.M_mret Bitmex.M_ret]. rewrite IH.
    rewrite fmap_cons. cbn [answers Bitmex.venue Bitmex.sent Bitmex.logged].
    rewrite Hsend. cbn [fst snd]. by rewrite <- !app_assoc.
Qed.

Lemma submit_answers (orders : list Intent.t) (singles batch : list Payload.t)
    (w : Bitmex.world) :
  other_intents orders ≠ [] →
  formatted_as (market_intents orders) singles →
  formatted_as (other_intents orders) batch →
  Bitmex.submit orders w
  = (Return (Some <$> (answers (Bitmex.venue w)
                         ((POST_order <$> singles) ++ [POST_order_bulk batch])).1),
     {| Bitmex.venue := (answers (Bitmex.venue w)
                           ((POST_order <$> singles) ++ [POST_order_bulk batch])).2;
        Bitmex.sent := Bitmex.sent w
                       ++ (POST_order <$> singles) ++ [POST_order_bulk batch];
        Bitmex.logged := Bitmex.logged w |}).
Proof.
  intros Hne Hs Hb. unfold Bitmex.submit.
  rewrite non_market_orders_filter, filter_nonempty_self. unfold Bitmex.market_orders.
  rewrite market_intents_filter, other_intents_filter.
  rewrite M_bind_run, (single_orders_answers _ _ [] w Hs). cbn [app].
  destruct (other_intents orders) as [|o nm_o] eqn:Hnm; [done|].
  cbn [Bitmex.nonempty]. apply format_orders_formatted in Hb.
  rewrite !M_bind_run. unfold Bitmex.lift at 1. rewrite Hb.
  unfold Bitmex.send. rewrite !M_bind_run. cbv beta.
  cbn [Bitmex.venue Bitmex.sent Bitmex.logged].
  rewrite answers_app. cbn [answers fst snd].
  destruct (session_send _ (POST_order_bulk batch)) as [r v].
  cbn [mret Bitmex.M_mret Bitmex.M_ret fst snd].
  by rewrite fmap_app, <- app_assoc.
Qed.

Lemma classify_readable (acc : list json) (r : response) (w : Bitmex.world) :
  readable r →
  Bitmex.classify acc (Some r) w
  = (Return (acc ++ confirmations_of r),
     {| Bitmex.venue := Bitmex.venue w; Bitmex.sent := Bitmex.sent w;
        Bitmex.logged := Bitmex.logged w ++ log_of r |}).
Proof.
  intros ([res Hres] & Hrej & H503). destruct w as [v s l].
  unfold Bitmex.classify, confirmations_of, log_of. unfold rejected in Hrej.
  rewrite Hrej, Hres.
  cbv [mbind Bitmex.M_mbind Bitmex.M_bind Bitmex.lift Bitmex.json_of Bitmex.info
       mret Bitmex.M_mret Bitmex.M_ret].
  rewrite Hres. cbn [Bitmex.venue Bitmex.sent Bitmex.logged].
  destruct (status_code r =? 200) eqn:H200.
  { destruct res; by rewrite ?app_nil_r. }
  destruct (Z.eqb_spec (status_code r) 503) as [Hc|_].
  - destruct (H503 Hc) as (res' & m & Hres' & Hm).
    assert (res' = res) as -> by congruence.
    unfold error_message in *.
    destruct (getitem res "error") as [err|]; [|discriminate Hm].
    cbn [mbind result_mbind result_bind] in Hm |- *. rewrite Hm, Hc.
    by rewrite app_nil_r.
  - by rewrite app_nil_r.
Qed.

Lemma for_each_classify_readable (rs : list response) (acc : list json)
    (w : Bitmex.world) :
  Forall readable rs →
  Bitmex.for_each Bitmex.classify acc (Some <$> rs) w
  = (Return (acc ++ flat_map confirmations_of rs),
     {| Bitmex.venue := Bitmex.venue w; Bitmex.sent := Bitmex.sent w;
        Bitmex.logged := Bitmex.logged w ++ flat_map log_of rs |}).
Proof.
  intros Hall. revert acc w. induction Hall as [|r rs Hr _ IH]; intros acc w.
  - destruct w. cbn. by rewrite !app_nil_r.
  - rewrite fmap_cons. cbn [Bitmex.for_each]. rewrite M_bind_run.
    rewrite (classify_readable _ _ _ Hr), IH.
    cbn [Bitmex.venue Bitmex.sent Bitmex.logged flat_map].
    by rewrite <- !app_assoc.
Qed.

End Answers.

(** ** [place_bulk_orders] *)

Section PlaceBulkOrders.

Context `{External}.

Lemma place_bulk_orders_run (orders : list Intent.t) (w : Bitmex.world) :
  Bitmex.place_bulk_orders orders w
  = match Bitmex.submit orders w with
    | (Return rs, w') =>
        match Bitmex.for_each Bitmex.classify [] rs w' with
        | (Return order_confirmations, w'') =>
            (Bitmex.match_confirmations orders order_confirmations, w'')
        | (Raise e, w'') => (Raise e, w'')
        end
    | (Raise e, w') => (Raise e, w')
    end.
Proof.
  unfold Bitmex.place_bulk_orders. rewrite M_bind_run.
  destruct (Bitmex.submit orders w) as [[rs|e] w']; [|done].
  rewrite M_bind_run.
  by destruct (Bitmex.for_each Bitmex.classify [] rs w') as [[confs|e] w''].
Qed.

(** C4 (amended).  For orders with pairwise distinct order ids, at least
    one of them not MARKET, all of them formatting: the call sends one
    request per MARKET order, in order, then one batch request with all the
    other orders, and nothing else, whatever the venue answers.  When no
    answer is rejected or unreadable, the confirmations it matches are
    exactly those of the answers with status 200, in request order, and the
    call ends as their matching ends.  Each record is built from one such
    confirmation and the one input order whose order_id equals its clOrdID;
    a confirmation matches at most one input, and exactly one when its
    clOrdID is the id of an input; the order ids of the records are the
    confirmed ids that are input ids; and when the venue confirms no id
    twice, the records are one for each input id it confirmed, with
    pairwise distinct ids. *)
Theorem place_bulk_orders_mixed (orders : list Intent.t)
    (singles batch : list Payload.t) (w : Bitmex.world) :
  other_intents orders ≠ [] →
  NoDup (Intent.order_id <$> orders) →
  formatted_as (market_intents orders) singles →
  formatted_as (other_intents orders) batch →
  let requests := (POST_order <$> singles) ++ [POST_order_bulk batch] in
  let rs := (answers (Bitmex.venue w) requests).1 in
  let confirmations := flat_map confirmations_of rs in
  length singles = length (market_intents orders)
  ∧ length rs = S (length (market_intents orders))
  ∧ Bitmex.sent (Bitmex.place_bulk_orders orders w).2 = Bitmex.sent w ++ requests
  ∧ (Forall readable rs →
     Bitmex.place_bulk_orders orders w
     = (Bitmex.match_confirmations orders confirmations,
        {| Bitmex.venue := (answers (Bitmex.venue w) requests).2;
           Bitmex.sent := Bitmex.sent w ++ requests;
           Bitmex.logged := Bitmex.logged w ++ flat_map log_of rs |}))
  ∧ (∀ updated,
       Bitmex.match_confirmations orders confirmations = Return updated →
       Forall2 (λ '(res, order) new,
                  Bitmex.updated_order order res = Return new
                  ∧ conf_id res = Some (Intent.order_id order)
                  ∧ OrderRecord.order_id new = Intent.order_id order)
               (matched_pairs orders confirmations) updated
       ∧ (∀ res, (length (matches orders res) ≤ 1)%nat)
       ∧ (∀ res id, conf_id res = Some id → id ∈ Intent.order_id <$> orders →
            ∃ order, matches orders res = [order] ∧ Intent.order_id order = id)
       ∧ OrderRecord.order_id <$> updated
         = filter (λ id, id ∈ Intent.order_id <$> orders) (conf_ids confirmations)
       ∧ (NoDup (conf_ids confirmations) →
          NoDup (OrderRecord.order_id <$> updated)
          ∧ ∀ id, id ∈ OrderRecord.order_id <$> updated
                  ↔ id ∈ conf_ids confirmations ∧ id ∈ Intent.order_id <$> orders)).
Proof.
  intros Hne Hnd Hs Hb requests rs confirmations.
  pose proof (submit_answers orders singles batch w Hne Hs Hb) as Hsub.
  fold requests in Hsub. fold rs in Hsub.
  assert (Hids : ∀ updated,
            Bitmex.match_confirmations orders confirmations = Return updated →
            OrderRecord.order_id <$> updated
            = filter (λ id, id ∈ Intent.order_id <$> orders) (conf_ids confirmations)).
  { intros updated Hmatch.
    destruct (match_confirmations_pairs orders confirmations [] updated Hmatch)
      as (news & -> & Hpairs). cbn [app].
    rewrite (updated_ids _ _ Hpairs), (matched_pairs_ids _ _ Hnd).
    generalize (conf_ids confirmations) as ids. intros ids.
    induction ids as [|id ids IH]; [done|]. cbn [List.filter].
    rewrite filter_cons, IH.
    destruct (str_in id (Intent.order_id <$> orders)) eqn:Hin.
    - apply str_in_elem_of in Hin. by rewrite decide_True.
    - apply str_in_false in Hin. by rewrite decide_False. }
  split_and!.
  - symmetry. exact (Forall2_length _ _ _ Hs).
  - unfold rs. rewrite length_answers. unfold requests.
    rewrite length_app, length_fmap, <- (Forall2_length _ _ _ Hs). simpl. lia.
  - rewrite place_bulk_orders_run, Hsub.
    pose proof (for_each_classify_sent (Some <$> rs) []
                  {| Bitmex.venue := (answers (Bitmex.venue w) requests).2;
                     Bitmex.sent := Bitmex.sent w ++ requests;
                     Bitmex.logged := Bitmex.logged w |}) as [Hsent _].
    destruct (Bitmex.for_each Bitmex.classify [] (Some <$> rs) _) as [[confs|e] w''];
      [|exact Hsent].
    by destruct (Bitmex.match_confirmations orders confs).
  - intros Hread.
    rewrite place_bulk_orders_run, Hsub, (for_each_classify_readable _ _ _ Hread).
    cbn [app Bitmex.venue Bitmex.sent Bitmex.logged]. fold confirmations.
    by destruct (Bitmex.match_confirmations orders confirmations).
  - intros updated Hmatch. pose proof (Hids updated Hmatch) as Hid.
    destruct (match_confirmations_pairs orders confirmations [] updated Hmatch)
      as (news & -> & Hpairs). cbn [app] in *.
    split_and!.
    + pose proof (Forall2_with_left _ _ _ _
                    (matched_pairs_conf_id orders confirmations) Hpairs) as Hboth.
      eapply Forall2_impl; [exact Hboth|].
      intros [res order] new [Hn Hc]. split_and!; [done | done |].
      by eapply updated_order_id.
    + intros res. by apply matches_at_most_one.
    + intros res id. by apply matches_exactly_one.
    + exact Hid.
    + intros Hnd'. rewrite Hid. split; [by apply NoDup_filter|].
      intros id. by rewrite list_elem_of_filter, (comm and).
Qed.

(** C5.  For orders that are all MARKET, all of them formatting: the list
    the classification loop visits is the responses to the single requests
    followed by None; classifying None raises AttributeError, so the call
    raises it once the responses before it have been classified, and the
    call never returns. *)
Theorem place_bulk_orders_market_only (orders : list Intent.t)
    (singles : list Payload.t) (w : Bitmex.world) :
  Forall (λ o, Bitmex.is_market o = true) orders →
  formatted_as orders singles →
  ∃ responses w',
    Bitmex.submit orders w = (Return ((Some <$> responses) ++ [None]), w')
    ∧ length responses = length orders
    ∧ None ∈ (Some <$> responses) ++ [None]
    ∧ (∀ order_confirmations w'',
         Bitmex.for_each Bitmex.classify [] (Some <$> responses) w'
         = (Return order_confirmations, w'') →
         Bitmex.classify order_confirmations None w'' = (Raise AttributeError, w'')
         ∧ Bitmex.place_bulk_orders orders w = (Raise AttributeError, w''))
    ∧ ∃ e w'', Bitmex.place_bulk_orders orders w = (Raise e, w'').
Proof.
  intros Hall Hs.
  destruct (submit_without_batch orders singles w Hall Hs)
    as (responses & w' & Hsub & Hlen & _ & _).
  exists responses, w'. split_and!; [done | done | set_solver | |].
  - intros confs w'' Hcl. split; [done|].
    rewrite place_bulk_orders_run, Hsub, for_each_app, Hcl. reflexivity.
  - destruct (for_each_classify_absent (Some <$> responses) [] w') as (e & w'' & He & _).
    exists e, w''. by rewrite place_bulk_orders_run, Hsub, He.
Qed.

End PlaceBulkOrders.

Lemma mixed_orders_distinct : NoDup (Intent.order_id <$> mixed_orders).
Proof.
  repeat (apply NoDup_cons_2; [by intros Hin; repeat (apply elem_of_cons in Hin as [[=]|Hin]);
                                  apply elem_of_nil in Hin|]).
  apply NoDup_nil_2.
Defined.

Lemma place_bulk_orders_mixed_witness :
  other_intents mixed_orders ≠ []
  ∧ NoDup (Intent.order_id <$> mixed_orders)
  ∧ @formatted_as scripted_venue (market_intents mixed_orders) mixed_singles
  ∧ @formatted_as scripted_venue (other_intents mixed_orders) mixed_batch
  ∧ Forall readable mixed_script
  ∧ Bitmex.place_bulk_orders mixed_orders (world_with mixed_script)
    = (@Bitmex.match_confirmations scripted_venue mixed_orders
         [confirmation "c-12" "Filled" JNull; confirmation "c-13" "New" JNull;
          confirmation "c-10" "New" (JNum 95)],
       @Bitmex.Build_world scripted_venue []
         ((POST_order <$> mixed_singles) ++ [POST_order_bulk mixed_batch]) []).
Proof.
  assert (H1 : other_intents mixed_orders ≠ []) by discriminate.
  assert (H3 : @formatted_as scripted_venue (market_intents mixed_orders) mixed_singles).
  { repeat constructor. }
  assert (H4 : @formatted_as scripted_venue (other_intents mixed_orders) mixed_batch).
  { repeat constructor. }
  assert (H5 : Forall readable mixed_script).
  { constructor; [|constructor; [|constructor]];
      (split_and!; [by eexists | reflexivity | discriminate]). }
  split_and!; [exact H1 | exact mixed_orders_distinct | exact H3 | exact H4 | exact H5 |].
  destruct (@place_bulk_orders_mixed scripted_venue mixed_orders mixed_singles
              mixed_batch (world_with mixed_script) H1 mixed_orders_distinct H3 H4)
    as (_ & _ & _ & Hrun & _).
  exact (Hrun H5).
Defined.

(** C4, as stated, fails on what the venue may answer.  With pairwise
    distinct input ids, a batch answer that confirms c-13 twice gives two
    records for that order, so the records are more than the orders and
    their ids repeat; and a confirmation for an id nobody placed, c-99, is
    matched to no input and gives no record.  It also fails on orders that
    share an id: one confirmation for c-13 is then matched to both of them
    and gives two records. *)
Lemma place_bulk_orders_repeated_confirmation :
  NoDup (Intent.order_id <$> mixed_orders)
  ∧ (∃ updated w',
       Bitmex.place_bulk_orders mixed_orders (world_with repeated_script)
       = (Return updated, w')
       ∧ OrderRecord.order_id <$> updated = ["c-12"; "c-13"; "c-13"; "c-10"]
       ∧ ¬ NoDup (OrderRecord.order_id <$> updated)
       ∧ (length mixed_orders < length updated)%nat)
  ∧ (∃ updated w',
       Bitmex.place_bulk_orders mixed_orders (world_with stray_script)
       = (Return updated, w')
       ∧ OrderRecord.order_id <$> updated = ["c-12"; "c-13"; "c-10"]
       ∧ conf_id (confirmation "c-99" "New" JNull) = Some "c-99"
       ∧ matches mixed_orders (confirmation "c-99" "New" JNull) = [])
  ∧ (∃ updated w',
       Bitmex.place_bulk_orders twin_orders (world_with twin_script)
       = (Return updated, w')
       ∧ OrderRecord.order_id <$> updated = ["c-12"; "c-13"; "c-13"]
       ∧ OrderRecord.order_type <$> updated = ["MARKET"; "LIMIT"; "STOP"]
       ∧ length (matches twin_orders (confirmation "c-13" "New" JNull)) = 2%nat).
Proof.
  split; [exact mixed_orders_distinct|]. split; [|split].
  - eexists _, _. split; [reflexivity|]. split; [reflexivity|]. split.
    + cbn. rewrite !NoDup_cons. intros (_ & Hrep & _). apply Hrep. by left.
    + cbn. lia.
  - eexists _, _. split_and!; reflexivity.
  - eexists _, _. split_and!; reflexivity.
Qed.

Example place_bulk_orders_mixed_run :
  ∃ w', Bitmex.place_bulk_orders mixed_orders (world_with mixed_script)
        = (Return w'.1, w'.2)
        ∧ OrderRecord.order_id <$> w'.1 = ["c-12"; "c-13"; "c-10"]
        ∧ OrderRecord.status <$> w'.1 = ["FILLED"; "NEW"; "NEW"]
        ∧ OrderRecord.price <$> w'.1 = [JNum 90; JNum 90; JNum 95]
        ∧ Bitmex.sent w'.2 = (POST_order <$> mixed_singles) ++ [POST_order_bulk mixed_batch]
        ∧ Bitmex.venue w'.2 = [].
Proof. eexists (_, _). split_and!; reflexivity. Qed.

Lemma place_bulk_orders_market_only_witness :
  Forall (λ o, Bitmex.is_market o = true) market_only_orders
  ∧ @formatted_as scripted_venue market_only_orders market_only_singles
  ∧ ∃ responses w',
      Bitmex.submit market_only_orders (world_with market_only_script)
      = (Return ((Some <$> responses) ++ [None]), w')
      ∧ length responses = 2%nat
      ∧ None ∈ (Some <$> responses) ++ [None]
      ∧ ∃ e w'', Bitmex.place_bulk_orders market_only_orders
                   (world_with market_only_script) = (Raise e, w'').
Proof.
  assert (H1 : Forall (λ o, Bitmex.is_market o = true) market_only_orders).
  { repeat constructor. }
  assert (H2 : @formatted_as scripted_venue market_only_orders market_only_singles).
  { repeat constructor. }
  split_and!; [exact H1 | exact H2 |].
  destruct (@place_bulk_orders_market_only scripted_venue market_only_orders
              market_only_singles (world_with market_only_script) H1 H2)
    as (responses & w' & Hsub & Hlen & Hin & _ & Hraise).
  exists responses, w'. split_and!; [exact Hsub | exact Hlen | exact Hin | exact Hraise].
Defined.

Example place_bulk_orders_market_only_run :
  (Bitmex.place_bulk_orders market_only_orders (world_with market_only_script)).1
  = Raise AttributeError
  ∧ (Bitmex.place_bulk_orders [] (world_with [])).1 = Raise AttributeError.
Proof. split; reflexivity. Qed.

Example place_bulk_orders_rejected :
  (Bitmex.place_bulk_orders mixed_orders
     (world_with [ok (confirmation "c-12" "Filled" JNull);
                  {| status_code := 401;
                     body := Some (obj [("error",
                                         obj [("message", JStr "Invalid API Key.")])]) |}])).1
  = Raise (Exception [JNum 401; JStr "Invalid API Key."]).
Proof. reflexivity. Qed.

(** * Further properties of the adapter, the model and the scheduler *)

(** ** [close_position] *)

Lemma truthy_ne_zero (v : json) : truthy v = true → ne_zero v = true.
Proof. by destruct v. Qed.

Lemma py_neg_ne_zero (v a : json) :
  py_neg v = Return a → truthy v = true → ne_zero a = true.
Proof.
  destruct v as [|b|q|s|l|d]; try discriminate; simpl.
  - intros [= <-]. by destruct b.
  - intros [= <-] Hq. simpl. apply negb_true_iff, not_true_is_false.
    apply negb_true_iff, not_true_iff_false in Hq.
    intros Hz. apply Hq. apply Qeq_bool_iff. apply Qeq_bool_iff in Hz.
    rewrite <- (Qopp_involutive q), Hz. reflexivity.
Qed.

Lemma position_has_no_currentQty (position : option Position.t) :
  ∃ e, position_getitem position "currentQty" = Raise e.
Proof. destruct position; eexists; reflexivity. Qed.

Section ClosePosition.

Context `{Closer}.

Lemma get_position_sends_once (symbol : string) (w : Bitmex.world) :
  ∃ v, (Bitmex.get_position symbol w).2
       = {| Bitmex.venue := v; Bitmex.sent := Bitmex.sent w ++ [GET_position];
            Bitmex.logged := Bitmex.logged w |}.
Proof.
  unfold Bitmex.get_position.
  cbv [mbind Bitmex.M_mbind Bitmex.M_bind Bitmex.send Bitmex.lift].
  destruct (session_send (Bitmex.venue w) GET_position) as [r v]. exists v.
  destruct (Bitmex.json_of r) as [response|]; [|done].
  destruct (iter_json response) as [entries|]; [|done].
  by destruct (Bitmex.first_position symbol entries).
Qed.

Lemma closing_quantity_raises (position : option Position.t) (qty direction : json) :
  ∃ e, BitmexClose.closing_quantity position qty direction = Raise e.
Proof.
  destruct (position_has_no_currentQty position) as [e He].
  unfold BitmexClose.closing_quantity. rewrite He.
  cbn [mbind result_mbind result_bind].
  assert (Hshort := truthy_ne_zero qty).
  destruct (eq_str direction "LONG").
  - destruct (py_neg qty) as [amt|e'] eqn:Hneg; [|by eexists].
    assert (Hlong := py_neg_ne_zero qty amt Hneg).
    destruct (truthy qty); simpl; [|by eexists].
    destruct (truthy direction); simpl; [|by eexists].
    simpl. rewrite (Hlong eq_refl). by eexists.
  - destruct (eq_str direction "SHORT"); [|by eexists].
    destruct (truthy qty); simpl; [|by eexists].
    destruct (truthy direction); simpl; [|by eexists].
    simpl. rewrite (Hshort eq_refl). by eexists.
Qed.

(** X1.  For every symbol, quantity and direction, [close_position] raises: it
    asks the venue for the position, then fails on the direction, on the
    quantity or on [position['currentQty']], a key the dict of
    [get_position] does not have.  It never posts a closing order and never
    returns. *)
Theorem close_position_always_raises (symbol : string) (qty direction : json)
    (c : BitmexClose.closing) :
  ∃ e v,
    BitmexClose.close_position symbol qty direction c
    = (Raise e,
       {| BitmexClose.session :=
            {| Bitmex.venue := v;
               Bitmex.sent := Bitmex.sent (BitmexClose.session c) ++ [GET_position];
               Bitmex.logged := Bitmex.logged (BitmexClose.session c) |};
          BitmexClose.closes := BitmexClose.closes c |}).
Proof.
  unfold BitmexClose.close_position.
  destruct (get_position_sends_once symbol (BitmexClose.session c)) as [v Hw].
  destruct (Bitmex.get_position symbol (BitmexClose.session c)) as [r w].
  simpl in Hw. subst w. destruct r as [position|e]; [|by exists e, v].
  destruct (closing_quantity_raises position qty direction) as [e He].
  rewrite He. by exists e, v.
Qed.

End ClosePosition.

(** ** The doubling rule of [required_timeframes] *)

Lemma int_of_digits_fold (ds : list ascii) :
  ds ≠ [] → Timeframes.int_of_digits ds = Return (fold_left digit_step ds 0%N).
Proof. by destruct ds. Qed.

Lemma fold_digits_acc (d : Decimal.uint) (acc : positive) :
  fold_left digit_step (chars (NilEmpty.string_of_uint d)) (Npos acc)
  = Npos (Pos.of_uint_acc d acc).
Proof.
  revert acc. induction d; intros acc; simpl; [done|..];
    (etransitivity; [|apply IHd]); f_equal; unfold digit_step; simpl; lia.
Qed.

Lemma fold_digits (d : Decimal.uint) :
  fold_left digit_step (chars (NilEmpty.string_of_uint d)) 0%N = Pos.of_uint d.
Proof.
  induction d; simpl; [done | exact IHd |..]; apply fold_digits_acc.
Qed.

Lemma string_of_uint_digits (d : Decimal.uint) :
  forallb Timeframes.isdigit (chars (NilEmpty.string_of_uint d)) = true.
Proof. induction d; simpl; [done|..]; exact IHd. Qed.

Lemma str_of_int_nonempty (n : N) : chars (Timeframes.str_of_int n) ≠ [].
Proof.
  unfold Timeframes.str_of_int, NilZero.string_of_uint.
  destruct (N.to_uint n); simpl; discriminate.
Qed.

Lemma str_of_int_digits (n : N) :
  forallb Timeframes.isdigit (chars (Timeframes.str_of_int n)) = true.
Proof.
  unfold Timeframes.str_of_int, NilZero.string_of_uint.
  pose proof (string_of_uint_digits (N.to_uint n)) as Hd.
  by destruct (N.to_uint n).
Qed.

(** Reading back a printed number gives the number. *)
Lemma int_of_str_of_int (n : N) :
  Timeframes.int_of_digits (chars (Timeframes.str_of_int n)) = Return n.
Proof.
  rewrite int_of_digits_fold by apply str_of_int_nonempty. f_equal.
  rewrite <- (DecimalN.Unsigned.of_to n) at 2.
  unfold Timeframes.str_of_int, NilZero.string_of_uint, N.of_uint.
  pose proof (fold_digits (N.to_uint n)) as Hf.
  by destruct (N.to_uint n).
Qed.

Lemma isalpha_not_digit (c : ascii) :
  Timeframes.isalpha c = true → Timeframes.isdigit c = false.
Proof.
  unfold Timeframes.isalpha, Timeframes.isdigit. cbv zeta.
  generalize (N_of_ascii c). intros n Ha.
  apply andb_false_iff. right. apply N.leb_gt.
  apply orb_true_iff in Ha as [Ha|Ha]; apply andb_true_iff in Ha as [Ha _];
    apply N.leb_le in Ha; lia.
Qed.

Lemma isdigit_not_alpha (c : ascii) :
  Timeframes.isdigit c = true → Timeframes.isalpha c = false.
Proof.
  intros Hd. destruct (Timeframes.isalpha c) eqn:Ha; [|done].
  apply isalpha_not_digit in Ha. congruence.
Qed.

Lemma chars_append (a b : string) : chars (a +:+ b) = chars a ++ chars b.
Proof. induction a as [|c a IH]; [done|]. simpl. by rewrite <- IH. Qed.

Lemma filter_digits_all (l : list ascii) :
  forallb Timeframes.isdigit l = true → List.filter Timeframes.isdigit l = l.
Proof. apply forallb_filter_id. Qed.

Lemma filter_digits_letters (l : list ascii) :
  forallb Timeframes.isalpha l = true → List.filter Timeframes.isdigit l = [].
Proof.
  induction l as [|c l IH]; [done|]. simpl. intros Hall.
  apply andb_true_iff in Hall as [Hc Hl].
  by rewrite (isalpha_not_digit c Hc), IH.
Qed.

Lemma append_cons (c : ascii) (s u : string) :
  String c s +:+ u = String c (s +:+ u).
Proof. reflexivity. Qed.

Lemma append_empty_r (s : string) : s +:+ "" = s.
Proof. induction s as [|c s IH]; [done|]. by rewrite append_cons, IH. Qed.

Lemma append_snoc (s u : string) (c : ascii) :
  (s +:+ String c "") +:+ u = s +:+ String c u.
Proof. induction s as [|a s IH]; [done|]. by rewrite !append_cons, IH. Qed.

Lemma letter_runs_letters (cur u : string) :
  letters_only u = true → cur +:+ u ≠ "" →
  Timeframes.letter_runs cur u = [cur +:+ u].
Proof.
  unfold letters_only. revert cur. induction u as [|c u IH]; intros cur Hall Hne.
  - simpl. rewrite append_empty_r in *. by destruct (String.eqb_spec cur "").
  - simpl in Hall. apply andb_true_iff in Hall as [Hc Hu]. simpl. rewrite Hc.
    rewrite IH; [by rewrite append_snoc | done | by rewrite append_snoc].
Qed.

Lemma letter_runs_digits (ds : string) (u : string) :
  forallb Timeframes.isdigit (chars ds) = true →
  Timeframes.letter_runs "" (ds +:+ u) = Timeframes.letter_runs "" u.
Proof.
  induction ds as [|c ds IH]; [done|]. simpl. intros Hall.
  apply andb_true_iff in Hall as [Hc Hds].
  rewrite (isdigit_not_alpha c Hc). simpl. by apply IH.
Qed.

Lemma not_table_input (t : string) :
  t ∉ table_inputs →
  String.eqb t "1Min" = false ∧ String.eqb t "3Min" = false
  ∧ String.eqb t "5Min" = false ∧ str_in t ["12H"; "16H"] = false
  ∧ String.eqb t "30Min" = false.
Proof.
  intros Hnot. unfold table_inputs in Hnot.
  assert (Hne : ∀ u, u ∈ ["1Min"; "3Min"; "5Min"; "12H"; "16H"; "30Min"] → t ≠ u).
  { intros u Hu ->. by apply Hnot. }
  split_and!; try (apply String.eqb_neq, Hne; set_solver).
  apply str_in_false. intros Hin. apply elem_of_cons in Hin as [->|Hin].
  - apply (Hne "12H"); [set_solver | done].
  - apply list_elem_of_singleton in Hin as ->. apply (Hne "16H"); [set_solver | done].
Qed.

(** X2.  The generic doubling rule: a timeframe written as a number followed by
    a unit of letters, with no row of its own in the table, gets the
    trigger with twice the number and the same unit, appended whether or
    not it is already present. *)
Theorem derive_one_doubles (timeframes to_add : list string) (n : N) (unit : string) :
  unit ≠ "" → letters_only unit = true →
  (Timeframes.str_of_int n +:+ unit) ∉ table_inputs →
  Timeframes.derive_one timeframes to_add (Timeframes.str_of_int n +:+ unit)
  = Return (to_add ++ [Timeframes.str_of_int (2 * n) +:+ unit]).
Proof.
  intros Hne Hletters Htable.
  destruct (not_table_input _ Htable) as (H1 & H2 & H3 & H4 & H5).
  unfold Timeframes.derive_one. rewrite H1, H2, H3, H4, H5.
  unfold Timeframes.digits_of. fold (chars (Timeframes.str_of_int n +:+ unit)).
  rewrite chars_append, List.filter_app.
  rewrite (filter_digits_all _ (str_of_int_digits n)).
  rewrite (filter_digits_letters _ Hletters), app_nil_r, int_of_str_of_int.
  cbn [mbind result_mbind result_bind]. unfold Timeframes.findall_alpha.
  rewrite (letter_runs_digits _ _ (str_of_int_digits n)).
  rewrite letter_runs_letters by done. cbn [String.append].
  by rewrite N.mul_comm.
Qed.

Lemma derive_one_doubles_witness :
  "H" ≠ "" ∧ letters_only "H" = true
  ∧ ((Timeframes.str_of_int 4 +:+ "H") ∉ table_inputs)
  ∧ Timeframes.derive_one ["4H"; "8H"] ["8H"] "4H" = Return ["8H"; "8H"].
Proof.
  assert (H1 : "H" ≠ "") by discriminate.
  assert (H3 : (Timeframes.str_of_int 4 +:+ "H") ∉ table_inputs).
  { intros Hin. unfold table_inputs in Hin.
    repeat (apply elem_of_cons in Hin as [Hin|Hin]; [discriminate Hin|]).
    by apply elem_of_nil in Hin. }
  split_and!; [exact H1 | reflexivity | exact H3 |].
  exact (derive_one_doubles ["4H"; "8H"] ["8H"] 4 "H" H1 eq_refl H3).
Defined.

(** ** When [required_timeframes] returns, and what it returns *)

Lemma derive_one_extends (timeframes to_add to_add' : list string) (t : string) :
  Timeframes.derive_one timeframes to_add t = Return to_add' →
  ∃ added, to_add' = to_add ++ added ∧ (length added ≤ 1)%nat.
Proof.
  assert (Hguard : ∀ trigger,
            ∃ added, Timeframes.append_unless_present timeframes to_add trigger
                     = to_add ++ added ∧ (length added ≤ 1)%nat).
  { intros trigger. unfold Timeframes.append_unless_present.
    destruct (_ && _); [by exists [trigger] | exists []].
    split; [by rewrite app_nil_r | simpl; lia]. }
  unfold Timeframes.derive_one.
  repeat (destruct (_ : bool); [intros [= <-]; apply Hguard|]).
  destruct (Timeframes.int_of_digits _) as [num|]; [|discriminate].
  cbn [mbind result_mbind result_bind].
  destruct (Timeframes.findall_alpha t) as [|code0 ?]; [discriminate|].
  intros [= <-]. by eexists [_].
Qed.

Lemma derived_extends (timeframes l to_add out : list string) :
  foldM (Timeframes.derive_one timeframes) to_add l = Return out →
  ∃ added, out = to_add ++ added ∧ (length added ≤ length l)%nat.
Proof.
  revert to_add. induction l as [|t l IH]; intros to_add; cbn [foldM].
  - intros [= <-]. exists []. split; [by rewrite app_nil_r | done].
  - intros Hrun. bind_case Hrun.
    destruct (derive_one_extends _ _ _ _ E) as (a1 & -> & Hlen1).
    destruct (IH _ Hrun) as (a2 & -> & Hlen2).
    exists (a1 ++ a2). split; [by rewrite app_assoc|].
    rewrite length_app. simpl. lia.
Qed.

(** X3.  A call that returns leaves the input timeframes in place, in order,
    and appends at most one trigger per input. *)
Theorem required_timeframes_extends (timeframes out : list string) :
  Timeframes.required_timeframes timeframes = Return out →
  ∃ to_add, out = timeframes ++ to_add
            ∧ (length to_add ≤ length timeframes)%nat.
Proof.
  unfold Timeframes.required_timeframes, Timeframes.derived. intros Hrun.
  bind_case Hrun. injection Hrun as <-.
  destruct (derived_extends _ _ _ _ E) as (added & -> & Hlen). by exists added.
Qed.

Lemma required_timeframes_extends_witness :
  Timeframes.required_timeframes ["1Min"; "4H"; "3Min"]
  = Return ["1Min"; "4H"; "3Min"; "8H"; "5Min"]
  ∧ ∃ to_add, ["1Min"; "4H"; "3Min"; "8H"; "5Min"] = ["1Min"; "4H"; "3Min"] ++ to_add
              ∧ (length to_add ≤ length ["1Min"; "4H"; "3Min"])%nat.
Proof.
  split; [reflexivity|].
  exact (required_timeframes_extends ["1Min"; "4H"; "3Min"]
           ["1Min"; "4H"; "3Min"; "8H"; "5Min"] eq_refl).
Defined.

Lemma digits_of_empty (t : string) :
  Timeframes.digits_of t = [] ↔ has_digit t = false.
Proof.
  unfold Timeframes.digits_of, has_digit, chars.
  induction (list_ascii_of_string t) as [|c l IH]; [done|]. simpl.
  destruct (Timeframes.isdigit c); simpl; [split; discriminate | exact IH].
Qed.

Lemma letter_runs_empty (cur s : string) :
  Timeframes.letter_runs cur s = [] ↔ cur = "" ∧ has_letter s = false.
Proof.
  unfold has_letter, chars. revert cur. induction s as [|c s IH]; intros cur; simpl.
  - destruct (String.eqb_spec cur ""); split; try done; by intros [? _].
  - destruct (Timeframes.isalpha c); simpl.
    + rewrite IH. split; [|by intros [_ ?]]. intros [Hne _].
      destruct cur; discriminate Hne.
    + destruct (String.eqb_spec cur "") as [->|Hne]; simpl.
      * rewrite IH. split; [by intros [_ ?] | by intros [_ ?]].
      * split; [discriminate | by intros [? _]].
Qed.

Lemma isdigit_decimal (c : ascii) :
  Timeframes.isdigit c = true ↔ c ∈ decimal_digits.
Proof.
  rewrite <- (bool_decide_spec (c ∈ decimal_digits)).
  destruct c as [[] [] [] [] [] [] [] []]; vm_compute; done.
Qed.

Lemma isalpha_latin (c : ascii) :
  Timeframes.isalpha c = true ↔ c ∈ latin_letters.
Proof.
  rewrite <- (bool_decide_spec (c ∈ latin_letters)).
  destruct c as [[] [] [] [] [] [] [] []]; vm_compute; done.
Qed.

Lemma existsb_contains (p : ascii → bool) (cs : list ascii) (s : string) :
  (∀ c, p c = true ↔ c ∈ cs) →
  existsb p (chars s) = true ↔ contains cs s.
Proof.
  intros Hp. unfold contains. rewrite existsb_exists. split.
  - intros (c & Hin & Hc). exists c. split; [by apply list_elem_of_In | by apply Hp].
  - intros (c & Hin & Hc). exists c. split; [by apply list_elem_of_In | by apply Hp].
Qed.

Lemma has_digit_contains (t : string) :
  has_digit t = true ↔ contains decimal_digits t.
Proof. apply existsb_contains, isdigit_decimal. Qed.

Lemma has_letter_contains (t : string) :
  has_letter t = true ↔ contains latin_letters t.
Proof. apply existsb_contains, isalpha_latin. Qed.

Lemma derive_one_returns (timeframes to_add : list string) (t : string) :
  (∃ to_add', Timeframes.derive_one timeframes to_add t = Return to_add')
  ↔ derivable t.
Proof.
  unfold derivable. rewrite <- has_digit_contains, <- has_letter_contains.
  destruct (decide (t ∈ table_inputs)) as [Hin|Hnot].
  - split; [by left|]. intros _.
    unfold table_inputs in Hin. unfold Timeframes.derive_one.
    repeat (apply elem_of_cons in Hin as [->|Hin]; [by eexists|]).
    by apply elem_of_nil in Hin.
  - destruct (not_table_input _ Hnot) as (H1 & H2 & H3 & H4 & H5).
    unfold Timeframes.derive_one. rewrite H1, H2, H3, H4, H5.
    pose proof (digits_of_empty t) as Hd.
    pose proof (letter_runs_empty "" t) as Hl. fold (Timeframes.findall_alpha t) in Hl.
    destruct (Timeframes.digits_of t) as [|d ds] eqn:Hds.
    { split; [by intros [? ?]|]. intros [?|[Hdig _]]; [done|].
      destruct Hd as [Hd _]. rewrite (Hd eq_refl) in Hdig. discriminate. }
    cbn [Timeframes.int_of_digits mbind result_mbind result_bind].
    destruct (Timeframes.findall_alpha t) as [|code0 codes] eqn:Hfa.
    { split; [by intros [? ?]|]. intros [?|[_ Hlet]]; [done|].
      destruct Hl as [Hl _]. destruct (Hl eq_refl) as [_ Hno]. congruence. }
    split; [|by eexists]. intros _. right. split.
    + destruct (has_digit t) eqn:Hhd; [done|]. destruct Hd as [_ Hd].
      discriminate (Hd eq_refl).
    + destruct (has_letter t) eqn:Hhl; [done|]. destruct Hl as [_ Hl].
      discriminate (Hl (conj eq_refl eq_refl)).
Qed.

Lemma derive_one_raises (timeframes to_add : list string) (t : string) (e : exn) :
  Timeframes.derive_one timeframes to_add t = Raise e →
  e = ValueError ∨ e = IndexError.
Proof.
  unfold Timeframes.derive_one.
  repeat (destruct (_ : bool); [discriminate|]).
  destruct (Timeframes.digits_of t) as [|d ds]; [intros [= <-]; by left|].
  cbn [Timeframes.int_of_digits mbind result_mbind result_bind].
  destruct (Timeframes.findall_alpha t); [intros [= <-]; by right | discriminate].
Qed.

Lemma derived_returns (timeframes l to_add : list string) :
  (∃ out, foldM (Timeframes.derive_one timeframes) to_add l = Return out)
  ↔ Forall derivable l.
Proof.
  revert to_add. induction l as [|t l IH]; intros to_add; cbn [foldM].
  - split; [constructor | by eexists].
  - rewrite Forall_cons, <- (derive_one_returns timeframes to_add t). split.
    + intros [out Hout]. bind_case Hout. split; [by eexists|].
      apply (IH a). by eexists.
    + intros [[a Ha] Hl]. rewrite Ha. cbn [mbind result_mbind result_bind].
      by apply IH.
Qed.

Lemma derived_raises (timeframes l to_add : list string) (e : exn) :
  foldM (Timeframes.derive_one timeframes) to_add l = Raise e →
  e = ValueError ∨ e = IndexError.
Proof.
  revert to_add. induction l as [|t l IH]; intros to_add; cbn [foldM]; [discriminate|].
  destruct (Timeframes.derive_one timeframes to_add t) as [a|e'] eqn:Hone.
  - cbn [mbind result_mbind result_bind]. apply IH.
  - cbn [mbind result_mbind result_bind]. intros [= <-].
    by eapply derive_one_raises.
Qed.

(** X4.  On ASCII timeframes the call returns exactly when every input
    either has a row in the table or contains a decimal digit and a letter;
    otherwise it raises ValueError (no digit) or IndexError (no letter) and
    nothing else.  Beyond ASCII [str.isdigit] and [int] know digits of other
    scripts, which this statement leaves out. *)
Theorem required_timeframes_returns_iff (timeframes : list string) :
  Forall ascii_text timeframes →
  ((∃ out, Timeframes.required_timeframes timeframes = Return out)
   ↔ Forall derivable timeframes)
  ∧ (∀ e, Timeframes.required_timeframes timeframes = Raise e →
          e = ValueError ∨ e = IndexError).
Proof.
  intros _. unfold Timeframes.required_timeframes, Timeframes.derived. split.
  - rewrite <- (derived_returns timeframes timeframes []). split.
    + intros [out Hout]. bind_case Hout. by eexists.
    + intros [a Ha]. rewrite Ha. by eexists.
  - intros e.
    destruct (foldM (Timeframes.derive_one timeframes) [] timeframes) as [a|e'] eqn:Hd;
      [discriminate|].
    intros [= <-]. by eapply derived_raises.
Qed.

Lemma required_timeframes_returns_iff_witness :
  Forall ascii_text ["30Min"; "6H"]
  ∧ Forall derivable ["30Min"; "6H"]
  ∧ (∃ out, Timeframes.required_timeframes ["30Min"; "6H"] = Return out)
  ∧ Timeframes.required_timeframes ["30Min"; "6H"] = Return ["30Min"; "6H"; "1H"; "12H"].
Proof.
  assert (Hascii : Forall ascii_text ["30Min"; "6H"]) by repeat constructor.
  assert (Hall : Forall derivable ["30Min"; "6H"]).
  { constructor; [left; unfold table_inputs; apply list_elem_of_lookup; by exists 5%nat|].
    constructor; [|constructor]. right. split.
    - exists "6"%char. split; [apply list_elem_of_lookup; by exists 0%nat|].
      apply list_elem_of_lookup. by exists 6%nat.
    - exists "H"%char. split; [apply list_elem_of_lookup; by exists 1%nat|].
      apply list_elem_of_lookup. by exists 33%nat. }
  split_and!; [exact Hascii | exact Hall | | reflexivity].
  exact (proj2 (proj1 (required_timeframes_returns_iff ["30Min"; "6H"] Hascii)) Hall).
Defined.

(** ** The cross search of the strategy model *)

Lemma py_index_in_range {A} (l : list A) (i : Z) :
  - Z.of_nat (length l) ≤ i < Z.of_nat (length l) →
  ∃ x, py_index l i = Return x ∧ x ∈ l.
Proof.
  intros Hi. unfold py_index. cbv zeta.
  set (j := if i <? 0 then i + Z.of_nat (length l) else i).
  assert (Hj : 0 ≤ j < Z.of_nat (length l)).
  { unfold j. destruct (Z.ltb_spec i 0); lia. }
  destruct (Z.leb_spec 0 j); [|lia].
  destruct (Z.ltb_spec j (Z.of_nat (length l))); [|lia]. cbn [andb].
  destruct (lookup_lt_is_Some_2 l (Z.to_nat j)) as [x Hx]; [lia|].
  rewrite Hx. exists x. split; [done|]. by eapply list_elem_of_lookup_2.
Qed.

Lemma py_index_nat {A} (l : list A) (k : nat) (x : A) :
  py_index l (Z.of_nat k) = Return x → l !! k = Some x.
Proof.
  unfold py_index. cbv zeta. destruct (Z.ltb_spec (Z.of_nat k) 0); [lia|].
  destruct (_ && _); [|discriminate]. rewrite Nat2Z.id.
  destruct (l !! k); [by intros [= ->] | discriminate].
Qed.

Lemma py_index_minus_one {A} (l : list A) (x : A) :
  py_index l (-1) = Return x → last l = Some x.
Proof.
  destruct l as [|a l] using rev_ind; [by rewrite py_index_empty|].
  rewrite py_index_last. intros [= ->]. apply last_snoc.
Qed.

Section Crosses.

Context {time num : Type}.
Variable ltb : num → num → bool.

Implicit Types (features recorded : list (@Model.bar time num)).
Implicit Types (row first second : @Model.bar time num).
Implicit Types (longs shorts e : @Model.entries time num).
Implicit Types (acc : @Model.entries time num * @Model.entries time num).
Implicit Types (P : @Model.bar time num → Prop).

Lemma check_cross_returns features acc (i : nat) :
  Forall complete features → (2 ≤ length features)%nat → (i < length features)%nat →
  ∃ acc', Model.check_cross ltb features acc i = Return acc'.
Proof.
  intros Hall Hlen Hi. unfold Model.check_cross. destruct acc as [longs shorts].
  assert (Hcell : ∀ j, - Z.of_nat (length features) ≤ j < Z.of_nat (length features) →
            ∃ row fast slow, py_index features j = Return row
              ∧ Model.EMA10 row = Some fast ∧ Model.EMA20 row = Some slow).
  { intros j Hj. destruct (py_index_in_range features j Hj) as (row & Hrow & Hin).
    rewrite Forall_forall in Hall. destruct (Hall row Hin) as [[fast Hf] [slow Hs]].
    by exists row, fast, slow. }
  destruct (Hcell (Z.of_nat i)) as (row & fast & slow & -> & Hf & Hs); [lia|].
  destruct (Hcell (Z.of_nat i - 1)) as (row1 & f1 & s1 & -> & Hf1 & Hs1); [lia|].
  destruct (Hcell (Z.of_nat i - 2)) as (row2 & f2 & s2 & -> & Hf2 & Hs2); [lia|].
  cbn [mbind result_mbind result_bind]. rewrite Hf, Hs.
  cbn [mbind result_mbind result_bind]. rewrite Hf1, Hs1, Hf2, Hs2.
  cbn [mbind result_mbind result_bind Model.cell_lt Model.and_then].
  destruct (ltb fast slow).
  - destruct (ltb s1 f1); cbn [result_bind]; by eexists.
  - destruct (ltb slow fast); [|by eexists].
    destruct (ltb f1 s1); cbn [result_bind]; by eexists.
Qed.

Lemma find_crosses_from features acc (k m : nat) :
  Forall complete features → (2 ≤ length features)%nat → (k + m ≤ length features)%nat →
  ∃ acc', foldM (Model.check_cross ltb features) acc (seq k m) = Return acc'.
Proof.
  intros Hall Hlen. revert acc k. induction m as [|m IH]; intros acc k Hkm.
  - by exists acc.
  - cbn [seq foldM].
    destruct (check_cross_returns features acc k Hall Hlen) as [acc' ->]; [lia|].
    cbn [mbind result_mbind result_bind]. apply IH. lia.
Qed.

(** X5.  The look-back of the cross search wraps around: on a window of at
    least two bars with both averages in every bar the search returns,
    because bar 0 is compared with the last two bars of the window and bar 1
    with bar 0 and the last bar; on a window of one such bar it raises
    IndexError; on the empty window it records nothing. *)
Theorem find_crosses_lookback features first second :
  (Forall complete features → (2 ≤ length features)%nat →
     ∃ longs shorts, Model.find_crosses ltb features = Return (longs, shorts))
  ∧ (py_index (features ++ [first; second]) (0 - 1) = Return second
     ∧ py_index (features ++ [first; second]) (0 - 2) = Return first)
  ∧ (complete first → Model.find_crosses ltb [first] = Raise IndexError)
  ∧ Model.find_crosses ltb (@nil (@Model.bar time num))
    = Return (Model.no_entries, Model.no_entries).
Proof.
  split_and!.
  - intros Hall Hlen. unfold Model.find_crosses.
    destruct (find_crosses_from features (Model.no_entries, Model.no_entries)
                0 (length features) Hall Hlen) as [[longs shorts] Hrun]; [lia|].
    by exists longs, shorts.
  - change (features ++ [first; second]) with (features ++ [first] ++ [second]).
    rewrite app_assoc. apply py_index_last.
  - destruct (py_index_in_range (features ++ [first; second]) (0 - 2))
      as (x & Hx & _); [rewrite length_app; simpl; lia|].
    rewrite Hx. f_equal. revert Hx. unfold py_index. cbv zeta.
    rewrite length_app. cbn [length].
    change (0 - 2 <? 0) with true. cbv iota.
    replace (0 - 2 + Z.of_nat (length features + 2)) with (Z.of_nat (length features))
      by lia.
    destruct (_ && _); [|discriminate]. rewrite Nat2Z.id.
    rewrite lookup_app_r by lia. rewrite Nat.sub_diag. by intros [= ->].
  - intros [[fast Hf] [slow Hs]]. unfold Model.find_crosses, Model.check_cross.
    cbn [length seq foldM]. change (py_index [first] (Z.of_nat 0)) with (Return first).
    cbn [mbind result_mbind result_bind]. rewrite Hf, Hs.
    change (py_index [first] (Z.of_nat 0 - 1)) with (Return first).
    by change (py_index [first] (Z.of_nat 0 - 2)) with (@Raise (@Model.bar time num) IndexError).
  - reflexivity.
Qed.

Lemma entries_of_later features (more : list (@Model.bar time num)) P e :
  entries_of features P e → entries_of (features ++ more) P e.
Proof.
  intros (recorded & Hsub & Hp & Ht & HP). exists recorded.
  split_and!; [by apply sublist_inserts_r | done..].
Qed.

Lemma entries_of_append features P e row :
  entries_of features P e → P row →
  entries_of (features ++ [row]) P (Model.append_entry e row).
Proof.
  intros (recorded & Hsub & Hp & Ht & HP) Hrow. exists (recorded ++ [row]).
  unfold Model.append_entry. cbn [Model.price Model.time_].
  rewrite !fmap_app, Hp, Ht. split_and!; [|done|done|].
  - by apply sublist_app.
  - apply Forall_app. split; [done | by constructor].
Qed.

Lemma check_cross_entries features longs shorts longs' shorts' (k : nat) :
  entries_of (take k features) (long_bar ltb) longs →
  entries_of (take k features) (short_bar ltb) shorts →
  Model.check_cross ltb features (longs, shorts) k = Return (longs', shorts') →
  entries_of (take (S k) features) (long_bar ltb) longs'
  ∧ entries_of (take (S k) features) (short_bar ltb) shorts'.
Proof.
  intros Hl Hs Hstep. unfold Model.check_cross in Hstep.
  bind_case Hstep. rename a into row. apply py_index_nat in E.
  rewrite (take_S_r _ _ _ E).
  assert (Hkeep : entries_of (take k features ++ [row]) (long_bar ltb) longs
                  ∧ entries_of (take k features ++ [row]) (short_bar ltb) shorts).
  { split; by apply entries_of_later. }
  destruct (Model.EMA10 row) as [fast|] eqn:Hf; [|by injection Hstep as <- <-].
  destruct (Model.EMA20 row) as [slow|] eqn:Hsl; [|by injection Hstep as <- <-].
  do 2 bind_case Hstep.
  destruct (ltb fast slow) eqn:Hshort.
  - bind_case Hstep. destruct a1; injection Hstep as <- <-; [|done].
    split; [by apply entries_of_later|]. apply entries_of_append; [done|].
    by exists fast, slow.
  - destruct (ltb slow fast) eqn:Hlong; [|by injection Hstep as <- <-].
    bind_case Hstep. destruct a1; injection Hstep as <- <-; [|done].
    split; [|by apply entries_of_later]. apply entries_of_append; [done|].
    by exists fast, slow.
Qed.

Lemma find_crosses_entries_from features longs shorts longs' shorts' (k m : nat) :
  entries_of (take k features) (long_bar ltb) longs →
  entries_of (take k features) (short_bar ltb) shorts →
  foldM (Model.check_cross ltb features) (longs, shorts) (seq k m)
  = Return (longs', shorts') →
  entries_of (take (k + m) features) (long_bar ltb) longs'
  ∧ entries_of (take (k + m) features) (short_bar ltb) shorts'.
Proof.
  revert longs shorts k. induction m as [|m IH]; intros longs shorts k Hl Hs.
  - cbn [seq foldM]. intros [= <- <-]. by rewrite Nat.add_0_r.
  - cbn [seq foldM]. intros Hrun. bind_case Hrun. destruct a as [l1 s1].
    destruct (check_cross_entries _ _ _ _ _ _ Hl Hs E) as [Hl1 Hs1].
    replace (k + S m)%nat with (S k + m)%nat by lia. by eapply IH.
Qed.

Lemma find_crosses_recorded features longs shorts :
  Model.find_crosses ltb features = Return (longs, shorts) →
  entries_of features (long_bar ltb) longs
  ∧ entries_of features (short_bar ltb) shorts.
Proof.
  intros Hrun. unfold Model.find_crosses in Hrun.
  assert (Hempty : ∀ P, entries_of (take 0 features) P Model.no_entries).
  { intros P. exists []. split_and!; [apply sublist_nil_l | done | done | constructor]. }
  destruct (find_crosses_entries_from features _ _ _ _ 0 (length features)
              (Hempty (long_bar ltb)) (Hempty (short_bar ltb)) Hrun) as [Hl Hs].
  by rewrite Nat.add_0_l, firstn_all in Hl, Hs.
Qed.

(** X6.  What the cross search records comes from the window: the long entries
    are the opens and index entries of bars of the window, in window order,
    each with its fast average above its slow one; the short entries
    likewise with the fast average below the slow one; and each record has
    as many prices as times. *)
Theorem find_crosses_entries features longs shorts :
  Model.find_crosses ltb features = Return (longs, shorts) →
  entries_of features (long_bar ltb) longs
  ∧ entries_of features (short_bar ltb) shorts
  ∧ length (Model.price longs) = length (Model.time_ longs)
  ∧ length (Model.price shorts) = length (Model.time_ shorts).
Proof.
  intros Hrun. destruct (find_crosses_recorded _ _ _ Hrun) as [Hl Hs].
  split_and!; [done | done | |].
  - destruct Hl as (recorded & _ & -> & -> & _). by rewrite !length_fmap.
  - destruct Hs as (recorded & _ & -> & -> & _). by rewrite !length_fmap.
Qed.

End Crosses.

Lemma find_crosses_lookback_witness :
  Forall complete short_cross_window
  ∧ (2 ≤ length short_cross_window)%nat
  ∧ ∃ longs shorts, Model.find_crosses Z.ltb short_cross_window = Return (longs, shorts).
Proof.
  assert (Hall : Forall complete short_cross_window).
  { repeat constructor; by eexists. }
  assert (Hlen : (2 ≤ length short_cross_window)%nat) by (simpl; lia).
  split_and!; [exact Hall | exact Hlen |].
  exact (proj1 (find_crosses_lookback Z.ltb short_cross_window
                  (sample_bar 0 0 0 0) (sample_bar 0 0 0 0)) Hall Hlen).
Defined.

Lemma find_crosses_entries_witness :
  Model.find_crosses Z.ltb both_crosses_window
  = Return ({| Model.price := [104]; Model.time_ := [300] |},
            {| Model.price := [102]; Model.time_ := [180] |})
  ∧ entries_of both_crosses_window (long_bar Z.ltb)
      {| Model.price := [104]; Model.time_ := [300] |}
  ∧ entries_of both_crosses_window (short_bar Z.ltb)
      {| Model.price := [102]; Model.time_ := [180] |}
  ∧ length [104] = length [300]
  ∧ length [102] = length [180].
Proof.
  split; [reflexivity|].
  exact (find_crosses_entries Z.ltb both_crosses_window
           {| Model.price := [104]; Model.time_ := [300] |}
           {| Model.price := [102]; Model.time_ := [180] |} eq_refl).
Defined.

(** ** The signal [run] emits *)

Section Signal.

Context {time num exchange : Type}.
Variable time_eqb : time → time → bool.
Variable timestamp : time → Z.
Variable ltb : num → num → bool.
Hypothesis time_eqb_eq : ∀ a b, time_eqb a b = true → a = b.

Implicit Types (features : list (@Model.bar time num)).
Implicit Types (longs shorts : @Model.entries time num).

Lemma last_entry features P (e : @Model.entries time num) (p : num) (ts : time) :
  entries_of features P e →
  py_index (Model.time_ e) (-1) = Return ts →
  py_index (Model.price e) (-1) = Return p →
  ∃ b, b ∈ features ∧ P b ∧ Model.index b = ts ∧ Model.open b = p.
Proof.
  intros (recorded & Hsub & Hp & Ht & HP) Hts Hpr.
  apply py_index_minus_one in Hts, Hpr.
  rewrite Ht, fmap_last in Hts. rewrite Hp, fmap_last in Hpr.
  destruct (last recorded) as [b|] eqn:Hlast; [|discriminate].
  injection Hts as <-. injection Hpr as <-.
  apply last_Some_elem_of in Hlast. exists b. split_and!; [|..|done|done].
  - by eapply sublist_subseteq.
  - rewrite Forall_forall in HP. by apply HP.
Qed.

Lemma emit_signal features longs shorts (timeframe symbol : string) (exch : exchange)
    (s : Model.SignalEvent) :
  entries_of features (long_bar ltb) longs →
  entries_of features (short_bar ltb) shorts →
  Model.emit time_eqb timestamp features longs shorts timeframe symbol exch
  = Return (Some s) →
  ∃ final b,
    last features = Some final ∧ b ∈ features
    ∧ Model.index b = Model.index final
    ∧ Model.entry_ts s = timestamp (Model.index final)
    ∧ Model.entry_price s = Model.open b
    ∧ ((Model.direction s = "LONG" ∧ long_bar ltb b)
       ∨ (Model.direction s = "SHORT" ∧ short_bar ltb b))
    ∧ Model.entry_type s = "Market" ∧ Model.strategy s = Model.name
    ∧ Model.symbol s = symbol ∧ Model.timeframe s = timeframe
    ∧ Model.venue s = exch ∧ Model.dataset s = features.
Proof.
  intros Hl Hs Hemit. unfold Model.emit in Hemit.
  destruct (_ || _); [|discriminate Hemit].
  unfold except_IndexError_exit in Hemit.
  match type of Hemit with
  | match ?body with _ => _ end = _ =>
      destruct body as [r|e] eqn:Hbody; [|by destruct e]
  end.
  injection Hemit as ->.
  bind_case Hbody. rename a into final, E into Hlast.
  apply py_index_minus_one in Hlast.
  bind_case Hbody. rename a into long_ts, E into Hlts.
  destruct (time_eqb (Model.index final) long_ts) eqn:Heq.
  - bind_case Hbody. injection Hbody as <-. apply time_eqb_eq in Heq.
    destruct (last_entry _ _ _ _ _ Hl Hlts E) as (b & Hin & Hb & Hidx & Hopen).
    exists final, b. cbn. split_and!; try done; [congruence | congruence | by left].
  - bind_case Hbody. rename a into short_ts, E into Hsts.
    destruct (time_eqb (Model.index final) short_ts) eqn:Heq'; [|discriminate Hbody].
    bind_case Hbody. injection Hbody as <-. apply time_eqb_eq in Heq'.
    destruct (last_entry _ _ _ _ _ Hs Hsts E) as (b & Hin & Hb & Hidx & Hopen).
    exists final, b. cbn. split_and!; try done; [congruence | congruence | by right].
Qed.

(** X7.  A signal [run] returns is for an operating timeframe and for the last
    bar of its window: its time is the timestamp of the last bar's index
    entry, its price is the open of a bar carrying that index entry whose
    averages stand as its direction says (fast above slow for LONG, below
    for SHORT), its entry type is Market, and symbol, timeframe, venue and
    dataset are the ones passed in. *)
Theorem run_signal (op_data : gmap string (list (@Model.bar time num)))
    (timeframe symbol : string) (exch : exchange) (s : Model.SignalEvent) :
  Model.run time_eqb timestamp ltb op_data timeframe symbol exch = Return (Some s) →
  timeframe ∈ Model.operating_timeframes
  ∧ ∃ features final b,
      op_data !! timeframe = Some features
      ∧ last features = Some final ∧ b ∈ features
      ∧ Model.index b = Model.index final
      ∧ Model.entry_ts s = timestamp (Model.index final)
      ∧ Model.entry_price s = Model.open b
      ∧ ((Model.direction s = "LONG" ∧ long_bar ltb b)
         ∨ (Model.direction s = "SHORT" ∧ short_bar ltb b))
      ∧ Model.entry_type s = "Market" ∧ Model.strategy s = Model.name
      ∧ Model.symbol s = symbol ∧ Model.timeframe s = timeframe
      ∧ Model.venue s = exch ∧ Model.dataset s = features.
Proof.
  unfold Model.run. intros Hrun.
  destruct (str_in timeframe Model.operating_timeframes) eqn:Hop; [|discriminate Hrun].
  split; [by apply str_in_elem_of|].
  destruct (op_data !! timeframe) as [features|]; [|discriminate Hrun].
  bind_case Hrun. destruct a as [longs shorts].
  destruct (find_crosses_recorded ltb features longs shorts E) as [Hl Hs].
  destruct (emit_signal _ _ _ _ _ _ _ Hl Hs Hrun) as (final & b & Hrest).
  by exists features, final, b.
Qed.

End Signal.

Lemma run_signal_witness :
  (∀ a b, Z.eqb a b = true → a = b)
  ∧ ∃ s, sample_run both_crosses_window = Return (Some s)
         ∧ "1Min" ∈ Model.operating_timeframes
         ∧ Model.entry_ts s = 300 ∧ Model.direction s = "LONG"
         ∧ Model.entry_price s = 104.
Proof.
  assert (Heq : ∀ a b, Z.eqb a b = true → a = b) by (intros a b; apply Z.eqb_eq).
  split; [exact Heq|]. eexists. split; [reflexivity|].
  split; [|by split_and!].
  exact (proj1 (@run_signal Z Z string Z.eqb id Z.ltb Heq
                  (<["1Min" := both_crosses_window]> ∅) "1Min" "XBTUSD" "BitMEX"
                  _ eq_refl)).
Defined.

(** ** Public market data *)

Lemma origin_tss_all_set (symbol : string) :
  BitmexData.origin_tss !! symbol ≠ Some None.
Proof.
  intros Hnone. apply elem_of_list_to_map_2 in Hnone.
  repeat (apply elem_of_cons in Hnone as [Hnone|Hnone]; [discriminate Hnone|]).
  by apply elem_of_nil in Hnone.
Qed.

Lemma half_index (n : nat) : Z.of_nat n / 2 = Z.of_nat (n / 2).
Proof.
  pose proof (Nat2Z.inj_div n 2) as Hd. by change (Z.of_nat 2) with 2 in Hd.
Qed.

Section PublicData.

Context `{External} `{Web}.

(** X8.  [get_origin_timestamp] never reaches its request: every symbol of the
    table has its origin set, so the call returns the table's value without
    fetching, and a symbol outside the table is a KeyError on the table
    itself, again without fetching. *)
Theorem get_origin_timestamp_never_fetches (symbol : string) (g : BitmexData.web) :
  (BitmexData.get_origin_timestamp symbol g).2 = g
  ∧ (∀ origin, BitmexData.origin_tss !! symbol = Some (Some origin) →
       (BitmexData.get_origin_timestamp symbol g).1 = Return origin)
  ∧ (BitmexData.origin_tss !! symbol = None →
       (BitmexData.get_origin_timestamp symbol g).1 = Raise (KeyError symbol))
  ∧ (symbol ∈ ["XBTUSD"; "ETHUSD"; "XRPUSD"; "BCHUSD"; "LTCUSD"; "LINKUSDT"] →
       ∃ origin, (BitmexData.get_origin_timestamp symbol g).1 = Return origin).
Proof.
  pose proof (origin_tss_all_set symbol) as Hset.
  unfold BitmexData.get_origin_timestamp.
  destruct (BitmexData.origin_tss !! symbol) as [[origin|]|] eqn:Hlook; [|done|].
  - split_and!; [done | by intros ? [= <-] | done | by eexists].
  - split_and!; [done | done | done |]. intros Hin.
    repeat (apply elem_of_cons in Hin as [->|Hin]; [discriminate Hlook|]).
    by apply elem_of_nil in Hin.
Qed.

Lemma bars_collect (symbol : string) (entries : list json) (bars : list Bar.t) :
  foldM (λ bars bar, b ← BitmexData.bar_of symbol bar; Return (bars ++ [b])) [] entries
  = Return bars →
  Forall2 (λ entry b, BitmexData.bar_of symbol entry = Return b) entries bars.
Proof.
  intros Hrun. apply foldM_collect in Hrun as (ys & Hys & ->). done.
Qed.

Lemma bar_of_symbol (symbol : string) (entry : json) (b : Bar.t) :
  BitmexData.bar_of symbol entry = Return b → Bar.symbol b = symbol.
Proof.
  intros Hb. unfold BitmexData.bar_of in Hb. repeat bind_case Hb.
  by injection Hb as <-.
Qed.

(** X9.  [get_bars_in_period] asks for at most 750 bars, in one request: the
    count in the URL is the smaller of [total] and 750.  From a list answer
    it returns one bar per entry, in order, each under the symbol asked
    for. *)
Theorem get_bars_in_period_capped (symbol : string) (start_time total : Z)
    (g : BitmexData.web) (start : string) (r : response) (s : web_state)
    (entries : list json) :
  isoformat start_time = Return start →
  requests_get (BitmexData.site g)
    (BitmexData.bars_in_period_url symbol start (Z.min total 750)) = (r, s) →
  body r = Some (JList entries) →
  ∃ outcome,
    BitmexData.get_bars_in_period symbol start_time total g
    = (outcome,
       {| BitmexData.site := s;
          BitmexData.fetched :=
            BitmexData.fetched g
            ++ [BitmexData.bars_in_period_url symbol start (Z.min total 750)] |})
    ∧ ∀ bars, outcome = Return bars →
        Forall2 (λ entry b, BitmexData.bar_of symbol entry = Return b) entries bars
        ∧ length bars = length entries
        ∧ Forall (λ b, Bar.symbol b = symbol) bars.
Proof.
  intros Hiso Hget Hbody. unfold BitmexData.get_bars_in_period.
  assert (Hcap : (if BitmexData.MAX_BARS_PER_REQUEST <=? total
                  then BitmexData.MAX_BARS_PER_REQUEST else total) = Z.min total 750).
  { unfold BitmexData.MAX_BARS_PER_REQUEST. destruct (Z.leb_spec 750 total); lia. }
  rewrite Hcap.
  cbv [mbind BitmexData.G_mbind BitmexData.G_bind BitmexData.glift BitmexData.get_json
       Bitmex.json_of].
  rewrite Hiso, Hget, Hbody. cbn [iter_json].
  eexists. split; [reflexivity|]. intros bars Hbars.
  apply bars_collect in Hbars. split_and!; [done | |].
  - symmetry. by eapply Forall2_length.
  - clear -Hbars. induction Hbars as [|e b es bs Hb _ IH]; constructor; [|done].
    by eapply bar_of_symbol.
Qed.

Lemma ticks_of_minute_empty (start_iso : string) :
  BitmexData.ticks_of_minute [] start_iso = Raise IndexError.
Proof. reflexivity. Qed.

(** X10.  When the first page of ticks is not full (its length is not 1000),
    [get_recent_ticks] makes that one request and no other, whatever the
    bound on the polling rounds, and goes on to the selection by minute; on
    an empty page the selection raises IndexError. *)
Theorem get_recent_ticks_one_page (fuel : nat) (symbol : string) (n : Z)
    (g : BitmexData.web) (t1 t2 : Z) (s1 s2 s3 : web_state)
    (start_iso end_iso : string) (r : response) (page : list json) :
  previous_minute (BitmexData.site g) = (t1, s1) →
  isoformat (t1 + 60 - n * 60) = Return start_iso →
  previous_minute s1 = (t2, s2) →
  isoformat (t2 + 60) = Return end_iso →
  requests_get (time_sleep 1 s2) (BitmexData.ticks_url symbol start_iso end_iso)
  = (r, s3) →
  body r = Some (JList page) →
  length page ≠ 1000%nat →
  BitmexData.get_recent_ticks fuel symbol n g
  = Some (BitmexData.ticks_of_minute page start_iso,
          {| BitmexData.site := s3;
             BitmexData.fetched :=
               BitmexData.fetched g
               ++ [BitmexData.ticks_url symbol start_iso end_iso] |})
  ∧ (page = [] →
     BitmexData.get_recent_ticks fuel symbol n g
     = Some (Raise IndexError,
             {| BitmexData.site := s3;
                BitmexData.fetched :=
                  BitmexData.fetched g
                  ++ [BitmexData.ticks_url symbol start_iso end_iso] |})).
Proof.
  intros Hp1 Hiso1 Hp2 Hiso2 Hget Hbody Hlen.
  assert (Hrun : BitmexData.get_recent_ticks fuel symbol n g
                 = Some (BitmexData.ticks_of_minute page start_iso,
                         {| BitmexData.site := s3;
                            BitmexData.fetched :=
                              BitmexData.fetched g
                              ++ [BitmexData.ticks_url symbol start_iso end_iso] |})).
  { unfold BitmexData.get_recent_ticks.
    cbv [mbind mret BitmexData.G_mbind BitmexData.G_bind BitmexData.G_mret
         BitmexData.G_ret BitmexData.glift BitmexData.get_json
         BitmexData.call_previous_minute BitmexData.sleep Bitmex.json_of].
    rewrite Hp1, Hiso1. cbn [BitmexData.site BitmexData.fetched].
    rewrite Hp2, Hiso2. cbn [BitmexData.site BitmexData.fetched].
    rewrite Hget, Hbody. cbn [iter_json].
    destruct (Z.eqb_spec (Z.of_nat (length page)) 1000) as [Heq|_]; [lia|].
    by destruct (BitmexData.ticks_of_minute page start_iso). }
  split; [exact Hrun|]. intros ->. by rewrite Hrun.
Qed.

Lemma kept_ticks (m : Z) (ticks kept0 kept : list json) :
  foldM (λ kept i,
           ts ← getitem i "timestamp";
           minute ← parse_minute ts;
           Return (if minute =? m then kept ++ [i] else kept))
        kept0 ticks = Return kept →
  ∃ added, kept = kept0 ++ added ∧ added `sublist_of` ticks
           ∧ Forall (tick_minute m) added
           ∧ ∀ i, i ∈ ticks → tick_minute m i → i ∈ added.
Proof.
  revert kept0. induction ticks as [|i ticks IH]; intros kept0; cbn [foldM].
  - intros [= <-]. exists []. rewrite app_nil_r.
    split_and!; [done | done | constructor | by intros i Hi%elem_of_nil].
  - intros Hrun. bind_case Hrun. do 2 bind_case E. injection E as <-.
    destruct (IH _ Hrun) as (added & -> & Hsub & Hall & Hcomplete).
    destruct (Z.eqb_spec a1 m) as [->|Hne].
    + exists (i :: added). rewrite <- app_assoc. split_and!; [done| | |].
      * by constructor.
      * constructor; [by exists a0 | done].
      * intros j Hj Hm. apply elem_of_cons in Hj as [->|Hj]; [left|right; by apply Hcomplete].
    + exists added. split_and!; [done | by constructor | done |].
      intros j Hj Hm. apply elem_of_cons in Hj as [->|Hj]; [|by apply Hcomplete].
      destruct Hm as (ts & Hts & Hmin). congruence.
Qed.

(** X11.  The selection by minute returns only when the tick in the middle of
    the list falls in the minute of the start time; it then returns, in
    order, exactly the ticks of that minute.  When the middle tick falls in
    another minute it raises the timestamp-mismatch Exception. *)
Theorem ticks_of_minute_selects (ticks : list json) (start_iso : string) :
  (∀ kept, BitmexData.ticks_of_minute ticks start_iso = Return kept →
     ∃ m median,
       parse_minute (JStr start_iso) = Return m
       ∧ ticks !! (length ticks / 2)%nat = Some median ∧ tick_minute m median
       ∧ kept `sublist_of` ticks
       ∧ Forall (tick_minute m) kept
       ∧ ∀ i, i ∈ ticks → tick_minute m i → i ∈ kept)
  ∧ (∀ median m m',
       ticks !! (length ticks / 2)%nat = Some median →
       tick_minute m median → parse_minute (JStr start_iso) = Return m' → m ≠ m' →
       BitmexData.ticks_of_minute ticks start_iso = Raise BitmexData.timestamp_mismatch).
Proof.
  assert (Hmid : Z.to_nat (Z.of_nat (length ticks) / 2) = (length ticks / 2)%nat).
  { rewrite half_index. apply Nat2Z.id. }
  split.
  - intros kept Hrun. unfold BitmexData.ticks_of_minute in Hrun.
    do 4 bind_case Hrun. rename a into median, a0 into ts, a1 into mm, a2 into m.
    destruct (Z.eqb_spec mm m) as [->|]; [|discriminate Hrun]. cbn [negb] in Hrun.
    destruct (kept_ticks _ _ _ _ Hrun) as (added & -> & Hsub & Hall & Hcomplete).
    exists m, median. split_and!; try done.
    + revert E. unfold py_index. cbv zeta.
      destruct (Z.ltb_spec (Z.of_nat (length ticks) / 2) 0).
      { rewrite half_index in *. lia. }
      destruct (_ && _); [|discriminate]. rewrite Hmid.
      destruct (ticks !! _); [by intros [= ->] | discriminate].
    + by exists ts.
  - intros median m m' Hmed (ts & Hts & Hm) Hstart Hne.
    unfold BitmexData.ticks_of_minute.
    assert (Hidx : py_index ticks (Z.of_nat (length ticks) / 2) = Return median).
    { unfold py_index. cbv zeta.
      pose proof (lookup_lt_Some _ _ _ Hmed) as Hlt.
      assert (0 ≤ Z.of_nat (length ticks) / 2 < Z.of_nat (length ticks)).
      { rewrite half_index. lia. }
      destruct (Z.ltb_spec (Z.of_nat (length ticks) / 2) 0); [lia|].
      destruct (Z.leb_spec 0 (Z.of_nat (length ticks) / 2)); [|lia].
      destruct (Z.ltb_spec (Z.of_nat (length ticks) / 2) (Z.of_nat (length ticks)));
        [|lia].
      cbn [andb]. by rewrite Hmid, Hmed. }
    rewrite Hidx. cbn [mbind result_mbind result_bind]. rewrite Hts.
    cbn [mbind result_mbind result_bind]. rewrite Hm.
    cbn [mbind result_mbind result_bind]. rewrite Hstart.
    cbn [mbind result_mbind result_bind]. by destruct (Z.eqb_spec m m').
Qed.

End PublicData.

(** ** Ticks of the previous minute *)

Lemma fmap_rev {A B} (f : A → B) (l : list A) : f <$> rev l = rev (f <$> l).
Proof.
  induction l as [|x l IH]; [done|]. cbn [rev]. by rewrite fmap_app, IH.
Qed.

Lemma sublist_rev {A} (l1 l2 : list A) :
  l1 `sublist_of` l2 → rev l1 `sublist_of` rev l2.
Proof.
  induction 1 as [|x l1 l2 _ IH|x l1 l2 _ IH]; cbn [rev].
  - constructor.
  - by apply sublist_app.
  - by apply sublist_inserts_r.
Qed.

Section ParseTicks.

Context `{Feed}.
Variable build_OHLCV : list BitmexTicks.tick → string → result ohlcv.

Implicit Types (t : BitmexTicks.tick) (acc older pre : list BitmexTicks.tick).

Lemma with_timestamp_minute t (ts : BitmexTicks.stamp) (m : Z) :
  BitmexTicks.stamp_minute ts = Return m →
  has_minute m (BitmexTicks.with_timestamp t ts).
Proof. destruct ts as [v|dt]; [discriminate|]. intros [= <-]. by exists dt. Qed.

Lemma select_minutes (target : Z) (newest_first : list BitmexTicks.tick) acc
    (selected : list BitmexTicks.tick) :
  BitmexTicks.select target newest_first acc = Return selected →
  ∃ body tail,
    selected = acc ++ body ++ tail
    ∧ Forall (has_minute target) body
    ∧ (tail = [] ∨ ∃ t, tail = [t] ∧ has_minute (target - 1) t)
    ∧ (payload_of_tick <$> body ++ tail) `sublist_of` (payload_of_tick <$> newest_first).
Proof.
  revert acc. induction newest_first as [|i older IH]; intros acc; cbn [BitmexTicks.select].
  - intros [= <-]. exists [], []. rewrite !app_nil_r.
    split_and!; [done | constructor | by left | constructor].
  - intros Hrun. bind_case Hrun. rename a into m, E into Hm.
    cbn [mbind result_mbind result_bind] in Hrun.
    pose proof (with_timestamp_minute i _ _ Hm) as Hi.
    destruct (Z.eqb_spec m (target - 1)) as [Hprev|Hnot].
    + injection Hrun as <-. destruct (Z.eqb_spec m target) as [Heq|_]; [lia|].
      exists [], [BitmexTicks.with_timestamp i (BitmexTicks.resolve (BitmexTicks.timestamp i))].
      split_and!; [done | constructor | right; eexists; split; [done|by rewrite <- Hprev] |].
      cbn. apply sublist_skip, sublist_nil_l.
    + destruct (IH _ Hrun) as (body & tail & -> & Hbody & Htail & Hsub).
      destruct (Z.eqb_spec m target) as [Heq|Hne].
      * exists (BitmexTicks.with_timestamp i (BitmexTicks.resolve (BitmexTicks.timestamp i))
                :: body), tail.
        split_and!; [by rewrite <- app_assoc | constructor; [by rewrite <- Heq | done]
                    | done |].
        cbn. by apply sublist_skip.
      * exists body, tail. split_and!; [done..|]. cbn. by apply sublist_cons.
Qed.

(** X12.  The ticks [parse_ticks] selects, oldest first: possibly one tick of
    the minute before the target minute, then ticks of the target minute
    only; each carries its parsed timestamp, and apart from the timestamps
    they are ticks of the stream in the stream's order. *)
Theorem select_target_minute (target : Z) (all_ticks selected : list BitmexTicks.tick) :
  BitmexTicks.select target (rev all_ticks) [] = Return selected →
  ∃ opening body,
    rev selected = opening ++ body
    ∧ (opening = [] ∨ ∃ t, opening = [t] ∧ has_minute (target - 1) t)
    ∧ Forall (has_minute target) body
    ∧ (payload_of_tick <$> rev selected) `sublist_of` (payload_of_tick <$> all_ticks).
Proof.
  intros Hrun. destruct (select_minutes _ _ _ _ Hrun) as (body & tail & -> & Hb & Ht & Hsub).
  cbn [app] in *. exists (rev tail), (rev body). split_and!.
  - apply rev_app_distr.
  - destruct Ht as [->|(t & -> & Ht)]; [by left | right; by exists t].
  - apply Forall_forall. intros t Hin. rewrite Forall_forall in Hb. apply Hb.
    by apply list_elem_of_In, in_rev, list_elem_of_In.
  - rewrite fmap_rev, <- (rev_involutive all_ticks), (fmap_rev _ (rev all_ticks)).
    by apply sublist_rev.
Qed.

(** X13.  Once the loop meets a tick of the minute before the target minute it
    stops: the ticks older than that one are never read, so they change
    nothing, whatever they hold. *)
Theorem select_stops_at_opening (target : Z) pre t older acc :
  BitmexTicks.stamp_minute (BitmexTicks.resolve (BitmexTicks.timestamp t))
  = Return (target - 1) →
  BitmexTicks.select target (pre ++ t :: older) acc
  = BitmexTicks.select target (pre ++ [t]) acc.
Proof.
  intros Ht. revert acc. induction pre as [|i pre IH]; intros acc.
  - cbn [app BitmexTicks.select]. rewrite Ht.
    cbn [mbind result_mbind result_bind]. by rewrite Z.eqb_refl.
  - cbn [app BitmexTicks.select].
    destruct (BitmexTicks.stamp_minute (BitmexTicks.resolve (BitmexTicks.timestamp i)))
      as [m|e]; [|done].
    cbn [mbind result_mbind result_bind].
    destruct (m =? target - 1); [done|]. apply IH.
Qed.

Lemma select_nothing (target : Z) (newest_first : list BitmexTicks.tick) acc :
  Forall (λ t, ∃ dt, BitmexTicks.resolve (BitmexTicks.timestamp t) = BitmexTicks.Datetime dt
                     ∧ minute dt ≠ target ∧ minute dt ≠ target - 1) newest_first →
  BitmexTicks.select target newest_first acc = Return acc.
Proof.
  induction 1 as [|t l (dt & Hdt & H1 & H2) _ IH]; [done|].
  cbn [BitmexTicks.select]. rewrite Hdt. cbn.
  destruct (Z.eqb_spec (minute dt) target); [done|].
  by destruct (Z.eqb_spec (minute dt) (target - 1)).
Qed.

(** X14.  At minute 0 of the hour the target minute is -1: when every tick of
    the stream has a timestamp that is or parses to a datetime (minutes are
    never negative), no tick is selected, the symbol's tick list is left
    empty and its bar is built from no ticks. *)
Theorem parse_ticks_at_minute_zero (all_ticks : list BitmexTicks.tick)
    (st : BitmexTicks.store) (bar : ohlcv) :
  Forall (λ t, ∃ dt, BitmexTicks.resolve (BitmexTicks.timestamp t) = BitmexTicks.Datetime dt
                     ∧ 0 ≤ minute dt) all_ticks →
  build_OHLCV [] "XBTUSD" = Return bar →
  BitmexTicks.parse_ticks build_OHLCV true all_ticks 0 st
  = (Return (),
     {| BitmexTicks.ticks := {["XBTUSD" := []]};
        BitmexTicks.bars := {["XBTUSD" := [bar]]} |}).
Proof.
  intros Hall Hbar. unfold BitmexTicks.parse_ticks. cbn [negb].
  rewrite select_nothing.
  - cbn [rev BitmexTicks.group_ticks].
    assert (Hticks : (@BitmexTicks.empty_lists BitmexTicks.tick) !! "XBTUSD" = Some [])
      by reflexivity.
    assert (Hbars : (@BitmexTicks.empty_lists ohlcv) !! "XBTUSD" = Some [])
      by reflexivity.
    unfold BitmexTicks.symbols. cbn [BitmexTicks.build_bars].
    rewrite Hticks, Hbar, Hbars. reflexivity.
  - apply Forall_forall. intros t Hin. apply list_elem_of_In, in_rev, list_elem_of_In in Hin.
    rewrite Forall_forall in Hall. destruct (Hall t Hin) as (dt & Hdt & Hmin).
    exists dt. split_and!; [done | lia | lia].
Qed.

End ParseTicks.

(** ** More on [format_orders] *)

Section FormatMore.

Context `{External}.

Lemma format_order_fields (order : Intent.t) (payload : Payload.t) :
  Bitmex.format_order order = Return payload →
  Payload.clOrdID payload = Intent.order_id order
  ∧ Payload.symbol payload = Intent.symbol order
  ∧ Payload.text payload = Intent.metatype order
  ∧ Payload.execInst payload = None
  ∧ Payload.side payload
    = (if String.eqb (Intent.direction order) "LONG" then "Buy" else "Sell")
  ∧ Intent.order_type order ∈ known_order_types.
Proof.
  intros Hf. unfold Bitmex.format_order in Hf. do 2 bind_case Hf.
  unfold known_order_types.
  repeat match type of Hf with
         | (if String.eqb ?a ?b then _ else _) = _ =>
             destruct (String.eqb_spec a b) as [->|_];
             [injection Hf as <-; split_and!; try done; set_solver|]
         end.
  discriminate Hf.
Qed.

(** X15.  The payloads [format_orders] returns answer the orders one for one, in
    order: each carries its order's id as clOrdID, its symbol, its metatype
    as text, side Buy for direction LONG and Sell for any other direction,
    and no execInst; and a returning call means every order type was one of
    the four known ones. *)
Theorem format_orders_keeps_ids (orders : list Intent.t) (payloads : list Payload.t) :
  Bitmex.format_orders orders = Return payloads →
  Payload.clOrdID <$> payloads = Intent.order_id <$> orders
  ∧ Payload.symbol <$> payloads = Intent.symbol <$> orders
  ∧ Payload.text <$> payloads = Intent.metatype <$> orders
  ∧ Payload.side <$> payloads
    = (λ o, if String.eqb (Intent.direction o) "LONG" then "Buy" else "Sell") <$> orders
  ∧ Forall (λ p, Payload.execInst p = None) payloads
  ∧ Forall (λ o, Intent.order_type o ∈ known_order_types) orders.
Proof.
  intros Hf. apply format_orders_formatted in Hf. unfold formatted_as in Hf.
  induction Hf as [|o p orders payloads Hp _ IH].
  - by split_and!.
  - destruct (format_order_fields _ _ Hp) as (H1 & H2 & H3 & H4 & H5 & H6).
    destruct IH as (I1 & I2 & I3 & I4 & I5 & I6). rewrite !fmap_cons.
    split_and!; [congruence.. | by constructor | by constructor].
Qed.

Lemma format_order_unknown (order : Intent.t) :
  rounds order → Intent.order_type order ∉ known_order_types →
  Bitmex.format_order order = Raise incorrect_order_type.
Proof.
  intros [[p Hp] [q Hq]] Hun. unfold Bitmex.format_order. rewrite Hp, Hq.
  cbn [mbind result_mbind result_bind]. unfold known_order_types in Hun.
  repeat match goal with
         | |- (if String.eqb ?a ?b then _ else _) = _ =>
             destruct (String.eqb_spec a b) as [Heq|_];
             [exfalso; apply Hun; rewrite Heq; set_solver|]
         end.
  done.
Qed.

Lemma format_orders_stops (before after : list Intent.t) (order : Intent.t)
    (payloads : list Payload.t) :
  formatted_as before payloads → rounds order →
  Intent.order_type order ∉ known_order_types →
  Bitmex.format_orders (before ++ order :: after) = Raise incorrect_order_type.
Proof.
  intros Hb Hr Hun. apply format_orders_formatted in Hb.
  unfold Bitmex.format_orders in *. rewrite foldM_app, Hb.
  cbn [mbind result_mbind result_bind foldM].
  by rewrite (format_order_unknown _ Hr Hun).
Qed.

(** X16.  One order of an unknown type fails the whole call: when the orders
    before it format and its price and size round, [format_orders] raises
    "Incorrect order type specified." and returns no payload, whatever comes
    after it. *)
Theorem format_orders_unknown_type (before after : list Intent.t) (order : Intent.t)
    (payloads : list Payload.t) :
  formatted_as before payloads → rounds order →
  Intent.order_type order ∉ known_order_types →
  Bitmex.format_orders (before ++ order :: after) = Raise incorrect_order_type
  ∧ ∀ formatted, Bitmex.format_orders (before ++ order :: after) ≠ Return formatted.
Proof.
  intros Hb Hr Hun. rewrite (format_orders_stops _ _ _ _ Hb Hr Hun). by split.
Qed.

(** X17.  LIMIT and STOP_LIMIT orders are formatted alike, apart from ordType:
    the rounded price as limit price, time-in-force GoodTillCancel and no
    stop trigger; so a STOP_LIMIT payload has a null stopPx, whatever the
    order's void_price. *)
Theorem format_order_resting (order : Intent.t) (price orderQty : option Q) :
  Intent.order_type order = "LIMIT" ∨ Intent.order_type order = "STOP_LIMIT" →
  round_increment (Intent.price order) (Intent.symbol order) = Return price →
  round_increment (Some (Intent.size order)) (Intent.symbol order) = Return orderQty →
  ∃ payload,
    Bitmex.format_orders [order] = Return [payload]
    ∧ Payload.price payload = price ∧ Payload.stopPx payload = None
    ∧ Payload.orderQty payload = orderQty
    ∧ Payload.timeInForce payload = Some "GoodTillCancel"
    ∧ Payload.ordType payload
      = (if String.eqb (Intent.order_type order) "LIMIT" then "Limit" else "StopLimit").
Proof.
  intros Hty Hp Hq.
  assert (Hone : ∃ payload, Bitmex.format_order order = Return payload
            ∧ Payload.price payload = price ∧ Payload.stopPx payload = None
            ∧ Payload.orderQty payload = orderQty
            ∧ Payload.timeInForce payload = Some "GoodTillCancel"
            ∧ Payload.ordType payload
              = (if String.eqb (Intent.order_type order) "LIMIT"
                 then "Limit" else "StopLimit")).
  { unfold Bitmex.format_order. rewrite Hp, Hq.
    destruct Hty as [-> | ->]; cbn; eexists; by split_and!. }
  destruct Hone as (payload & Hf & Hrest). exists payload.
  split; [by apply format_orders_single | done].
Qed.

End FormatMore.

(** ** Order type normalisation *)

Lemma ord_type_name_table (venue canonical : string) :
  (venue, canonical) ∈ type_table →
  Bitmex.ord_type_name (JStr venue) = Return canonical.
Proof.
  unfold type_table. intros Hin.
  repeat (apply elem_of_cons in Hin as [[= -> ->]|Hin]; [reflexivity|]).
  by apply elem_of_nil in Hin.
Qed.

Lemma ord_type_name_known (ordType : json) (canonical : string) :
  Bitmex.ord_type_name ordType = Return canonical →
  ∃ venue, ordType = JStr venue ∧ (venue, canonical) ∈ type_table.
Proof.
  unfold Bitmex.ord_type_name, type_table.
  destruct ordType as [|b|q|s|l|d]; cbn [eq_str]; try discriminate.
  repeat match goal with
         | |- context [String.eqb s ?t] =>
             destruct (String.eqb_spec s t) as [->|_];
             [intros [= <-]; eexists; split; [reflexivity | set_solver]|]
         end.
  discriminate.
Qed.

Lemma ord_type_name_unknown (ordType : json) :
  ¬ known_type ordType →
  Bitmex.ord_type_name ordType = Raise (Exception [ordType]).
Proof.
  intros Hun. destruct (Bitmex.ord_type_name ordType) as [c|e] eqn:Hf.
  - destruct (ord_type_name_known _ _ Hf) as (venue & -> & Hin).
    destruct Hun. by exists venue, c.
  - revert Hf. unfold Bitmex.ord_type_name.
    repeat (destruct (eq_str ordType _); [discriminate|]). congruence.
Qed.

Section OrderType.

Context `{External}.

Lemma order_of_type (res : json) (o : Order.t) :
  Bitmex.order_of res = Return (Some o) →
  ∃ ordType, getitem res "ordType" = Return ordType
             ∧ Bitmex.ord_type_name ordType = Return (Order.order_type o).
Proof.
  intros Ho. unfold Bitmex.order_of in Ho.
  bind_case Ho. destruct (truthy a); [|discriminate Ho].
  repeat bind_case Ho. injection Ho as <-. by eexists.
Qed.

Lemma execution_of_type (res : json) (e : Execution.t) :
  Bitmex.execution_of res = Return e →
  ∃ ordType, getitem res "ordType" = Return ordType
             ∧ Bitmex.ord_type_name ordType = Return (Execution.order_type e).
Proof.
  intros He. unfold Bitmex.execution_of in He.
  repeat bind_case He. injection He as <-. by eexists.
Qed.

(** X18.  [get_orders] and [get_executions] name the venue's order types Limit,
    Market, StopLimit and Stop as LIMIT, MARKET, STOP_LIMIT and STOP, and
    know no other: the order type of every record they build comes from that
    table, and an entry of any other type (with a known status) raises an
    Exception carrying the venue's value. *)
Theorem ord_type_normalisation (ordType : json) :
  (∀ venue canonical, (venue, canonical) ∈ type_table →
     Bitmex.ord_type_name (JStr venue) = Return canonical)
  ∧ (∀ canonical, Bitmex.ord_type_name ordType = Return canonical →
       ∃ venue, ordType = JStr venue ∧ (venue, canonical) ∈ type_table)
  ∧ (∀ res o, getitem res "ordType" = Return ordType →
       Bitmex.order_of res = Return (Some o) →
       Bitmex.ord_type_name ordType = Return (Order.order_type o))
  ∧ (∀ res e, getitem res "ordType" = Return ordType →
       Bitmex.execution_of res = Return e →
       Bitmex.ord_type_name ordType = Return (Execution.order_type e))
  ∧ (¬ known_type ordType →
     Bitmex.ord_type_name ordType = Raise (Exception [ordType])
     ∧ (∀ res clOrdID side ordStatus,
          getitem res "ordType" = Return ordType →
          getitem res "clOrdID" = Return clOrdID → truthy clOrdID = true →
          getitem res "side" = Return side →
          getitem res "ordStatus" = Return ordStatus → known_status ordStatus →
          Bitmex.order_of res = Raise (Exception [ordType]))
     ∧ (∀ res lastLiquidityInd side ordStatus,
          getitem res "ordType" = Return ordType →
          getitem res "lastLiquidityInd" = Return lastLiquidityInd →
          getitem res "side" = Return side →
          getitem res "ordStatus" = Return ordStatus → known_status ordStatus →
          Bitmex.execution_of res = Raise (Exception [ordType]))).
Proof.
  split_and!.
  - apply ord_type_name_table.
  - apply ord_type_name_known.
  - intros res o Hty Ho. destruct (order_of_type _ _ Ho) as (ty & Hty' & Hf).
    congruence.
  - intros res e Hty He. destruct (execution_of_type _ _ He) as (ty & Hty' & Hf).
    congruence.
  - intros Hun. pose proof (ord_type_name_unknown _ Hun) as Hraise.
    split_and!; [done|..].
    + intros res c side st Hty Hc Htr Hside Hst (venue & canonical & -> & Hin).
      unfold Bitmex.order_of.
      rewrite Hc. simpl. rewrite Htr, Hside. simpl. rewrite Hst. simpl.
      rewrite (ord_status_fill_table _ _ Hin). simpl. rewrite Hty. simpl.
      by rewrite Hraise.
    + intros res liq side st Hty Hliq Hside Hst (venue & canonical & -> & Hin).
      unfold Bitmex.execution_of.
      rewrite Hliq. simpl. rewrite Hside. simpl. rewrite Hst. simpl.
      rewrite (ord_status_fill_table _ _ Hin). simpl. rewrite Hty. simpl.
      by rewrite Hraise.
Qed.

Lemma format_order_type_back (order : Intent.t) (payload : Payload.t) :
  Bitmex.format_order order = Return payload →
  Bitmex.ord_type_name (JStr (Payload.ordType payload)) = Return (Intent.order_type order).
Proof.
  intros Hf. unfold Bitmex.format_order in Hf. do 2 bind_case Hf.
  repeat match type of Hf with
         | (if String.eqb ?a ?b then _ else _) = _ =>
             destruct (String.eqb_spec a b) as [->|_];
             [by injection Hf as <-|]
         end.
  discriminate Hf.
Qed.

(** X19.  The order type survives the trip to the venue and back: the ordType
    [format_orders] writes for an order is read back by the normalisation
    of [get_orders] and [get_executions] as the order's own order_type. *)
Theorem format_orders_type_round_trip (orders : list Intent.t)
    (payloads : list Payload.t) :
  Bitmex.format_orders orders = Return payloads →
  Forall2 (λ order payload,
             Bitmex.ord_type_name (JStr (Payload.ordType payload))
             = Return (Intent.order_type order)) orders payloads.
Proof.
  intros Hf. apply format_orders_formatted in Hf. unfold formatted_as in Hf.
  eapply Forall2_impl; [exact Hf|]. intros o p Hp. by apply format_order_type_back.
Qed.

(** ** Entries [get_orders] skips *)

Lemma orders_of_from (response : list json) (acc orders : list Order.t) :
  foldM (λ orders res,
           o ← Bitmex.order_of res;
           Return (match o with Some o => orders ++ [o] | None => orders end))
        acc response = Return orders →
  ∃ kept, orders = acc ++ kept
          ∧ Forall2 (λ res o, Bitmex.order_of res = Return (Some o))
                    (List.filter has_client_id response) kept.
Proof.
  revert acc. induction response as [|res rest IH]; intros acc Hf.
  - injection Hf as <-. exists []. by rewrite app_nil_r.
  - cbn [foldM] in Hf. destruct (Bitmex.order_of res) as [a|e] eqn:Ho;
      cbn [mbind result_mbind result_bind] in Hf; [|discriminate Hf].
    cbn [List.filter].
    assert (Hc : has_client_id res = match a with Some _ => true | None => false end).
    { unfold has_client_id. unfold Bitmex.order_of in Ho.
      destruct (getitem res "clOrdID") as [c|e]; [|discriminate Ho].
      cbn [mbind result_mbind result_bind] in Ho.
      destruct (truthy c); [|by injection Ho as <-].
      repeat bind_case Ho. by injection Ho as <-. }
    rewrite Hc. destruct a as [o|].
    + destruct (IH _ Hf) as (kept & -> & Hk). exists (o :: kept).
      split; [by rewrite <- app_assoc | by constructor].
    + by apply IH.
Qed.

(** X20.  What [get_orders] keeps of a response: the orders it returns answer,
    one for one and in order, the entries whose clOrdID is truthy; an entry
    with a null or empty clOrdID is skipped, whatever else it holds. *)
Theorem orders_of_kept (response : list json) (orders : list Order.t) :
  Bitmex.orders_of response = Return orders →
  Forall2 (λ res o, Bitmex.order_of res = Return (Some o) ∧ Order.venue o = "BitMEX")
          (List.filter has_client_id response) orders.
Proof.
  intros Hf. destruct (orders_of_from _ _ _ Hf) as (kept & -> & Hk).
  eapply Forall2_impl; [exact Hk|]. intros res o Ho. split; [done|].
  unfold Bitmex.order_of in Ho.
  destruct (getitem res "clOrdID") as [c|e]; [|discriminate Ho].
  cbn [mbind result_mbind result_bind] in Ho.
  destruct (truthy c); [|discriminate Ho].
  repeat bind_case Ho. by injection Ho as <-.
Qed.

End OrderType.

(** ** What [cancel_orders] returns *)

Lemma confirms_mono (entries entries' : list json) (key : hashable) (conf : CancelConf.t) :
  entries ⊆ entries' → confirms entries key conf → confirms entries' key conf.
Proof.
  intros Hsub (Hst & Hkey & i & Hin & Hrest).
  split_and!; [done..|]. exists i. split; [by apply Hsub | done].
Qed.

Lemma store_conf_confirms (confs confs' : gmap hashable CancelConf.t) (i price : json)
    (status : string) :
  Bitmex.cancel_price i = Return price →
  status ∈ ["FILLED"; "CANCELLED"] →
  (status = "FILLED" → getitem i "error" = Return (JStr Bitmex.already_filled)) →
  Bitmex.store_conf confs i status price = Return confs' →
  ∃ key conf, confs' = <[key := conf]> confs ∧ confirms [i] key conf.
Proof.
  intros Hp Hst Hfilled Hs. unfold Bitmex.store_conf in Hs.
  destruct (getitem i "orderID") as [orderID|] eqn:H1; [|discriminate Hs].
  destruct (getitem i "clOrdID") as [clOrdID|] eqn:H2; [|discriminate Hs].
  destruct (getitem i "ordType") as [ordType|] eqn:H3; [|discriminate Hs].
  cbn [mbind result_mbind result_bind] in Hs.
  destruct (hash_key orderID) as [key|] eqn:H4; [|discriminate Hs].
  cbn [result_bind] in Hs. injection Hs as <-.
  eexists key, _. split; [reflexivity|].
  split_and!; [done..|]. exists i. split_and!; try done.
  by apply list_elem_of_singleton.
Qed.

Lemma cancel_entry_step (confs confs' : gmap hashable CancelConf.t) (i : json) :
  Bitmex.cancel_entry confs i = Return confs' →
  confs' = confs ∨ ∃ key conf, confs' = <[key := conf]> confs ∧ confirms [i] key conf.
Proof.
  intros Hc. unfold Bitmex.cancel_entry in Hc.
  destruct (Bitmex.cancel_price i) as [price|] eqn:Hp; [|discriminate Hc].
  cbn [mbind result_mbind result_bind] in Hc.
  assert (Hcancelled : ∀ out,
            Bitmex.store_conf confs i "CANCELLED" price = Return out →
            out = confs ∨ ∃ key conf, out = <[key := conf]> confs ∧ confirms [i] key conf).
  { intros out Hs. right. eapply store_conf_confirms; [exact Hp| | |exact Hs].
    - apply elem_of_cons. right. by apply list_elem_of_singleton.
    - discriminate. }
  assert (Hhandler :
            (ordStatus ← getitem i "ordStatus";
             if eq_str ordStatus "Canceled"
             then Bitmex.store_conf confs i "CANCELLED" price
             else Raise (Bitmex.unhandled_case ordStatus)) = Return confs' →
            confs' = confs
            ∨ ∃ key conf, confs' = <[key := conf]> confs ∧ confirms [i] key conf).
  { intros Hh. destruct (getitem i "ordStatus") as [st|]; [|discriminate Hh].
    cbn [mbind result_mbind result_bind] in Hh.
    destruct (eq_str st "Canceled"); [by apply Hcancelled | discriminate Hh]. }
  destruct (getitem i "error") as [error|e] eqn:Herr;
    cbn [mbind result_mbind result_bind] in Hc.
  - destruct error as [|b|q|s|l|d]; cbn [eq_str except_KeyError] in Hc;
      try discriminate Hc; [left; by injection Hc as <-|].
    destruct (String.eqb_spec s Bitmex.already_filled) as [->|_].
    { destruct (Bitmex.store_conf confs i "FILLED" price) as [out|e] eqn:Hs.
      - injection Hc as <-. right.
        eapply store_conf_confirms; [exact Hp| | |exact Hs].
        * apply elem_of_cons. by left.
        * done.
      - destruct e; try discriminate Hc. by apply Hhandler. }
    destruct (String.eqb_spec s Bitmex.already_canceled) as [->|_];
      [|discriminate Hc].
    destruct (Bitmex.store_conf confs i "CANCELLED" price) as [out|e] eqn:Hs.
    + injection Hc as <-. by apply Hcancelled.
    + destruct e; try discriminate Hc. by apply Hhandler.
  - cbn [except_KeyError] in Hc. destruct e; try discriminate Hc. by apply Hhandler.
Qed.

Lemma cancel_entries_confirm (seen rest : list json) (acc out : gmap hashable CancelConf.t) :
  map_Forall (confirms seen) acc →
  foldM Bitmex.cancel_entry acc rest = Return out →
  map_Forall (confirms (seen ++ rest)) out ∧ (size out ≤ size acc + length rest)%nat.
Proof.
  revert seen acc. induction rest as [|i rest IH]; intros seen acc Hacc Hf.
  - injection Hf as <-. rewrite app_nil_r. split; [done | simpl; lia].
  - cbn [foldM] in Hf.
    destruct (Bitmex.cancel_entry acc i) as [acc'|] eqn:Hi;
      cbn [mbind result_mbind result_bind] in Hf; [|discriminate Hf].
    assert (Hacc' : map_Forall (confirms (seen ++ [i])) acc' ∧ (size acc' ≤ S (size acc))%nat).
    { destruct (cancel_entry_step _ _ _ Hi) as [->|(key & conf & -> & Hconf)].
      - split; [|lia]. eapply map_Forall_impl; [exact Hacc|].
        intros k c. apply confirms_mono. intros x Hx. apply elem_of_app. by left.
      - split.
        + apply map_Forall_insert_2.
          * eapply confirms_mono; [|exact Hconf].
            intros x Hx. apply elem_of_app. by right.
          * eapply map_Forall_impl; [exact Hacc|].
            intros k c. apply confirms_mono. intros x Hx. apply elem_of_app. by left.
        + destruct (acc !! key) eqn:Hk.
          * rewrite map_size_insert_Some by done. lia.
          * rewrite map_size_insert_None by done. lia. }
    destruct Hacc' as [Hall Hsize].
    destruct (IH _ _ Hall Hf) as [Hout Hlen].
    rewrite <- app_assoc in Hout. split; [exact Hout | simpl; lia].
Qed.

Section CancelResult.

Context `{External}.

(** X21.  A returning [cancel_orders] sent one DELETE for the ids it was given and
    built its mapping from the response alone: every confirmation is keyed
    by its venue id, has status FILLED or CANCELLED, and copies the ids, the
    order type (as the venue names it, not normalised) and the price of one
    entry of the response; a FILLED one answers the already-filled message;
    and there are at most as many confirmations as entries. *)
Theorem cancel_orders_confirmations (order_ids : list (option string))
    (w w' : Bitmex.world) (confs : gmap hashable CancelConf.t) :
  Bitmex.cancel_orders (Some order_ids) w = (Return (Some confs), w') →
  Bitmex.sent w' = Bitmex.sent w ++ [DELETE_order order_ids]
  ∧ Bitmex.logged w' = Bitmex.logged w
  ∧ ∃ r response,
      session_send (Bitmex.venue w) (DELETE_order order_ids) = (r, Bitmex.venue w')
      ∧ body r = Some response
      ∧ map_Forall (confirms (cancel_entries response)) confs
      ∧ (size confs ≤ length (cancel_entries response))%nat.
Proof.
  intros Hrun. destruct order_ids as [|[id|] ids]; [discriminate Hrun| |discriminate Hrun].
  cbn [Bitmex.cancel_orders] in Hrun.
  cbv [mbind Bitmex.M_mbind Bitmex.M_bind Bitmex.send Bitmex.lift] in Hrun.
  destruct (session_send (Bitmex.venue w) (DELETE_order (Some id :: ids)))
    as [r v] eqn:Hsend.
  unfold Bitmex.json_of in Hrun. destruct (body r) as [response|] eqn:Hbody;
    [|discriminate Hrun].
  fold (cancel_entries response) in Hrun.
  destruct (foldM Bitmex.cancel_entry ∅ (cancel_entries response)) as [out|] eqn:Hf;
    [|discriminate Hrun].
  cbv [mret Bitmex.M_mret Bitmex.M_ret] in Hrun. injection Hrun as <- <-.
  cbn [Bitmex.sent Bitmex.logged Bitmex.venue]. split_and!; [done..|].
  exists r, response. split_and!; [done..| |].
  - by destruct (cancel_entries_confirm [] _ ∅ out (map_Forall_empty _) Hf).
  - destruct (cancel_entries_confirm [] _ ∅ out (map_Forall_empty _) Hf) as [_ Hs].
    by rewrite map_size_empty in Hs.
Qed.

End CancelResult.

(** ** Error objects and rejected requests *)

Section ErrorAnswers.

Context `{External}.



(** X23.  The confirmations [place_bulk_orders] matches against its orders are
    those of the 200 answers, in the order of the requests: a list body
    gives its elements, an object body itself, any other body nothing; an
    answer with another status code that is not a rejection gives no
    confirmation and one log line; and the loop sends nothing. *)
Theorem classify_collects (rs : list response) (w : Bitmex.world) :
  Forall readable rs →
  Bitmex.for_each Bitmex.classify [] (Some <$> rs) w
  = (Return (flat_map confirmations_of rs),
     {| Bitmex.venue := Bitmex.venue w; Bitmex.sent := Bitmex.sent w;
        Bitmex.logged := Bitmex.logged w ++ flat_map log_of rs |}).
Proof. intros Hall. by rewrite for_each_classify_readable. Qed.

Lemma classify_rejected (acc : list json) (r : response) (w : Bitmex.world)
    (res message : json) :
  rejected r = true → body r = Some res → error_message res = Return message →
  Bitmex.classify acc (Some r) w
  = (Raise (Exception [JNum (inject_Z (status_code r)); message]), w).
Proof.
  intros Hrej Hres Hm. unfold Bitmex.classify. unfold rejected in Hrej.
  assert (H200 : (status_code r =? 200) = false) by lia.
  rewrite H200, Hrej.
  cbv [mbind Bitmex.M_mbind Bitmex.M_bind Bitmex.lift Bitmex.json_of Bitmex.raise].
  rewrite Hres. unfold error_message in Hm.
  destruct (getitem res "error") as [err|]; [|discriminate Hm].
  cbn [mbind result_mbind result_bind] in Hm. by rewrite Hm.
Qed.

(** X24.  A rejected request fails the whole call, after every request was sent:
    when one of the answers has a status code from 401 to 404,
    [place_bulk_orders] raises an Exception carrying that code and the
    venue's error message, returns no record for the orders whose answers
    came before it, and sends nothing more. *)
Theorem place_bulk_orders_rejection (orders : list Intent.t) (w w1 : Bitmex.world)
    (before : list response) (r : response) (after : list (option response))
    (res message : json) :
  Bitmex.submit orders w = (Return ((Some <$> before) ++ Some r :: after), w1) →
  Forall readable before →
  rejected r = true → body r = Some res → error_message res = Return message →
  Bitmex.place_bulk_orders orders w
  = (Raise (Exception [JNum (inject_Z (status_code r)); message]),
     {| Bitmex.venue := Bitmex.venue w1; Bitmex.sent := Bitmex.sent w1;
        Bitmex.logged := Bitmex.logged w1 ++ flat_map log_of before |}).
Proof.
  intros Hsub Hall Hrej Hres Hm.
  rewrite place_bulk_orders_run, Hsub, for_each_app.
  rewrite (for_each_classify_readable _ _ _ Hall).
  cbn [Bitmex.for_each]. rewrite M_bind_run.
  by rewrite (classify_rejected _ _ _ _ _ Hrej Hres Hm).
Qed.

End ErrorAnswers.

(** ** Recent bars *)

Section RecentBars.

Context `{External} `{Web}.

Lemma recent_bar_of_fields (symbol : string) (i : json) :
  bar_fields i →
  ∃ b, BitmexData.recent_bar_of symbol i = Return b
       ∧ RecentBar.symbol b = symbol
       ∧ getitem i "timestamp" = Return (RecentBar.timestamp b)
       ∧ getitem i "open" = Return (RecentBar.open b)
       ∧ getitem i "close" = Return (RecentBar.close b).
Proof.
  unfold bar_fields. rewrite !Forall_cons.
  intros ([ts Hts] & [o Ho] & [h Hh] & [l Hl] & [c Hc] & [v Hv] & _).
  unfold BitmexData.recent_bar_of. rewrite Hts, Ho, Hh, Hl, Hc, Hv.
  eexists. by split_and!.
Qed.

(** X25.  [get_recent_bars] makes one request, with the count as given (it is
    not capped at 750), and from a list of entries holding the six bar
    fields returns one bar per entry, in the order of the answer, under the
    symbol asked for; the timestamp is the venue's value as it came, not
    parsed to an epoch. *)
Theorem get_recent_bars_unparsed (timeframe symbol : string) (n : Z)
    (g : BitmexData.web) (r : response) (s : web_state) (entries : list json) :
  requests_get (BitmexData.site g) (BitmexData.recent_bars_url timeframe symbol n)
  = (r, s) →
  body r = Some (JList entries) →
  Forall bar_fields entries →
  ∃ bars,
    BitmexData.get_recent_bars timeframe symbol n g
    = (Return bars,
       {| BitmexData.site := s;
          BitmexData.fetched :=
            BitmexData.fetched g ++ [BitmexData.recent_bars_url timeframe symbol n] |})
    ∧ Forall2 (λ i b, RecentBar.symbol b = symbol
                      ∧ getitem i "timestamp" = Return (RecentBar.timestamp b)
                      ∧ getitem i "open" = Return (RecentBar.open b)
                      ∧ getitem i "close" = Return (RecentBar.close b))
              entries bars.
Proof.
  intros Hget Hbody Hall. unfold BitmexData.get_recent_bars.
  assert (Hbars : ∃ bars,
            Forall2 (λ i b, BitmexData.recent_bar_of symbol i = Return b
                            ∧ RecentBar.symbol b = symbol
                            ∧ getitem i "timestamp" = Return (RecentBar.timestamp b)
                            ∧ getitem i "open" = Return (RecentBar.open b)
                            ∧ getitem i "close" = Return (RecentBar.close b))
                    entries bars).
  { clear -Hall. induction Hall as [|i entries Hi _ [bars IH]]; [by exists []|].
    destruct (recent_bar_of_fields symbol i Hi) as (b & Hb).
    exists (b :: bars). by constructor. }
  destruct Hbars as [bars Hbars]. exists bars.
  assert (Hfold : foldM (λ bars i, b ← BitmexData.recent_bar_of symbol i;
                                   Return (bars ++ [b])) [] entries = Return bars).
  { apply foldM_collect. exists bars. split; [|done].
    eapply Forall2_impl; [exact Hbars|]. by intros i b [Hb _]. }
  cbv [mbind BitmexData.G_mbind BitmexData.G_bind BitmexData.glift BitmexData.get_json
       Bitmex.json_of] in Hfold |- *.
  rewrite Hget, Hbody. cbn [iter_json]. rewrite Hfold. split; [done|].
  eapply Forall2_impl; [exact Hbars|]. by intros i b (_ & Hrest).
Qed.

End RecentBars.

(** ** Grouping the selected ticks *)

Section GroupTicks.

Context `{Feed}.
Variable build_OHLCV : list BitmexTicks.tick → string → result ohlcv.

Lemma group_ticks_own (own rest held : list BitmexTicks.tick) :
  Forall (λ t, BitmexTicks.symbol t = "XBTUSD") own →
  BitmexTicks.group_ticks (own ++ rest) {["XBTUSD" := held]}
  = BitmexTicks.group_ticks rest {["XBTUSD" := held ++ own]}.
Proof.
  intros Hown. revert held. induction Hown as [|t own Ht _ IH]; intros held.
  - by rewrite app_nil_r.
  - cbn [app BitmexTicks.group_ticks]. rewrite Ht, lookup_singleton_eq, insert_singleton_eq.
    rewrite IH. by rewrite <- app_assoc.
Qed.

(** X26.  Every call replaces what the feed holds: when the selected ticks are
    all of XBTUSD and the bar builder returns, [self.ticks] becomes the
    selected ticks, oldest first, and [self.bars] exactly one bar, built
    from those ticks; nothing of the earlier ticks and bars is kept. *)
Theorem parse_ticks_one_bar (all_ticks selected : list BitmexTicks.tick)
    (now_minute : Z) (st : BitmexTicks.store) (bar : ohlcv) :
  BitmexTicks.select (now_minute - 1) (rev all_ticks) [] = Return selected →
  Forall (λ t, BitmexTicks.symbol t = "XBTUSD") selected →
  build_OHLCV (rev selected) "XBTUSD" = Return bar →
  BitmexTicks.parse_ticks build_OHLCV true all_ticks now_minute st
  = (Return (),
     {| BitmexTicks.ticks := {["XBTUSD" := rev selected]};
        BitmexTicks.bars := {["XBTUSD" := [bar]]} |}).
Proof.
  intros Hsel Hown Hbar. unfold BitmexTicks.parse_ticks. cbn [negb]. rewrite Hsel.
  assert (Hrev : Forall (λ t, BitmexTicks.symbol t = "XBTUSD") (rev selected)).
  { apply Forall_forall. intros t Hin. rewrite Forall_forall in Hown. apply Hown.
    by apply list_elem_of_In, in_rev, list_elem_of_In. }
  change (@BitmexTicks.empty_lists BitmexTicks.tick) with
    ({["XBTUSD" := []]} : gmap string (list BitmexTicks.tick)).
  rewrite <- (app_nil_r (rev selected)) at 1.
  rewrite (group_ticks_own _ [] [] Hrev). cbn [BitmexTicks.group_ticks app].
  unfold BitmexTicks.symbols. cbn [BitmexTicks.build_bars].
  rewrite lookup_singleton_eq, Hbar.
  assert (Hbars : (@BitmexTicks.empty_lists ohlcv) !! "XBTUSD" = Some []) by reflexivity.
  rewrite Hbars. reflexivity.
Qed.

(** X27.  A selected tick of a symbol other than XBTUSD stops the call with a
    KeyError for that symbol: [self.ticks] is left with the ticks grouped
    before it, and [self.bars] is left as it was, so the bars of the call
    before remain. *)
Theorem parse_ticks_foreign_symbol (all_ticks selected own rest : list BitmexTicks.tick)
    (foreign : BitmexTicks.tick) (now_minute : Z) (st : BitmexTicks.store) :
  BitmexTicks.select (now_minute - 1) (rev all_ticks) [] = Return selected →
  rev selected = own ++ foreign :: rest →
  Forall (λ t, BitmexTicks.symbol t = "XBTUSD") own →
  BitmexTicks.symbol foreign ≠ "XBTUSD" →
  BitmexTicks.parse_ticks build_OHLCV true all_ticks now_minute st
  = (Raise (KeyError (BitmexTicks.symbol foreign)),
     {| BitmexTicks.ticks := {["XBTUSD" := own]};
        BitmexTicks.bars := BitmexTicks.bars st |}).
Proof.
  intros Hsel Hsplit Hown Hforeign. unfold BitmexTicks.parse_ticks. cbn [negb].
  rewrite Hsel, Hsplit.
  change (@BitmexTicks.empty_lists BitmexTicks.tick) with
    ({["XBTUSD" := []]} : gmap string (list BitmexTicks.tick)).
  rewrite (group_ticks_own _ _ [] Hown). cbn [BitmexTicks.group_ticks app].
  by rewrite lookup_singleton_ne.
Qed.

End GroupTicks.

(** ** Orders sent before a failure *)

Section PartialSubmission.

Context `{External}.

(** X28.  The MARKET orders are sent before the others are formatted: when a
    non-MARKET order has an unknown order type, [place_bulk_orders] raises
    "Incorrect order type specified." only after one request per MARKET
    order has gone out; no batch request is sent and no record is
    returned for the orders already at the venue. *)
Theorem place_bulk_orders_unknown_type (orders before after : list Intent.t)
    (bad : Intent.t) (singles payloads : list Payload.t) (w : Bitmex.world) :
  formatted_as (List.filter Bitmex.is_market orders) singles →
  List.filter (λ o, negb (Bitmex.is_market o)) orders = before ++ bad :: after →
  formatted_as before payloads → rounds bad →
  Intent.order_type bad ∉ known_order_types →
  ∃ w', Bitmex.place_bulk_orders orders w = (Raise incorrect_order_type, w')
        ∧ Bitmex.sent w' = Bitmex.sent w ++ (POST_order <$> singles)
        ∧ Bitmex.logged w' = Bitmex.logged w.
Proof.
  intros Hs Hsplit Hb Hr Hun.
  rewrite place_bulk_orders_run. unfold Bitmex.submit.
  rewrite non_market_orders_filter, filter_nonempty_self. unfold Bitmex.market_orders.
  destruct (single_orders_run _ _ [] w Hs) as (responses & w1 & Hrun & Hlen & Hsent & Hlog).
  rewrite M_bind_run, Hrun. cbn [app]. rewrite Hsplit.
  assert (Hne : Bitmex.nonempty (before ++ bad :: after) = true) by by destruct before.
  rewrite Hne, !M_bind_run. unfold Bitmex.lift at 1.
  rewrite (format_orders_stops _ _ _ _ Hb Hr Hun).
  by exists w1.
Qed.

End PartialSubmission.

(** ** Polling for more ticks *)

Section Polling.

Context `{Web}.

(** X29.  When the first page of ticks is full (1000 entries) and the second is
    not, [get_recent_ticks] makes exactly two requests: the second asks for
    the ticks from the timestamp of the last tick of the first page on, with
    no end time, and its entries are appended to the first page as they
    come; the selection by minute then runs on both pages together. *)
Theorem get_recent_ticks_two_pages (fuel : nat) (symbol : string) (n : Z)
    (g : BitmexData.web) (t1 t2 : Z) (s1 s2 s3 s4 : web_state)
    (start_iso end_iso ts : string) (r r' : response)
    (front more : list json) (final : json) :
  previous_minute (BitmexData.site g) = (t1, s1) →
  isoformat (t1 + 60 - n * 60) = Return start_iso →
  previous_minute s1 = (t2, s2) →
  isoformat (t2 + 60) = Return end_iso →
  requests_get (time_sleep 1 s2) (BitmexData.ticks_url symbol start_iso end_iso)
  = (r, s3) →
  body r = Some (JList (front ++ [final])) →
  length (front ++ [final]) = 1000%nat →
  getitem final "timestamp" = Return (JStr ts) →
  requests_get s3 (BitmexData.more_ticks_prefix symbol +:+ ts) = (r', s4) →
  body r' = Some (JList more) →
  length more ≠ 1000%nat →
  BitmexData.get_recent_ticks (S fuel) symbol n g
  = Some (BitmexData.ticks_of_minute ((front ++ [final]) ++ more) start_iso,
          {| BitmexData.site := s4;
             BitmexData.fetched :=
               BitmexData.fetched g
               ++ [BitmexData.ticks_url symbol start_iso end_iso;
                   BitmexData.more_ticks_prefix symbol +:+ ts] |}).
Proof.
  intros Hp1 Hiso1 Hp2 Hiso2 Hget Hbody Hlen Hts Hget' Hbody' Hmore.
  unfold BitmexData.get_recent_ticks.
  cbv [mbind mret BitmexData.G_mbind BitmexData.G_bind BitmexData.G_mret
       BitmexData.G_ret BitmexData.glift BitmexData.get_json
       BitmexData.call_previous_minute BitmexData.sleep Bitmex.json_of].
  rewrite Hp1, Hiso1. cbn [BitmexData.site BitmexData.fetched].
  rewrite Hp2, Hiso2. cbn [BitmexData.site BitmexData.fetched].
  rewrite Hget, Hbody. cbn [iter_json]. rewrite Hlen.
  change (Z.of_nat 1000 =? 1000) with true. cbn [BitmexData.poll_more].
  rewrite py_index_last. cbn [mbind result_mbind result_bind]. rewrite Hts.
  cbn [mbind result_mbind result_bind BitmexData.str_add]. unfold BitmexData.get_json.
  cbn [BitmexData.site BitmexData.fetched]. rewrite Hget'.
  unfold Bitmex.json_of. rewrite Hbody'. cbn [iter_json].
  destruct (Z.eqb_spec (Z.of_nat (length more)) 1000) as [Heq|_]; [lia|].
  by rewrite <- (app_assoc (BitmexData.fetched g)).
Qed.

End Polling.

(** ** The further properties at sample inputs *)

Lemma get_origin_timestamp_never_fetches_witness :
  (@BitmexData.get_origin_timestamp scripted_venue scripted_web "ETHUSD" (site_with [])).1
  = Return 1533200520
  ∧ (@BitmexData.get_origin_timestamp scripted_venue scripted_web "ETHUSD" (site_with [])).2
    = site_with [].
Proof.
  destruct (@get_origin_timestamp_never_fetches scripted_venue scripted_web "ETHUSD"
              (site_with [])) as (Hsame & Hset & _ & _).
  split; [by apply Hset | exact Hsame].
Defined.

Lemma get_bars_in_period_capped_witness :
  ∃ outcome,
    @BitmexData.get_bars_in_period scripted_venue scripted_web "XBTUSD" 1577836800 2000
      (site_with [ok (JList two_bars)])
    = (outcome,
       @BitmexData.Build_web scripted_web []
         [BitmexData.bars_in_period_url "XBTUSD" "1577836800" 750])
    ∧ ∀ bars, outcome = Return bars →
        Forall2 (λ entry b, @BitmexData.bar_of scripted_venue "XBTUSD" entry = Return b)
                two_bars bars
        ∧ length bars = length two_bars
        ∧ Forall (λ b, Bar.symbol b = "XBTUSD") bars.
Proof.
  exact (@get_bars_in_period_capped scripted_venue scripted_web "XBTUSD" 1577836800 2000
           (site_with [ok (JList two_bars)]) "1577836800" (ok (JList two_bars)) []
           two_bars eq_refl eq_refl eq_refl).
Defined.

Lemma get_recent_ticks_one_page_witness :
  @BitmexData.get_recent_ticks scripted_web 0 "XBTUSD" 1 (site_with [ok (JList minute_page)])
  = Some (Return [trade_tick "1577836805" 9500; trade_tick "1577836830" 9501],
          @BitmexData.Build_web scripted_web []
            [BitmexData.ticks_url "XBTUSD" "1577836800" "1577836860"]).
Proof.
  refine (proj1 (@get_recent_ticks_one_page scripted_web 0 "XBTUSD" 1
                   (site_with [ok (JList minute_page)]) 1577836800 1577836800
                   [ok (JList minute_page)] [ok (JList minute_page)] []
                   "1577836800" "1577836860" (ok (JList minute_page)) minute_page
                   eq_refl eq_refl eq_refl eq_refl eq_refl eq_refl _)).
  simpl. lia.
Defined.

Lemma ticks_of_minute_selects_witness :
  (∃ m median,
     @parse_minute scripted_web (JStr "1577836800") = Return m
     ∧ minute_page !! (length minute_page / 2)%nat = Some median
     ∧ @tick_minute scripted_web m median
     ∧ [trade_tick "1577836805" 9500; trade_tick "1577836830" 9501]
       `sublist_of` minute_page
     ∧ Forall (@tick_minute scripted_web m)
              [trade_tick "1577836805" 9500; trade_tick "1577836830" 9501]
     ∧ ∀ i, i ∈ minute_page → @tick_minute scripted_web m i →
            i ∈ [trade_tick "1577836805" 9500; trade_tick "1577836830" 9501])
  ∧ @BitmexData.ticks_of_minute scripted_web minute_page "1577836860"
    = Raise BitmexData.timestamp_mismatch.
Proof.
  split.
  - apply (proj1 (@ticks_of_minute_selects scripted_web minute_page "1577836800")).
    reflexivity.
  - apply (proj2 (@ticks_of_minute_selects scripted_web minute_page "1577836860")
             (trade_tick "1577836830" 9501) 0 1).
    + reflexivity.
    + exists (JStr "1577836830"). split; reflexivity.
    + reflexivity.
    + lia.
Defined.

Lemma select_target_minute_witness :
  ∃ opening body,
    rev selected_ticks = opening ++ body
    ∧ (opening = [] ∨ ∃ t, opening = [t] ∧ @has_minute epoch_feed (5 - 1) t)
    ∧ Forall (@has_minute epoch_feed 5) body
    ∧ (payload_of_tick <$> rev selected_ticks) `sublist_of` (payload_of_tick <$> tick_stream).
Proof.
  apply (@select_target_minute epoch_feed 5 tick_stream selected_ticks). reflexivity.
Defined.

Lemma select_stops_at_opening_witness :
  @BitmexTicks.select epoch_feed 5
    ([raw_tick "XBTUSD" "1577837160" 9502; raw_tick "XBTUSD" "1577837130" 9501;
      raw_tick "XBTUSD" "1577837100" 9500]
     ++ raw_tick "XBTUSD" "1577837090" 9499 :: [raw_tick "XBTUSD" "1577836980" 9498]) []
  = @BitmexTicks.select epoch_feed 5
      ([raw_tick "XBTUSD" "1577837160" 9502; raw_tick "XBTUSD" "1577837130" 9501;
        raw_tick "XBTUSD" "1577837100" 9500]
       ++ [raw_tick "XBTUSD" "1577837090" 9499]) [].
Proof.
  apply (@select_stops_at_opening epoch_feed 5). reflexivity.
Defined.

Lemma parse_ticks_at_minute_zero_witness :
  @BitmexTicks.parse_ticks epoch_feed trades_only true tick_stream 0 empty_store
  = (Return (),
     @BitmexTicks.Build_store epoch_feed {["XBTUSD" := []]} {["XBTUSD" := [[]]]}).
Proof.
  apply (@parse_ticks_at_minute_zero epoch_feed trades_only tick_stream empty_store []).
  - repeat constructor; eexists; (split; [reflexivity | by vm_compute]).
  - reflexivity.
Defined.

Lemma parse_ticks_one_bar_witness :
  @BitmexTicks.parse_ticks epoch_feed trades_only true tick_stream 6 empty_store
  = (Return (),
     @BitmexTicks.Build_store epoch_feed {["XBTUSD" := rev selected_ticks]}
       {["XBTUSD" := [[JNum 9499; JNum 9500; JNum 9501]]]}).
Proof.
  apply (@parse_ticks_one_bar epoch_feed trades_only tick_stream selected_ticks 6
           empty_store [JNum 9499; JNum 9500; JNum 9501]).
  - reflexivity.
  - repeat constructor.
  - reflexivity.
Defined.

Lemma parse_ticks_foreign_symbol_witness :
  @BitmexTicks.parse_ticks epoch_feed trades_only true mixed_stream 6 empty_store
  = (Raise (KeyError "ETHUSD"),
     @BitmexTicks.Build_store epoch_feed
       {["XBTUSD" := [parsed_tick "XBTUSD" 1577837090 9499;
                      parsed_tick "XBTUSD" 1577837100 9500]]}
       {["XBTUSD" := [[JNum 9400]]]}).
Proof.
  apply (@parse_ticks_foreign_symbol epoch_feed trades_only mixed_stream
           [parsed_tick "XBTUSD" 1577837140 9501; parsed_tick "ETHUSD" 1577837130 130;
            parsed_tick "XBTUSD" 1577837100 9500; parsed_tick "XBTUSD" 1577837090 9499]
           [parsed_tick "XBTUSD" 1577837090 9499; parsed_tick "XBTUSD" 1577837100 9500]
           [parsed_tick "XBTUSD" 1577837140 9501]
           (parsed_tick "ETHUSD" 1577837130 130) 6 empty_store).
  - reflexivity.
  - reflexivity.
  - repeat constructor.
  - discriminate.
Defined.

Lemma get_recent_bars_unparsed_witness :
  ∃ bars,
    @BitmexData.get_recent_bars scripted_web "1m" "XBTUSD" 2000
      (site_with [ok (JList two_bars)])
    = (Return bars,
       @BitmexData.Build_web scripted_web []
         [BitmexData.recent_bars_url "1m" "XBTUSD" 2000])
    ∧ Forall2 (λ i b, RecentBar.symbol b = "XBTUSD"
                      ∧ getitem i "timestamp" = Return (RecentBar.timestamp b)
                      ∧ getitem i "open" = Return (RecentBar.open b)
                      ∧ getitem i "close" = Return (RecentBar.close b))
              two_bars bars.
Proof.
  apply (@get_recent_bars_unparsed scripted_web "1m" "XBTUSD" 2000
           (site_with [ok (JList two_bars)]) (ok (JList two_bars)) [] two_bars).
  - reflexivity.
  - reflexivity.
  - repeat constructor; eexists; reflexivity.
Defined.

Lemma format_orders_keeps_ids_witness :
  Payload.clOrdID <$> mixed_payloads = Intent.order_id <$> mixed_orders
  ∧ Payload.symbol <$> mixed_payloads = Intent.symbol <$> mixed_orders
  ∧ Payload.text <$> mixed_payloads = Intent.metatype <$> mixed_orders
  ∧ Payload.side <$> mixed_payloads
    = (λ o, if String.eqb (Intent.direction o) "LONG" then "Buy" else "Sell")
        <$> mixed_orders
  ∧ Forall (λ p, Payload.execInst p = None) mixed_payloads
  ∧ Forall (λ o, Intent.order_type o ∈ known_order_types) mixed_orders.
Proof.
  apply (@format_orders_keeps_ids scripted_venue mixed_orders mixed_payloads).
  reflexivity.
Defined.

Lemma trailing_unknown : Intent.order_type trailing_order ∉ known_order_types.
Proof.
  intros Hin. unfold known_order_types in Hin.
  repeat (apply elem_of_cons in Hin as [Hin|Hin]; [discriminate Hin|]).
  by apply elem_of_nil in Hin.
Defined.

Lemma trailing_rounds : @rounds scripted_venue trailing_order.
Proof. split; eexists; reflexivity. Defined.

Lemma format_orders_unknown_type_witness :
  @Bitmex.format_orders scripted_venue ([limit_order] ++ trailing_order :: [market_order])
  = Raise incorrect_order_type
  ∧ ∀ formatted,
      @Bitmex.format_orders scripted_venue ([limit_order] ++ trailing_order :: [market_order])
      ≠ Return formatted.
Proof.
  apply (@format_orders_unknown_type scripted_venue [limit_order] [market_order]
           trailing_order [payload_of limit_order "Limit" "GoodTillCancel" (Some 90%Q) None]).
  - repeat constructor.
  - exact trailing_rounds.
  - exact trailing_unknown.
Defined.

Lemma format_order_resting_witness :
  ∃ payload,
    @Bitmex.format_orders scripted_venue [stop_limit_order] = Return [payload]
    ∧ Payload.price payload = Some 95%Q ∧ Payload.stopPx payload = None
    ∧ Payload.orderQty payload = Some 10%Q
    ∧ Payload.timeInForce payload = Some "GoodTillCancel"
    ∧ Payload.ordType payload
      = (if String.eqb (Intent.order_type stop_limit_order) "LIMIT"
         then "Limit" else "StopLimit").
Proof.
  apply (@format_order_resting scripted_venue stop_limit_order (Some 95%Q) (Some 10%Q)).
  - right. reflexivity.
  - reflexivity.
  - reflexivity.
Defined.

Lemma if_touched_unknown : ¬ known_type (JStr "MarketIfTouched").
Proof.
  intros (venue & canonical & [= <-] & Hin). unfold type_table in Hin.
  repeat (apply elem_of_cons in Hin as [[=]|Hin]). by apply elem_of_nil in Hin.
Defined.

Lemma new_known : known_status (JStr "New").
Proof.
  exists "New", "NEW". split; [reflexivity|]. unfold status_table.
  do 2 (apply elem_of_cons; right). apply elem_of_cons. by left.
Defined.

Lemma ord_type_normalisation_witness :
  ¬ known_type (JStr "MarketIfTouched")
  ∧ Bitmex.ord_type_name (JStr "MarketIfTouched")
    = Raise (Exception [JStr "MarketIfTouched"])
  ∧ @Bitmex.order_of scripted_venue (typed_entry "c-20" "MarketIfTouched")
    = Raise (Exception [JStr "MarketIfTouched"])
  ∧ @Bitmex.execution_of scripted_venue (typed_entry "c-20" "MarketIfTouched")
    = Raise (Exception [JStr "MarketIfTouched"]).
Proof.
  split; [exact if_touched_unknown|].
  destruct (@ord_type_normalisation scripted_venue (JStr "MarketIfTouched"))
    as (_ & _ & _ & _ & Hraise).
  destruct (Hraise if_touched_unknown) as (Hname & Horder & Hexec).
  split_and!.
  - exact Hname.
  - apply (Horder _ (JStr "c-20") (JStr "Buy") (JStr "New"));
      [reflexivity.. | exact new_known].
  - apply (Hexec _ (JStr "AddedLiquidity") (JStr "Buy") (JStr "New"));
      [reflexivity.. | exact new_known].
Defined.

Lemma format_orders_type_round_trip_witness :
  Forall2 (λ order payload,
             Bitmex.ord_type_name (JStr (Payload.ordType payload))
             = Return (Intent.order_type order)) mixed_orders mixed_payloads.
Proof.
  apply (@format_orders_type_round_trip scripted_venue mixed_orders mixed_payloads).
  reflexivity.
Defined.

Lemma orders_of_kept_witness :
  Forall2 (λ res o, @Bitmex.order_of scripted_venue res = Return (Some o)
                    ∧ Order.venue o = "BitMEX")
          (List.filter has_client_id
             [typed_entry "c-21" "Limit"; anonymous_entry; typed_entry "c-22" "Stop"])
          [typed_order "c-21" "LIMIT"; typed_order "c-22" "STOP"].
Proof.
  apply (@orders_of_kept scripted_venue
           [typed_entry "c-21" "Limit"; anonymous_entry; typed_entry "c-22" "Stop"]
           [typed_order "c-21" "LIMIT"; typed_order "c-22" "STOP"]).
  reflexivity.
Defined.

Lemma cancel_orders_confirmations_witness :
  ∃ r response,
    scripted_send [ok (JList [canceled_entry; filled_race_entry])]
      (DELETE_order [Some "v-3"; Some "v-4"]) = (r, [])
    ∧ body r = Some response
    ∧ map_Forall (confirms (cancel_entries response)) race_confirmations
    ∧ (size race_confirmations ≤ length (cancel_entries response))%nat.
Proof.
  apply (@cancel_orders_confirmations scripted_venue [Some "v-3"; Some "v-4"]
           (world_with [ok (JList [canceled_entry; filled_race_entry])])
           (@Bitmex.Build_world scripted_venue []
              [DELETE_order [Some "v-3"; Some "v-4"]] [])
           race_confirmations).
  reflexivity.
Defined.



Lemma classify_collects_witness :
  Bitmex.for_each Bitmex.classify []
    (Some <$> [ok (confirmation "c-12" "Filled" JNull); overloaded;
               ok (JList [confirmation "c-13" "New" JNull;
                          confirmation "c-10" "New" (JNum 95)])])
    (world_with [])
  = (Return [confirmation "c-12" "Filled" JNull; confirmation "c-13" "New" JNull;
             confirmation "c-10" "New" (JNum 95)],
     @Bitmex.Build_world scripted_venue [] []
       [LogOverload 503 "The system is currently overloaded."]).
Proof.
  apply (@classify_collects scripted_venue
           [ok (confirmation "c-12" "Filled" JNull); overloaded;
            ok (JList [confirmation "c-13" "New" JNull;
                       confirmation "c-10" "New" (JNum 95)])]
           (world_with [])).
  constructor; [|constructor; [|constructor; [|constructor]]].
  - split_and!; [by eexists | reflexivity | discriminate].
  - split_and!; [by eexists | reflexivity |].
    intros _. eexists _, _. split; reflexivity.
  - split_and!; [by eexists | reflexivity | discriminate].
Defined.

Lemma place_bulk_orders_rejection_witness :
  Bitmex.place_bulk_orders mixed_orders
    (world_with [ok (confirmation "c-12" "Filled" JNull);
                 error_object "Invalid API Key."])
  = (Raise (Exception [JNum 401; JStr "Invalid API Key."]),
     @Bitmex.Build_world scripted_venue []
       ((POST_order <$> mixed_singles) ++ [POST_order_bulk mixed_batch]) []).
Proof.
  apply (@place_bulk_orders_rejection scripted_venue mixed_orders
           (world_with [ok (confirmation "c-12" "Filled" JNull);
                        error_object "Invalid API Key."])
           (@Bitmex.Build_world scripted_venue []
              ((POST_order <$> mixed_singles) ++ [POST_order_bulk mixed_batch]) [])
           [ok (confirmation "c-12" "Filled" JNull)]
           (error_object "Invalid API Key.") []
           (JDict (error_fields "Invalid API Key.")) (JStr "Invalid API Key.")).
  - reflexivity.
  - constructor; [|constructor].
    split_and!; [by eexists | reflexivity | discriminate].
  - reflexivity.
  - reflexivity.
  - reflexivity.
Defined.

Lemma place_bulk_orders_unknown_type_witness :
  ∃ w', Bitmex.place_bulk_orders [market_order; trailing_order; limit_order]
          (world_with [ok (confirmation "c-12" "Filled" JNull)])
        = (Raise incorrect_order_type, w')
        ∧ Bitmex.sent w' = [] ++ (POST_order <$> mixed_singles)
        ∧ Bitmex.logged w' = [].
Proof.
  apply (@place_bulk_orders_unknown_type scripted_venue
           [market_order; trailing_order; limit_order] [] [limit_order] trailing_order
           mixed_singles []).
  - repeat constructor.
  - reflexivity.
  - constructor.
  - exact trailing_rounds.
  - exact trailing_unknown.
Defined.

Lemma get_recent_ticks_two_pages_witness :
  @BitmexData.get_recent_ticks scripted_web 1 "XBTUSD" 1
    (site_with [ok (JList (full_page_front ++ [full_page_final])); ok (JList short_page)])
  = Some (@BitmexData.ticks_of_minute scripted_web
            ((full_page_front ++ [full_page_final]) ++ short_page) "1577836800",
          @BitmexData.Build_web scripted_web []
            [BitmexData.ticks_url "XBTUSD" "1577836800" "1577836860";
             BitmexData.more_ticks_prefix "XBTUSD" +:+ "1577836859"]).
Proof.
  apply (@get_recent_ticks_two_pages scripted_web 0 "XBTUSD" 1
           (site_with [ok (JList (full_page_front ++ [full_page_final]));
                       ok (JList short_page)])
           1577836800 1577836800
           [ok (JList (full_page_front ++ [full_page_final])); ok (JList short_page)]
           [ok (JList (full_page_front ++ [full_page_final])); ok (JList short_page)]
           [ok (JList short_page)] []
           "1577836800" "1577836860" "1577836859"
           (ok (JList (full_page_front ++ [full_page_final]))) (ok (JList short_page))
           full_page_front short_page full_page_final).
  - reflexivity.
  - reflexivity.
  - reflexivity.
  - reflexivity.
  - reflexivity.
  - reflexivity.
  - reflexivity.
  - reflexivity.
  - reflexivity.
  - reflexivity.
  - simpl. lia.
Defined.
